(** * QuMail: the layered encryption pipeline and its key acquisition

    A shallow embedding of [crypto_services.py], [qkd_service.py],
    [pqc_key_server.py], of the sending and the receiving path of
    [email_controller.py] and of the paths of [firebase_directory.py],
    with the properties of the pipeline proved over it.

    Python values are embedded as follows: [bytes] is a list of
    [Byte.byte], [str] is [string] (its UTF-8 bytes), [int] is [Z], a
    [dict] with string keys is an insertion-ordered association list when
    it is a JSON document and a [gmap] when it is a store (cache, table).
    Exceptions are values of [exn]; a method of a stateful object is a
    state-passing function.  Functions of external libraries (SHA-256,
    AES-GCM, PBKDF2, Kyber, base64, json) are parameters. *)

From Stdlib Require Import ZArith List Bool Lia.
From Stdlib Require Import Strings.Byte Strings.String Strings.Ascii.
From Stdlib Require Import DecimalString DecimalZ DecimalPos.
From stdpp Require Import base tactics option list gmap strings vector.
From Equations Require Import Equations.
Import ListNotations.

Local Open Scope Z_scope.
Local Open Scope list_scope.

(** ** Bytes *)

Abbreviation bytes := (list byte).

#[global] Instance byte_eq_dec : EqDecision byte := Byte.byte_eq_dec.

Definition byte_of_N (n : N) : byte :=
  match Byte.of_N (N.land n 255) with Some b => b | None => x00 end.

(** [x ^ y] on two bytes, bit by bit. *)
Definition byte_xor (x y : byte) : byte :=
  let '(x0, (x1, (x2, (x3, (x4, (x5, (x6, x7))))))) := Byte.to_bits x in
  let '(y0, (y1, (y2, (y3, (y4, (y5, (y6, y7))))))) := Byte.to_bits y in
  Byte.of_bits (xorb x0 y0, (xorb x1 y1, (xorb x2 y2, (xorb x3 y3,
               (xorb x4 y4, (xorb x5 y5, (xorb x6 y6, xorb x7 y7))))))).

(** [bytes(x ^ y for x, y in zip(a, b))]: [zip] stops at the shorter one. *)
Definition xor_zip (a b : bytes) : bytes := zip_with byte_xor a b.

(** [a.ljust(width, fill)] *)
Definition ljust (a : bytes) (width : nat) (fill : byte) : bytes :=
  a ++ replicate (width - length a) fill.

(** Python's [seq[:n]] for an integer [n] of any sign. *)
Definition slice_to {A} (l : list A) (n : Z) : list A :=
  if 0 <=? n then take (Z.to_nat n) l
  else take (length l - Z.to_nat (- n))%nat l.

Definition len {A} (l : list A) : Z := Z.of_nat (length l).

(** The byte with only bit [i] set, and a sequence with bit [i] flipped
    (bit [i mod 8] of byte [i / 8]). *)
Definition bit_mask (i : nat) : byte := byte_of_N (2 ^ N.of_nat (i mod 8)).

Definition flip_bit (i : nat) (b : bytes) : bytes :=
  alter (fun x => byte_xor x (bit_mask i)) (i / 8)%nat b.

(** ** Strings *)

(** [s.encode('utf-8')] of a [str] held as its UTF-8 bytes. *)
Definition encode_utf8 (s : string) : bytes := list_byte_of_string s.

(** Well-formed UTF-8 (RFC 3629), which [bytes.decode('utf-8')] demands. *)
Fixpoint utf8_valid_N (l : list N) : bool :=
  let cont n := ((128 <=? n) && (n <=? 191))%N in
  match l with
  | [] => true
  | a :: r =>
      if (a <=? 127)%N then utf8_valid_N r
      else match r with
      | b :: r1 =>
          if ((194 <=? a) && (a <=? 223))%N then cont b && utf8_valid_N r1
          else match r1 with
          | c :: r2 =>
              if ((224 <=? a) && (a <=? 239))%N then
                (if (a =? 224)%N then (160 <=? b) && (b <=? 191)
                 else if (a =? 237)%N then (128 <=? b) && (b <=? 159)
                 else cont b)%N
                && cont c && utf8_valid_N r2
              else match r2 with
              | d :: r3 =>
                  ((240 <=? a) && (a <=? 244))%N
                  && (if (a =? 240)%N then (144 <=? b) && (b <=? 191)
                      else if (a =? 244)%N then (128 <=? b) && (b <=? 143)
                      else cont b)%N
                  && cont c && cont d && utf8_valid_N r3
              | [] => false
              end
          | [] => false
          end
      | [] => false
      end
  end.

Definition utf8_valid (b : bytes) : bool := utf8_valid_N (map Byte.to_N b).

Definition hex_digit (n : N) : ascii :=
  match String.get (N.to_nat n) "0123456789abcdef" with
  | Some c => c
  | None => "0"%char
  end.

(** [b.hex()] *)
Fixpoint hex (b : bytes) : string :=
  match b with
  | [] => EmptyString
  | x :: r =>
      let n := Byte.to_N x in
      String (hex_digit (n / 16)) (String (hex_digit (n mod 16)) (hex r))
  end.

Definition hex_value (c : ascii) : option N :=
  let n := N_of_ascii c in
  if ((48 <=? n) && (n <=? 57))%N then Some (n - 48)%N
  else if ((97 <=? n) && (n <=? 102))%N then Some (n - 87)%N
  else if ((65 <=? n) && (n <=? 70))%N then Some (n - 55)%N
  else None.

Definition is_ascii_space (c : ascii) : bool :=
  let n := N_of_ascii c in ((n =? 32) || ((9 <=? n) && (n <=? 13)))%N.

(** [bytes.fromhex(s)]: pairs of hex digits, white space allowed between
    the pairs; [None] stands for the [ValueError]. *)
Fixpoint fromhex (s : string) : option bytes :=
  match s with
  | EmptyString => Some []
  | String c s' =>
      if is_ascii_space c then fromhex s'
      else match s' with
      | EmptyString => None
      | String d s'' =>
          match hex_value c, hex_value d with
          | Some h, Some l => cons (byte_of_N (16 * h + l)) <$> fromhex s''
          | _, _ => None
          end
      end
  end.

(** [s.replace('.', '(dot)')] *)
Fixpoint replace_dot (s : string) : string :=
  match s with
  | EmptyString => EmptyString
  | String c s' =>
      if Ascii.eqb c "."%char then ("(dot)" ++ replace_dot s')%string
      else String c (replace_dot s')
  end.

(** The truth value of an optional [str] ([None] and [''] are false). *)
Definition truthy (o : option string) : bool :=
  match o with
  | Some s => negb (String.eqb s EmptyString)
  | None => false
  end.

(** ** Exceptions and results *)

Inductive exn :=
| KeyError (key : string)
| TypeError
| AttributeError
| ValueError (what : string)
| InvalidTag
| EncryptionError (msg : string)
| DecryptionError (msg : string)
| QKDServiceError (msg : string)
| HTTPStatusError (status_code : Z)
| ConnectError
| NameError (name : string).

Inductive result (A : Type) :=
| Return (a : A)
| Raise (e : exn).
Arguments Return {A} a.
Arguments Raise {A} e.

#[global] Instance result_ret : MRet result := fun A a => Return a.
#[global] Instance result_bind : MBind result := fun A B k r =>
  match r with Return a => k a | Raise e => Raise e end.

Definition of_option {A} (o : option A) (e : exn) : result A :=
  match o with Some a => Return a | None => Raise e end.

(** ** Python values: JSON documents and what [decrypt] returns *)

#[local] Unset Elimination Schemes.
Inductive pyval :=
| PNone
| PBool (b : bool)
| PInt (z : Z)
| PStr (s : string)
| PBytes (b : bytes)
| PList (l : list pyval)
| PDict (d : list (string * pyval)).
#[local] Set Elimination Schemes.

Fixpoint assoc_get {V} (d : list (string * V)) (k : string) : option V :=
  match d with
  | [] => None
  | (k', v) :: d' => if String.eqb k' k then Some v else assoc_get d' k
  end.

(** [d[k] = v]: an existing key keeps its place, a new one goes last. *)
Fixpoint assoc_set {V} (d : list (string * V)) (k : string) (v : V)
    : list (string * V) :=
  match d with
  | [] => [(k, v)]
  | (k', v') :: d' =>
      if String.eqb k' k then (k, v) :: d' else (k', v') :: assoc_set d' k v
  end.

(** [v[k]] for a string key. *)
Definition py_getitem (v : pyval) (k : string) : result pyval :=
  match v with
  | PDict d => of_option (assoc_get d k) (KeyError k)
  | _ => Raise TypeError
  end.

(** [v.get(k, default)] *)
Definition py_get (v : pyval) (k : string) (default : pyval) : result pyval :=
  match v with
  | PDict d => Return (match assoc_get d k with Some x => x | None => default end)
  | _ => Raise AttributeError
  end.

(** [v[k] = x] *)
Definition py_setitem (v : pyval) (k : string) (x : pyval) : result pyval :=
  match v with
  | PDict d => Return (PDict (assoc_set d k x))
  | _ => Raise TypeError
  end.

(** What [for x in v] goes through. *)
Definition py_iter (v : pyval) : result (list pyval) :=
  match v with
  | PList l => Return l
  | PDict d => Return (map (fun kv => PStr (fst kv)) d)
  | PStr s => Return (map (fun c => PStr (String c EmptyString)) (list_ascii_of_string s))
  | PBytes b => Return (map (fun x => PInt (Z.of_N (Byte.to_N x))) b)
  | _ => Raise TypeError
  end.

(** [v == n] for an integer literal [n] ([True == 1] holds in Python). *)
Definition py_eq_int (v : pyval) (n : Z) : bool :=
  match v with
  | PInt z => z =? n
  | PBool b => (if b then 1 else 0) =? n
  | _ => false
  end.

(** [v == s] for a string literal [s]. *)
Definition py_eq_str (v : pyval) (s : string) : bool :=
  match v with
  | PStr s' => String.eqb s' s
  | _ => false
  end.

(** Documents [json.dumps] accepts and [json.loads] gives back as they
    were: no [bytes], and no key twice in a dictionary. *)
Fixpoint json_plain (v : pyval) : bool :=
  match v with
  | PBytes _ => false
  | PList l => forallb json_plain l
  | PDict d =>
      bool_decide (NoDup (map fst d)) && forallb (fun kv => json_plain (snd kv)) d
  | _ => true
  end.

(** ** The simulated quantum key source ([qkd_service.py]) *)

Module MockQKDClient.

Record t := { connected : bool }.

Section Derivation.

(** [hashes.Hash(hashes.SHA256())]: a digest has 32 bytes. *)
Variable sha256 : bytes -> vec byte 32.

Definition sha256_digest (data : bytes) : bytes := vec_to_list (sha256 data).

Lemma sha256_digest_length data : length (sha256_digest data) = 32%nat.
Proof. apply length_vec_to_list. Qed.

(** The [while len(key) < key_length] loop of [get_deterministic_key]:
    each turn hashes the seed, appends the block to the key and takes
    the block as the next seed. *)
Equations? expand_key (seed key : bytes) (key_length : Z) : bytes
  by wf (Z.to_nat (key_length - len key)) lt :=
  expand_key seed key key_length with decide (len key < key_length) => {
    | left _ :=
        let next_block := sha256_digest seed in
        expand_key next_block (key ++ next_block) key_length
    | right _ := key }.
Proof.
  subst next_block. unfold len in *.
  rewrite length_app, sha256_digest_length. lia.
Qed.

Definition get_deterministic_key (self : t)
    (key_id : string) (key_length : Z) : bytes :=
  let seed := sha256_digest (encode_utf8 key_id) in
  let key := expand_key seed [] key_length in
  slice_to key key_length.

(** The derivation as the specification words it: the seed is the hash
    of the identifier, each block is the hash of the block before it
    (the first one the hash of the seed), and the blocks are
    concatenated and cut to the requested length. *)
Fixpoint hash_chain (seed : bytes) (blocks : nat) : list bytes :=
  match blocks with
  | O => []
  | S blocks' =>
      let block := sha256_digest seed in block :: hash_chain block blocks'
  end.

Definition blocks_needed (n : Z) : nat := Z.to_nat ((n + 31) / 32).

Definition derive_spec (key_id : string) (n : Z) : bytes :=
  let seed := sha256_digest (encode_utf8 key_id) in
  take (Z.to_nat n) (concat (hash_chain seed (blocks_needed n))).

End Derivation.

End MockQKDClient.

(** ** External libraries *)

(** The functions the program takes from [cryptography], [kyberk2so],
    [base64] and [json].  A fixed output size is part of the type.
    Randomness a library draws by itself is passed as [coins]. *)
Class Primitives := {
  (** [hashes.Hash(hashes.SHA256())] *)
  sha256 : bytes -> vec byte 32;
  (** [PBKDF2HMAC(SHA256, length, salt, iterations).derive(key_material)] *)
  pbkdf2_hmac_sha256 :
    forall length : nat, bytes -> Z -> bytes -> vec byte length;
  (** AES in GCM mode, no associated data: the counter-mode keystream
      applied to the data, and the 16-byte tag of a ciphertext. *)
  gcm_ctr : bytes -> bytes -> bytes -> bytes;
  gcm_tag : bytes -> bytes -> bytes -> vec byte 16;
  (** Kyber-512 *)
  kem_keypair_512 : bytes -> bytes * bytes;
  kem_encrypt_512 : bytes -> bytes -> result (bytes * vec byte 32);
  kem_decrypt_512 : bytes -> bytes -> result (vec byte 32);
  (** [base64]; [None] is [binascii.Error] *)
  b64encode : bytes -> string;
  b64decode : string -> option bytes;
  (** [json]; [None] is [JSONDecodeError] *)
  json_dumps : pyval -> string;
  json_loads : string -> option pyval
}.

(** ** The world a process runs in *)

(** What the model records of a run, in order. *)
Inductive event :=
| EvQuantumKeyRequest (key_length_bytes : Z) (recipient_email : option string)
| EvSymmetricKeyRequest (key_length_bytes : Z)
| EvSymmetricKeyRetrieval (key_id : string)
| EvKdf
| EvAeadEncrypt
| EvAeadDecrypt
| EvKemEncapsulate
| EvKemDecapsulate
| EvOtpMask.

#[global] Instance event_eq_dec : EqDecision event.
Proof. solve_decision. Defined.

(** The record published in the directory under [qkd_keys/]: the
    metadata of a quantum key without its bytes. *)
Record PublishedMetadata := {
  pub_key_id : string;
  pub_key_length_bytes : Z;
  pub_timestamp : Z;
  pub_recipient_email : option string;
  pub_source : string
}.

(** [key_metadata] of [QKDService]. *)
Record KeyMetadata := {
  km_key_id : string;
  km_key_hex : string;
  km_key_length_bytes : Z;
  km_timestamp : Z;
  km_recipient_email : option string;
  km_source : string
}.

Record QKDServiceObject := {
  qkd_client : option MockQKDClient.t;
  _quantum_keys_cache : gmap string KeyMetadata
}.

(** [CryptoService]: of its attributes only [qkd_service] holds state. *)
Record CryptoServiceObject := { qkd_service : QKDServiceObject }.

Record World := {
  (** the bytes [os.urandom] returns, and how many were drawn *)
  entropy : nat -> byte;
  drawn : nat;
  (** the event loop's clock, in ticks *)
  clock : Z;
  (** the directory: whether a request reaches it, and [qkd_keys/] *)
  firebase_up : bool;
  firebase_qkd_keys : gmap string PublishedMetadata;
  (** the key server: whether a request reaches it, and the table
      [symmetric_keys] *)
  key_server_up : bool;
  symmetric_keys : gmap string string;
  trace : list event
}.

Record state := { self : CryptoServiceObject; world : World }.

Definition set_world (f : World -> World) (st : state) : state :=
  {| self := self st; world := f (world st) |}.

Definition set_qkd (f : QKDServiceObject -> QKDServiceObject) (st : state) : state :=
  {| self := {| qkd_service := f (qkd_service (self st)) |}; world := world st |}.

(** *** Computations: a result and the state left behind *)

Definition M (A : Type) : Type := state -> result A * state.

#[global] Instance M_ret : MRet M := fun A a st => (Return a, st).
#[global] Instance M_bind : MBind M := fun A B k m st =>
  match m st with
  | (Return a, st') => k a st'
  | (Raise e, st') => (Raise e, st')
  end.

Definition raise {A} (e : exn) : M A := fun st => (Raise e, st).
Definition lift {A} (r : result A) : M A := fun st => (r, st).
Definition get_state : M state := fun st => (Return st, st).
Definition modify (f : state -> state) : M unit := fun st => (Return tt, f st).

(** [try: body except ...: handler] *)
Definition try_except {A} (body : M A) (handler : exn -> option (M A)) : M A :=
  fun st =>
    match body st with
    | (Return a, st') => (Return a, st')
    | (Raise e, st') =>
        match handler e with
        | Some h => h st'
        | None => (Raise e, st')
        end
    end.

Definition with_trace (f : list event -> list event) (w : World) : World :=
  {| entropy := entropy w; drawn := drawn w; clock := clock w;
     firebase_up := firebase_up w; firebase_qkd_keys := firebase_qkd_keys w;
     key_server_up := key_server_up w; symmetric_keys := symmetric_keys w;
     trace := f (trace w) |}.

Definition with_drawn (f : nat -> nat) (w : World) : World :=
  {| entropy := entropy w; drawn := f (drawn w); clock := clock w;
     firebase_up := firebase_up w; firebase_qkd_keys := firebase_qkd_keys w;
     key_server_up := key_server_up w; symmetric_keys := symmetric_keys w;
     trace := trace w |}.

Definition with_firebase_qkd_keys
    (f : gmap string PublishedMetadata -> gmap string PublishedMetadata)
    (w : World) : World :=
  {| entropy := entropy w; drawn := drawn w; clock := clock w;
     firebase_up := firebase_up w;
     firebase_qkd_keys := f (firebase_qkd_keys w);
     key_server_up := key_server_up w; symmetric_keys := symmetric_keys w;
     trace := trace w |}.

Definition with_symmetric_keys
    (f : gmap string string -> gmap string string) (w : World) : World :=
  {| entropy := entropy w; drawn := drawn w; clock := clock w;
     firebase_up := firebase_up w; firebase_qkd_keys := firebase_qkd_keys w;
     key_server_up := key_server_up w; symmetric_keys := f (symmetric_keys w);
     trace := trace w |}.

Definition log_event (e : event) : M unit :=
  modify (set_world (with_trace (fun t => t ++ [e]))).

(** [os.urandom(n)] in a world *)
Definition draw (n : nat) (w : World) : bytes * World :=
  (map (entropy w) (seq (drawn w) n), with_drawn (fun d => (d + n)%nat) w).

Definition urandom (n : nat) : M bytes := fun st =>
  (Return (fst (draw n (world st))),
   {| self := self st; world := snd (draw n (world st)) |}).

(** ** The key server ([pqc_key_server.py]) *)

Module KeyServer.

(** What an endpoint answers: the body of a 200, or an [HTTPException]. *)
Inductive response (A : Type) :=
| OK (body : A)
| HTTPException (status_code : Z) (detail : string).
Arguments OK {A} body.
Arguments HTTPException {A} status_code detail.

(** [str(uuid.uuid4())] from the 16 random bytes it draws: version and
    variant bits are set, then the hexadecimal groups are joined. *)
Definition uuid4 (r : bytes) : string :=
  let r := alter (fun b => byte_of_N (N.lor (N.land (Byte.to_N b) 15) 64)) 6%nat r in
  let r := alter (fun b => byte_of_N (N.lor (N.land (Byte.to_N b) 63) 128)) 8%nat r in
  (hex (take 4 r) ++ "-" ++ hex (take 2 (drop 4 r)) ++ "-"
   ++ hex (take 2 (drop 6 r)) ++ "-" ++ hex (take 2 (drop 8 r)) ++ "-"
   ++ hex (drop 10 r))%string.

(** [GET /get-symmetric-key?key_length_bytes=n] *)
Definition get_symmetric_key (key_length_bytes : Z) (w : World)
    : response (string * string) * World :=
  let '(r, w) := draw 16 w in
  let key_id := uuid4 r in
  if key_length_bytes <? 0 then
    (* [secrets.token_hex] raises outside the [try] *)
    (HTTPException 500 "Internal Server Error", w)
  else
    let '(k, w) := draw (Z.to_nat key_length_bytes) w in
    let key_hex := hex k in
    match symmetric_keys w !! key_id with
    | Some _ =>
        (* the primary key is taken: [sqlite3.IntegrityError] *)
        (HTTPException 500 "Database error.", w)
    | None =>
        (OK (key_id, key_hex),
         with_symmetric_keys (fun t => <[key_id := key_hex]> t) w)
    end.

(** [GET /get-symmetric-key-by-id/{key_id}] *)
Definition get_symmetric_key_by_id (key_id : string) (w : World)
    : response string * World :=
  match symmetric_keys w !! key_id with
  | None => (HTTPException 404 "Symmetric key not found.", w)
  | Some key_hex =>
      (OK key_hex, with_symmetric_keys (fun t => delete key_id t) w)
  end.

(** [xor_bytes]: the shorter input is padded with zeros to the length
    of the longer one. *)
Definition xor_bytes (a b : bytes) : bytes :=
  let max_len := (length a `max` length b)%nat in
  let a := ljust a max_len x00 in
  let b := ljust b max_len x00 in
  xor_zip a b.

(** *** The endpoints of the key pairs *)

(** What the body of an endpoint comes to: a value, an [HTTPException]
    it raised, or another exception. *)
Inductive attempt (A : Type) :=
| Done (a : A)
| Http (status_code : Z) (detail : string)
| Exc (e : exn).
Arguments Done {A} a.
Arguments Http {A} status_code detail.
Arguments Exc {A} e.

#[global] Instance attempt_ret : MRet attempt := fun A a => Done a.
#[global] Instance attempt_bind : MBind attempt := fun A B k r =>
  match r with
  | Done a => k a
  | Http status_code detail => Http status_code detail
  | Exc e => Exc e
  end.

Definition of_result {A} (r : result A) : attempt A :=
  match r with Return a => Done a | Raise e => Exc e end.

(** [try: body except Exception: handler]: an [HTTPException] is an
    [Exception] too. *)
Definition except_Exception {A} (body handler : attempt A) : attempt A :=
  match body with
  | Done a => Done a
  | _ => handler
  end.

(** What the framework answers: an [HTTPException] as it is, another
    exception as a 500. *)
Definition respond {A} (r : attempt A) : response A :=
  match r with
  | Done a => OK a
  | Http status_code detail => HTTPException status_code detail
  | Exc _ => HTTPException 500 "Internal Server Error"
  end.

(** [oqs.KEM("Kyber512")]: making the object or any of its calls may
    raise.  The randomness a call draws is passed as [coins]. *)
Record OQS := {
  (** [kem.generate_keypair()], then [kem.export_secret_key()] *)
  oqs_generate_keypair : bytes -> result (bytes * bytes);
  (** [kem.encap_secret(public_key)]: the ciphertext and the secret *)
  oqs_encap_secret : bytes -> bytes -> result (bytes * bytes);
  (** [kem.decap_secret(kem_ciphertext, private_key)] *)
  oqs_decap_secret : bytes -> bytes -> result bytes
}.

(** The table [pqc_keys]: [userId] to [publicKey_b64] and
    [privateKey_b64]. *)
Abbreviation pqc_keys := (gmap string (string * string)).

Section Endpoints.

Context `{Primitives}.
Variable oqs : OQS.

(** [POST /generate-keys].  [kyber_kem_keypair_512] returns the private
    key first. *)
Definition generate_keys (coins fallback_coins : bytes) (userId : string)
    (table : pqc_keys) : response (string * string) * pqc_keys :=
  let generated :=
    except_Exception
      ('(public_key, private_key) ← of_result (oqs_generate_keypair oqs coins);
       if bool_decide (public_key = []) || bool_decide (private_key = [])
       then Exc (ValueError "Key generation failed: empty keys.")
       else Done (public_key, private_key))
      (except_Exception
         (let '(private_key, public_key) := kem_keypair_512 fallback_coins in
          Done (public_key, private_key))
         (Http 500 "Server crypto library failed to generate keys.")) in
  match generated with
  | Done (public_key, private_key) =>
      let public_key_b64 := b64encode public_key in
      let private_key_b64 := b64encode private_key in
      (OK (public_key_b64, private_key_b64),
       <[userId := (public_key_b64, private_key_b64)]> table)
  | Http status_code detail => (HTTPException status_code detail, table)
  | Exc e => (respond (Exc e), table)
  end.

(** [GET /get-public-key/{userId}] *)
Definition get_public_key (userId : string) (table : pqc_keys)
    : response string :=
  respond
    (except_Exception
       (match table !! userId with
        | None => Http 404 "Public key not found."
        | Some (publicKey_b64, _) => Done publicKey_b64
        end)
       (Http 500 "Failed to fetch public key.")).

Definition b64decode_str (s : string) : attempt bytes :=
  of_result (of_option (b64decode s) (ValueError "binascii.Error")).

(** [POST /decapsulate] *)
Definition decapsulate (userId kem_ciphertext_b64 encrypted_symmetric_key_b64 : string)
    (table : pqc_keys) : response string :=
  respond
    (except_Exception
       (match table !! userId with
        | None => Http 404 "Private key not found."
        | Some (_, privateKey_b64) =>
            private_key ← b64decode_str privateKey_b64;
            kem_ciphertext ← b64decode_str kem_ciphertext_b64;
            encrypted_symmetric_key ← b64decode_str encrypted_symmetric_key_b64;
            shared_secret ←
              except_Exception
                (of_result (oqs_decap_secret oqs kem_ciphertext private_key))
                (except_Exception
                   (shared_secret ←
                      of_result (kem_decrypt_512 kem_ciphertext private_key);
                    Done (vec_to_list shared_secret))
                   (Http 500 "Decapsulation failed."));
            let decrypted_symmetric_key :=
              xor_bytes encrypted_symmetric_key shared_secret in
            Done (b64encode decrypted_symmetric_key)
        end)
       (Http 500 "Decapsulation failed.")).

(** [POST /encapsulate]: the answer has [kem_ciphertext_b64] and
    [encrypted_symmetric_key_b64]. *)
Definition encapsulate (coins fallback_coins : bytes)
    (publicKey_b64 plaintextKey_b64 : string) : response (string * string) :=
  respond
    (except_Exception
       (public_key ← b64decode_str publicKey_b64;
        plaintext_key ← b64decode_str plaintextKey_b64;
        '(kem_ciphertext, shared_secret) ←
          except_Exception
            (of_result (oqs_encap_secret oqs public_key coins))
            (except_Exception
               ('(kem_ciphertext, shared_secret) ←
                  of_result (kem_encrypt_512 public_key fallback_coins);
                Done (kem_ciphertext, vec_to_list shared_secret))
               (Http 500 "Encapsulation failed."));
        let encrypted_symmetric_key := xor_bytes plaintext_key shared_secret in
        Done (b64encode kem_ciphertext, b64encode encrypted_symmetric_key))
       (Http 500 "Encapsulation failed.")).

End Endpoints.

End KeyServer.

(** ** [QKDService] ([qkd_service.py]) *)

Module QKDService.
Section Methods.

Context `{Primitives}.

Definition initialize : M unit :=
  modify (set_qkd (fun q =>
    {| qkd_client := Some {| MockQKDClient.connected := true |};
       _quantum_keys_cache := _quantum_keys_cache q |})).

(** Every failure of the [PUT] is logged and swallowed. *)
Definition _store_key_metadata_in_firebase
    (key_id : string) (key_metadata : KeyMetadata) : M unit :=
  let safe_key_id := replace_dot key_id in
  let metadata_to_store :=
    {| pub_key_id := key_metadata.(km_key_id);
       pub_key_length_bytes := key_metadata.(km_key_length_bytes);
       pub_timestamp := key_metadata.(km_timestamp);
       pub_recipient_email := key_metadata.(km_recipient_email);
       pub_source := key_metadata.(km_source) |} in
  st ← get_state;
  if firebase_up (world st) then
    modify (set_world (with_firebase_qkd_keys
      (fun t => <[safe_key_id := metadata_to_store]> t)))
  else mret tt.

Definition _get_key_metadata_from_firebase (key_id : string)
    : M (option PublishedMetadata) :=
  let safe_key_id := replace_dot key_id in
  st ← get_state;
  mret (if firebase_up (world st)
        then firebase_qkd_keys (world st) !! safe_key_id
        else None).

Definition cache_key (key_id : string) (key_metadata : KeyMetadata) : M unit :=
  modify (set_qkd (fun q =>
    {| qkd_client := qkd_client q;
       _quantum_keys_cache := <[key_id := key_metadata]> (_quantum_keys_cache q) |})).

(** The messages of the errors raised here end in the text of the
    exception caught; only their fixed part is kept. *)
Definition get_quantum_key (key_length_bytes : Z)
    (recipient_email : option string) : M KeyMetadata :=
  try_except
    (log_event (EvQuantumKeyRequest key_length_bytes recipient_email);;
     st ← get_state;
     (if qkd_client (qkd_service (self st)) is None then initialize
      else mret tt);;
     st ← get_state;
     client ← lift (of_option (qkd_client (qkd_service (self st))) AttributeError);
     r ← urandom 16;
     let key_id := ("qkd_" ++ hex r)%string in
     let quantum_key :=
       MockQKDClient.get_deterministic_key sha256 client key_id key_length_bytes in
     let key_hex := hex quantum_key in
     let key_metadata :=
       {| km_key_id := key_id; km_key_hex := key_hex;
          km_key_length_bytes := key_length_bytes;
          km_timestamp := clock (world st);
          km_recipient_email := recipient_email;
          km_source := "qkd_simulation" |} in
     cache_key key_id key_metadata;;
     (if truthy recipient_email
      then _store_key_metadata_in_firebase key_id key_metadata
      else mret tt);;
     mret key_metadata)
    (fun e => Some (raise (QKDServiceError "Failed to get quantum key"))).

Definition get_quantum_key_by_id (key_id : pyval) : M KeyMetadata :=
  try_except
    (match key_id with
     | PStr key_id =>
         st ← get_state;
         match _quantum_keys_cache (qkd_service (self st)) !! key_id with
         | Some key_metadata => mret key_metadata
         | None =>
             found ← _get_key_metadata_from_firebase key_id;
             match found with
             | Some published =>
                 client ← lift (of_option (qkd_client (qkd_service (self st)))
                                  AttributeError);
                 let key_metadata :=
                   {| km_key_id := pub_key_id published;
                      km_key_hex :=
                        hex (MockQKDClient.get_deterministic_key sha256 client
                               key_id (pub_key_length_bytes published));
                      km_key_length_bytes := pub_key_length_bytes published;
                      km_timestamp := pub_timestamp published;
                      km_recipient_email := pub_recipient_email published;
                      km_source := pub_source published |} in
                 cache_key key_id key_metadata;;
                 mret key_metadata
             | None => raise (QKDServiceError "Quantum key not found")
             end
         end
     | _ =>
         (* not a [str]: unhashable, or without [replace] and not found *)
         raise TypeError
     end)
    (fun e => Some (raise (QKDServiceError "Failed to get quantum key by ID"))).

(** [close]: the client is dropped.  Closing the HTTP session of the
    directory changes nothing the model records. *)
Definition close : M unit :=
  try_except
    (st ← get_state;
     if qkd_client (qkd_service (self st)) is Some _ then
       modify (set_qkd (fun q =>
         {| qkd_client := None; _quantum_keys_cache := _quantum_keys_cache q |}))
     else mret tt)
    (fun e => Some (mret tt)).

End Methods.
End QKDService.

(** ** [CryptoService] ([crypto_services.py]) *)

(** An attachment as the caller passes it: [{'filename': .., 'content': ..}]. *)
Record attachment := { filename : string; content : bytes }.

(** The keyword arguments of [encrypt] and [decrypt]; [None] is a keyword
    that was not passed. *)
Record kwargs := {
  security_level : option Z;
  encryption_method : option string;
  recipient_email : option string;
  recipient_public_key_b64 : option string;
  key_id : option string;
  key_hex : option string;
  private_key_b64 : option string
}.

Definition no_kwargs : kwargs :=
  {| security_level := None; encryption_method := None;
     recipient_email := None; recipient_public_key_b64 := None;
     key_id := None; key_hex := None; private_key_b64 := None |}.

Module CryptoService.
Section Methods.

Context `{Primitives}.

(** [kwargs[name]] *)
Definition kwarg {A} (name : string) (value : option A) : M A :=
  lift (of_option value (KeyError name)).

(** [response = await self.client.get(url); response.raise_for_status()]
    and the body of the answer. *)
Definition http_get {A} (endpoint : World -> KeyServer.response A * World)
    : M A := fun st =>
  if key_server_up (world st) then
    match endpoint (world st) with
    | (KeyServer.OK body, w) => (Return body, {| self := self st; world := w |})
    | (KeyServer.HTTPException status_code _, w) =>
        (Raise (HTTPStatusError status_code), {| self := self st; world := w |})
    end
  else (Raise ConnectError, st).

Definition get_symmetric_key (key_length_bytes : Z) : M (string * string) :=
  log_event (EvSymmetricKeyRequest key_length_bytes);;
  http_get (KeyServer.get_symmetric_key key_length_bytes).

Definition get_symmetric_key_by_id (key_id : string) : M string :=
  log_event (EvSymmetricKeyRetrieval key_id);;
  http_get (KeyServer.get_symmetric_key_by_id key_id).

Definition qkd_ready : M bool :=
  st ← get_state;
  mret (bool_decide (is_Some (qkd_client (qkd_service (self st))))).

Definition get_quantum_key (key_length_bytes : Z)
    (recipient_email : option string) : M KeyMetadata :=
  ready ← qkd_ready;
  if negb ready then
    raise (EncryptionError "QKD service not available or not initialized")
  else
    try_except (QKDService.get_quantum_key key_length_bytes recipient_email)
      (fun e => match e with
                | QKDServiceError _ =>
                    Some (raise (EncryptionError "Failed to get quantum key"))
                | _ => None
                end).

Definition get_quantum_key_by_id (key_id : pyval) : M KeyMetadata :=
  ready ← qkd_ready;
  if negb ready then
    raise (EncryptionError "QKD service not available or not initialized")
  else
    try_except (QKDService.get_quantum_key_by_id key_id)
      (fun e => match e with
                | QKDServiceError _ =>
                    Some (raise (EncryptionError "Failed to get quantum key by ID"))
                | _ => None
                end).

(** [close]: the two HTTP sessions hold nothing the model records. *)
Definition close : M unit := QKDService.close.

Definition bytes_fromhex (s : string) : M bytes :=
  lift (of_option (fromhex s) (ValueError "non-hexadecimal number found in fromhex()")).

Definition _derive_aes_key_from_quantum (quantum_key_hex : string)
    (salt : option bytes) : M bytes :=
  salt ← (match salt with Some salt => mret salt | None => urandom 16 end);
  quantum_key_bytes ← bytes_fromhex quantum_key_hex;
  log_event EvKdf;;
  mret (vec_to_list (pbkdf2_hmac_sha256 32 salt 100000 quantum_key_bytes)).

(** [algorithms.AES(key)] takes 128, 192 or 256 bits; [modes.GCM] a
    nonce of 8 to 128 bytes and, to decrypt, a tag of 16 bytes: a shorter
    one is refused by [modes.GCM], a longer one when the decryptor is
    made, each with [ValueError]. *)
Definition valid_aes_key (key : bytes) : bool :=
  bool_decide (length key ∈ [16; 24; 32]%nat).

Definition valid_gcm_nonce (nonce : bytes) : bool :=
  bool_decide (8 <= length nonce <= 128)%nat.

(** [Cipher(algorithms.AES(key), modes.GCM(nonce)).encryptor()], then
    [update(plaintext) + finalize()] and [encryptor.tag]. *)
Definition aes_gcm_encrypt (key nonce plaintext : bytes) : M (bytes * bytes) :=
  log_event EvAeadEncrypt;;
  if valid_aes_key key && valid_gcm_nonce nonce then
    let ciphertext := gcm_ctr key nonce plaintext ++ [] in
    mret (ciphertext, vec_to_list (gcm_tag key nonce ciphertext))
  else raise (ValueError "Invalid key size or nonce").

(** [Cipher(algorithms.AES(key), modes.GCM(nonce, tag)).decryptor()],
    then [update(ciphertext) + finalize()]: [update] gives the bytes,
    [finalize] raises [InvalidTag] unless the tag is the one of the
    ciphertext, so the sum is never formed then. *)
Definition aes_gcm_decrypt (key nonce tag ciphertext : bytes) : M bytes :=
  log_event EvAeadDecrypt;;
  if valid_aes_key key && valid_gcm_nonce nonce
     && bool_decide (length tag = 16%nat) then
    let updated := gcm_ctr key nonce ciphertext in
    if bool_decide (tag = vec_to_list (gcm_tag key nonce ciphertext))
    then mret (updated ++ [])
    else raise InvalidTag
  else raise (ValueError "Invalid key size, nonce or tag").

(** [try: ... except InvalidTag: raise DecryptionError(...)] *)
Definition aes_gcm_decrypt_or_tamper (key nonce tag ciphertext : bytes)
    : M bytes :=
  try_except (aes_gcm_decrypt key nonce tag ciphertext)
    (fun e => match e with
              | InvalidTag =>
                  Some (raise (DecryptionError
                    "AES-GCM tag verification failed. Message may be tampered with."))
              | _ => None
              end).

(** [base64.b64decode(v)] *)
Definition b64decode_val (v : pyval) : result bytes :=
  match v with
  | PStr s => of_option (b64decode s) (ValueError "binascii.Error")
  | PBytes b => of_option (b64decode (string_of_list_byte b)) (ValueError "binascii.Error")
  | _ => Raise TypeError
  end.

(** [base64.b64decode(v[k])] *)
Definition b64_field (v : pyval) (k : string) : M bytes :=
  lift (x ← py_getitem v k; b64decode_val x).

Definition attachment_json (att : attachment) : pyval :=
  PDict [("filename", PStr (filename att));
         ("content_b64", PStr (b64encode (content att)))].

Definition payload_dict (body : string) (attachments : list attachment) : pyval :=
  PDict [("body", PStr body);
         ("attachments", PList (map attachment_json attachments))].

Definition decode_utf8 (b : bytes) : result string :=
  if utf8_valid b then Return (string_of_list_byte b)
  else Raise (ValueError "UnicodeDecodeError").

Definition envelope_12 (security_level : Z) (method key_id : string)
    (encrypted_payload : pyval) : pyval :=
  PDict [("qumail_version", PStr "4.0"); ("security_level", PInt security_level);
         ("encryption_method", PStr method); ("key_id", PStr key_id);
         ("payload", encrypted_payload)].

(** [encrypt], with the method [self.get_quantum_key] it calls taken as
    an argument: Python looks the method up on the object when the call
    is made, so a test double can stand in for the key source.  The
    result [None] is the [None] Python returns when no branch is taken. *)
Definition encrypt_with
    (self_get_quantum_key : Z -> option string -> M KeyMetadata)
    (main_body_bytes : bytes) (attachments : list attachment)
    (kw : kwargs) : M (option string) :=
  let level := security_level kw in
  body ← lift (decode_utf8 main_body_bytes);
  let payload_dict := payload_dict body attachments in
  if bool_decide (level = Some 4) then
    mret (Some (json_dumps (PDict
      [("qumail_version", PStr "4.0"); ("security_level", PInt 4);
       ("plaintext_payload", payload_dict)])))
  else
  let plaintext_payload_bytes := encode_utf8 (json_dumps payload_dict) in
  if bool_decide (level = Some 3) then
    aes_key ← urandom 32;
    nonce ← urandom 12;
    '(aes_ciphertext, tag) ← aes_gcm_encrypt aes_key nonce plaintext_payload_bytes;
    recipient_public_key_b64 ←
      kwarg "recipient_public_key_b64" (recipient_public_key_b64 kw);
    public_key ← lift (b64decode_val (PStr recipient_public_key_b64));
    coins ← urandom 32;
    log_event EvKemEncapsulate;;
    '(kem_ciphertext, shared_secret) ← lift (kem_encrypt_512 public_key coins);
    let shared_secret := vec_to_list shared_secret in
    let encrypted_symmetric_key :=
      xor_zip (ljust aes_key (length shared_secret) x00) shared_secret in
    mret (Some (json_dumps (PDict
      [("qumail_version", PStr "4.0"); ("security_level", PInt 3);
       ("kem_ciphertext_b64", PStr (b64encode kem_ciphertext));
       ("encrypted_symmetric_key_b64", PStr (b64encode encrypted_symmetric_key));
       ("aes_payload", PDict
          [("nonce_b64", PStr (b64encode nonce));
           ("auth_tag_b64", PStr (b64encode tag));
           ("ciphertext_b64", PStr (b64encode aes_ciphertext))])])))
  else
  match level with
  | Some security_level =>
    if bool_decide (security_level ∈ [1; 2]) then
      let encryption_method := default "pqc"%string (encryption_method kw) in
      if String.eqb encryption_method "qkd" then
        let recipient_email := recipient_email kw in
        if negb (truthy recipient_email) then
          raise (EncryptionError "Recipient email required for QKD encryption")
        else
        quantum_key_data ←
          self_get_quantum_key (len plaintext_payload_bytes) recipient_email;
        let key_id := km_key_id quantum_key_data in
        let quantum_key_hex := km_key_hex quantum_key_data in
        quantum_key ← bytes_fromhex quantum_key_hex;
        encrypted_payload ←
          (if security_level =? 2 then
             salt ← urandom 16;
             aes_key ← _derive_aes_key_from_quantum quantum_key_hex (Some salt);
             nonce ← urandom 12;
             '(aes_ciphertext, tag) ←
               aes_gcm_encrypt aes_key nonce plaintext_payload_bytes;
             mret (PDict
               [("ciphertext_b64", PStr (b64encode aes_ciphertext));
                ("nonce_b64", PStr (b64encode nonce));
                ("auth_tag_b64", PStr (b64encode tag));
                ("salt_b64", PStr (b64encode salt))])
           else
             if len quantum_key <? len plaintext_payload_bytes then
               raise (EncryptionError "Quantum OTP key is shorter than payload.")
             else
               log_event EvOtpMask;;
               let xor_ciphertext := xor_zip plaintext_payload_bytes quantum_key in
               mret (PDict [("ciphertext_b64", PStr (b64encode xor_ciphertext))]));
        mret (Some (json_dumps
                (envelope_12 security_level "qkd" key_id encrypted_payload)))
      else
        key_hex ← kwarg "key_hex" (key_hex kw);
        key_id ← kwarg "key_id" (key_id kw);
        key ← bytes_fromhex key_hex;
        encrypted_payload ←
          (if security_level =? 2 then
             let aes_key := slice_to key 32 in
             nonce ← urandom 12;
             '(aes_ciphertext, tag) ←
               aes_gcm_encrypt aes_key nonce plaintext_payload_bytes;
             mret (PDict
               [("ciphertext_b64", PStr (b64encode aes_ciphertext));
                ("nonce_b64", PStr (b64encode nonce));
                ("auth_tag_b64", PStr (b64encode tag))])
           else
             if len key <? len plaintext_payload_bytes then
               raise (EncryptionError "OTP key is shorter than payload.")
             else
               log_event EvOtpMask;;
               let xor_ciphertext := xor_zip plaintext_payload_bytes key in
               mret (PDict [("ciphertext_b64", PStr (b64encode xor_ciphertext))]));
        mret (Some (json_dumps
                (envelope_12 security_level "pqc" key_id encrypted_payload)))
    else mret None
  | None => mret None
  end.

Definition encrypt : bytes -> list attachment -> kwargs -> M (option string) :=
  encrypt_with get_quantum_key.

(** The loop [for att in payload.get('attachments', []):
    att['content'] = base64.b64decode(att['content_b64'])], which
    updates the dictionaries of the list in place. *)
Fixpoint decode_each (atts : list pyval) : result (list pyval) :=
  match atts with
  | [] => Return []
  | att :: rest =>
      content_b64 ← py_getitem att "content_b64";
      content ← b64decode_val content_b64;
      att ← py_setitem att "content" (PBytes content);
      rest ← decode_each rest;
      Return (att :: rest)
  end.

Definition decode_attachments (payload : pyval) : result pyval :=
  atts ← py_get payload "attachments" (PList []);
  items ← py_iter atts;
  items ← decode_each items;
  Return (match payload, atts with
          | PDict d, PList _ =>
              if bool_decide (is_Some (assoc_get d "attachments"))
              then PDict (assoc_set d "attachments" (PList items))
              else payload
          | _, _ => payload
          end).

(** The OTP branch of [decrypt], the same for both key sources up to
    the message of the error. *)
Definition otp_unmask (msg : string) (payload : pyval) (key : bytes) : M bytes :=
  xor_ciphertext ← b64_field payload "ciphertext_b64";
  if len key <? len xor_ciphertext then raise (DecryptionError msg)
  else
    log_event EvOtpMask;;
    mret (xor_zip xor_ciphertext key).

Definition decrypt (json_string : string) (kw : kwargs) : M pyval :=
  data ← lift (of_option (json_loads json_string) (ValueError "JSONDecodeError"));
  security_level ← lift (py_getitem data "security_level");
  if py_eq_int security_level 4 then
    payload ← lift (py_get data "plaintext_payload" (PDict []));
    lift (decode_attachments payload)
  else
  decrypted_payload_bytes ←
    (if py_eq_int security_level 3 then
       aes_payload ← lift (py_getitem data "aes_payload");
       let private_key_b64 := private_key_b64 kw in
       aes_key ←
         (if truthy private_key_b64 then
            kem_ciphertext ← b64_field data "kem_ciphertext_b64";
            encrypted_symmetric_key ← b64_field data "encrypted_symmetric_key_b64";
            private_key ← lift (b64decode_val (PStr (default EmptyString private_key_b64)));
            log_event EvKemDecapsulate;;
            shared_secret ← lift (kem_decrypt_512 kem_ciphertext private_key);
            mret (xor_zip encrypted_symmetric_key (vec_to_list shared_secret))
          else
            raise (DecryptionError "Missing private key for local decapsulation."));
       aes_ciphertext ← b64_field aes_payload "ciphertext_b64";
       nonce ← b64_field aes_payload "nonce_b64";
       tag ← b64_field aes_payload "auth_tag_b64";
       aes_gcm_decrypt_or_tamper aes_key nonce tag aes_ciphertext
     else if py_eq_int security_level 1 || py_eq_int security_level 2 then
       encryption_method ← lift (py_get data "encryption_method" (PStr "pqc"));
       if py_eq_str encryption_method "qkd" then
         key_id ← lift (py_getitem data "key_id");
         quantum_key_data ← get_quantum_key_by_id key_id;
         let quantum_key_hex := km_key_hex quantum_key_data in
         quantum_key ← bytes_fromhex quantum_key_hex;
         payload ← lift (py_getitem data "payload");
         if py_eq_int security_level 2 then
           salt ← b64_field payload "salt_b64";
           aes_key ← _derive_aes_key_from_quantum quantum_key_hex (Some salt);
           aes_ciphertext ← b64_field payload "ciphertext_b64";
           nonce ← b64_field payload "nonce_b64";
           tag ← b64_field payload "auth_tag_b64";
           aes_gcm_decrypt_or_tamper aes_key nonce tag aes_ciphertext
         else
           otp_unmask "Quantum OTP key is shorter than ciphertext." payload quantum_key
       else
         key_hex ← kwarg "key_hex" (key_hex kw);
         key ← bytes_fromhex key_hex;
         payload ← lift (py_getitem data "payload");
         if py_eq_int security_level 2 then
           let aes_key := slice_to key 32 in
           aes_ciphertext ← b64_field payload "ciphertext_b64";
           nonce ← b64_field payload "nonce_b64";
           tag ← b64_field payload "auth_tag_b64";
           aes_gcm_decrypt_or_tamper aes_key nonce tag aes_ciphertext
         else
           otp_unmask "OTP key is shorter than ciphertext." payload key
     else mret [] : M bytes);
  decrypted_payload ← lift (of_option
    (json_loads (string_of_list_byte decrypted_payload_bytes))
    (ValueError "JSONDecodeError"));
  lift (decode_attachments decrypted_payload).

End Methods.
End CryptoService.

(** ** The sending path ([email_controller.py]) *)

Module EmailController.
Section Methods.

Context `{Primitives}.

(** The branch of [handle_send_email] for levels 1 and 2 with a method
    other than [qkd], up to the call of [smtp_handler.send_email]: the
    result is the [final_body] handed to it.  The module does not import
    [base64]: the name is looked up when the list of the attachments is
    built, at the first attachment, after its [filename] was read, and
    the lookup raises [NameError]; with no attachment the name is never
    looked up.  What is raised here the handlers of [handle_send_email]
    catch: they show the failure and return [False], and nothing is
    sent. *)
Definition attachments_json (attachments : list attachment) : result (list pyval) :=
  match attachments with
  | [] => Return []
  | att :: _ => Raise (NameError "base64")
  end.

Definition handle_send_email_pqc (body : string)
    (attachments : list attachment) (security_level : Z)
    : M (option string) :=
  attachments_list ← lift (attachments_json attachments);
  let payload_size :=
    len (encode_utf8 (json_dumps
      (PDict [("body", PStr body); ("attachments", PList attachments_list)]))) in
  let key_length := if security_level =? 1 then payload_size else 32 in
  '(key_id, key_hex) ← CryptoService.get_symmetric_key key_length;
  CryptoService.encrypt (encode_utf8 body) attachments
    {| security_level := Some security_level;
       encryption_method := Some "pqc"%string;
       recipient_email := None; recipient_public_key_b64 := None;
       key_id := Some key_id; key_hex := Some key_hex;
       private_key_b64 := None |}.

(** *** The receiving path *)

(** The truth value of a value. *)
Definition py_truthy (v : pyval) : bool :=
  match v with
  | PNone => false
  | PBool b => b
  | PInt z => negb (z =? 0)
  | PStr s => negb (String.eqb s EmptyString)
  | PBytes b => negb (bool_decide (b = []))
  | PList l => negb (bool_decide (l = []))
  | PDict d => negb (bool_decide (d = []))
  end.

Fixpoint is_substring (k s : string) : bool :=
  String.prefix k s
  || match s with
     | EmptyString => false
     | String _ s' => is_substring k s'
     end.

(** [k in v] for a string [k]: a key of a dictionary, an item of a
    list, a part of a string. *)
Definition py_contains (v : pyval) (k : string) : result bool :=
  match v with
  | PDict d => Return (bool_decide (is_Some (assoc_get d k)))
  | PList l => Return (existsb (fun x => py_eq_str x k) l)
  | PStr s => Return (is_substring k s)
  | _ => Raise TypeError
  end.

(** What [handle_email_selection] hands to [display_email_content] in
    the end: the message as it was fetched, the decrypted body and
    attachments, or the page of a failure, with the message of a
    [DecryptionError] or with an exception that was not expected. *)
Inductive shown :=
| ShowEmail
| ShowPayload (html_body attachments : pyval)
| ShowFailed (error_message : string)
| ShowUnexpected (e : exn).

(** [handle_email_selection], from the [plain_body] of the message that
    was fetched and the [pqc_private_key_b64] of the settings. *)
Definition handle_email_selection (plain_body pqc_private_key_b64 : option string)
    : M shown :=
  let json_payload_str := default EmptyString plain_body in
  let qumail_data :=
    if truthy plain_body then
      match json_loads json_payload_str with
      | Some data =>
          match py_contains data "qumail_version" with
          | Return true => Some data
          | Return false => None
          | Raise _ => None
          end
      | None => None
      end
    else None in
  match qumail_data with
  | Some qumail_data =>
      try_except
        (security_level ← lift (py_get qumail_data "security_level" PNone);
         decrypted_payload ←
           (if py_eq_int security_level 3 then
              if negb (truthy pqc_private_key_b64) then
                raise (DecryptionError
                  "Cannot decrypt Level 3 message: PQC private key not found in settings.")
              else
                CryptoService.decrypt json_payload_str
                  {| security_level := None; encryption_method := None;
                     recipient_email := None; recipient_public_key_b64 := None;
                     key_id := None; key_hex := None;
                     private_key_b64 := pqc_private_key_b64 |}
            else if py_eq_int security_level 1 || py_eq_int security_level 2 then
              encryption_method ←
                lift (py_get qumail_data "encryption_method" (PStr "pqc"));
              if py_eq_str encryption_method "qkd" then
                CryptoService.decrypt json_payload_str no_kwargs
              else
                raise (DecryptionError
                  "Legacy PQC message level unsupported after QKD upgrade.")
            else if py_eq_int security_level 4 then
              has_payload ← lift (py_contains qumail_data "plaintext_payload");
              if has_payload : bool then
                lift (py_get qumail_data "plaintext_payload" PNone)
              else mret PNone
            else mret PNone);
         if py_truthy decrypted_payload then
           html_body ← lift (py_get decrypted_payload "body" PNone);
           attachments ← lift (py_get decrypted_payload "attachments" (PList []));
           mret (ShowPayload html_body attachments)
         else raise (DecryptionError "Decryption process yielded no content."))
        (fun e => Some (mret (match e with
                              | DecryptionError msg => ShowFailed msg
                              | _ => ShowUnexpected e
                              end)))
  | None => mret ShowEmail
  end.

End Methods.
End EmailController.

(** ** The directory of public keys ([firebase_directory.py]) *)

Module FirebaseDirectory.

(** [_key_path]: where the public key of an address is kept. *)
Definition _key_path (database_url email : string) : string :=
  let safe_email := replace_dot email in
  (database_url ++ "/pqc_public_keys/" ++ safe_email ++ ".json")%string.

End FirebaseDirectory.

(** * An instance of the libraries, to run the model *)

(** ** SHA-256 (FIPS 180-4), to run the model *)

Module Sha256.
Local Open Scope N_scope.

Definition add32 (x y : N) : N := N.land (x + y) 0xffffffff.
Definition rotr (n x : N) : N :=
  N.lor (N.shiftr x n) (N.land (N.shiftl x (32 - n)) 0xffffffff).
Definition not32 (x : N) : N := N.lxor x 0xffffffff.
Definition Ch (x y z : N) : N := N.lxor (N.land x y) (N.land (not32 x) z).
Definition Maj (x y z : N) : N :=
  N.lxor (N.lxor (N.land x y) (N.land x z)) (N.land y z).
Definition Sigma0 (x : N) : N := N.lxor (N.lxor (rotr 2 x) (rotr 13 x)) (rotr 22 x).
Definition Sigma1 (x : N) : N := N.lxor (N.lxor (rotr 6 x) (rotr 11 x)) (rotr 25 x).
Definition sigma0 (x : N) : N := N.lxor (N.lxor (rotr 7 x) (rotr 18 x)) (N.shiftr x 3).
Definition sigma1 (x : N) : N := N.lxor (N.lxor (rotr 17 x) (rotr 19 x)) (N.shiftr x 10).

(** The constants are, as the standard defines them, the first 32 bits
    of the fractional parts of the cube roots of the first 64 primes, and
    the initial hash value those of the square roots of the first 8. *)
Definition is_prime (p : N) : bool :=
  forallb (fun d => negb (p mod N.of_nat d =? 0)) (seq 2 (N.to_nat p - 2)).

Definition primes (n : nat) : list N :=
  take n (List.filter is_prime (map N.of_nat (seq 2 310))).

(** The integer part of the [k]-th root of [x], found bit by bit from
    bit [n - 1] down. *)
Fixpoint root (k x : N) (n : nat) (r : N) : N :=
  match n with
  | O => r
  | S n' =>
      let r' := N.lor r (N.shiftl 1 (N.of_nat n')) in
      root k x n' (if r' ^ k <=? x then r' else r)
  end.

Definition fractional (k p : N) : N :=
  N.land (root k (N.shiftl p (32 * k)) 40 0) 0xffffffff.

Definition K : list N := Eval vm_compute in map (fractional 3) (primes 64).

Record hash_value := { h0 : N; h1 : N; h2 : N; h3 : N; h4 : N; h5 : N; h6 : N; h7 : N }.

Definition initial : hash_value :=
  Eval vm_compute in
  let h i := nth i (map (fractional 2) (primes 8)) 0 in
  {| h0 := h 0%nat; h1 := h 1%nat; h2 := h 2%nat; h3 := h 3%nat;
     h4 := h 4%nat; h5 := h 5%nat; h6 := h 6%nat; h7 := h 7%nat |}.

(** The message, the bit [1], zeros, and the length in bits on 8 bytes. *)
Definition pad (msg : list N) : list N :=
  let l := N.of_nat (length msg) in
  let zeros := N.to_nat ((119 - l mod 64) mod 64) in
  let bits := 8 * l in
  msg ++ [128] ++ replicate zeros 0
      ++ map (fun i => N.land (N.shiftr bits (8 * (7 - N.of_nat i))) 255) (seq 0 8).

Fixpoint words (n : nat) (b : list N) : list N :=
  match n, b with
  | S n', b0 :: b1 :: b2 :: b3 :: r =>
      (N.shiftl b0 24 + N.shiftl b1 16 + N.shiftl b2 8 + b3) :: words n' r
  | _, _ => []
  end.

(** The message schedule, most recent word first. *)
Fixpoint extend (n : nat) (w : list N) : list N :=
  match n with
  | O => w
  | S n' =>
      let new := add32 (add32 (sigma1 (nth 1 w 0)) (nth 6 w 0))
                       (add32 (sigma0 (nth 14 w 0)) (nth 15 w 0)) in
      extend n' (new :: w)
  end.

Definition schedule (block : list N) : list N := rev (extend 48 (rev block)).

Definition round (s : hash_value) (kw : N * N) : hash_value :=
  let '(k, w) := kw in
  let t1 := add32 (add32 (add32 (add32 (h7 s) (Sigma1 (h4 s)))
              (Ch (h4 s) (h5 s) (h6 s))) k) w in
  let t2 := add32 (Sigma0 (h0 s)) (Maj (h0 s) (h1 s) (h2 s)) in
  {| h0 := add32 t1 t2; h1 := h0 s; h2 := h1 s; h3 := h2 s;
     h4 := add32 (h3 s) t1; h5 := h4 s; h6 := h5 s; h7 := h6 s |}.

Definition compress (s : hash_value) (block : list N) : hash_value :=
  let r := fold_left round (combine K (schedule block)) s in
  {| h0 := add32 (h0 s) (h0 r); h1 := add32 (h1 s) (h1 r);
     h2 := add32 (h2 s) (h2 r); h3 := add32 (h3 s) (h3 r);
     h4 := add32 (h4 s) (h4 r); h5 := add32 (h5 s) (h5 r);
     h6 := add32 (h6 s) (h6 r); h7 := add32 (h7 s) (h7 r) |}.

Fixpoint blocks (n : nat) (w : list N) : list (list N) :=
  match n with
  | O => []
  | S n' => take 16 w :: blocks n' (drop 16 w)
  end.

Definition word_bytes (w : N) : vec byte 4 :=
  [# byte_of_N (N.shiftr w 24); byte_of_N (N.shiftr w 16);
     byte_of_N (N.shiftr w 8); byte_of_N w ].

Definition digest (msg : bytes) : vec byte 32 :=
  let padded := pad (map Byte.to_N msg) in
  let n := (length padded / 64)%nat in
  let s := fold_left compress (blocks n (words (16 * n) padded)) initial in
  word_bytes (h0 s) +++ word_bytes (h1 s) +++ word_bytes (h2 s)
  +++ word_bytes (h3 s) +++ word_bytes (h4 s) +++ word_bytes (h5 s)
  +++ word_bytes (h6 s) +++ word_bytes (h7 s).

End Sha256.

(** ** JSON in Python's default layout

    [dumps] writes what [json.dumps] writes for documents whose strings
    are ASCII (bytes above 127 are written as they are, where Python
    writes the escape of the code point); [loads] reads that layout. *)

Module Json.

Local Open Scope char_scope.

Abbreviation chars := (list ascii).

Definition hex4 (n : N) : chars :=
  [hex_digit (n / 4096 mod 16); hex_digit (n / 256 mod 16);
   hex_digit (n / 16 mod 16); hex_digit (n mod 16)].

Definition escape_char (c : ascii) : chars :=
  let n := N_of_ascii c in
  if (n =? 34)%N then ["092"; "034"]
  else if (n =? 92)%N then ["092"; "092"]
  else if (n =? 10)%N then ["092"; "n"]
  else if (n =? 13)%N then ["092"; "r"]
  else if (n =? 9)%N then ["092"; "t"]
  else if (n =? 8)%N then ["092"; "b"]
  else if (n =? 12)%N then ["092"; "f"]
  else if ((n <? 32) || (n =? 127))%N then "092" :: "u" :: hex4 n
  else [c].

Definition write_string (s : string) : chars :=
  "034" :: concat (map escape_char (list_ascii_of_string s)) ++ ["034"].

Definition write_int (z : Z) : chars :=
  list_ascii_of_string (NilZero.string_of_int (Z.to_int z)).

(** The items of a list or dictionary, [", "] between them, and the
    closing bracket. *)
Fixpoint write_seq {A} (w : A -> chars) (close : ascii) (l : list A) : chars :=
  match l with
  | [] => [close]
  | x :: l' =>
      match l' with
      | [] => w x ++ [close]
      | _ => w x ++ "," :: " " :: write_seq w close l'
      end
  end.

Fixpoint write (v : pyval) : chars :=
  match v with
  | PNone => ["n"; "u"; "l"; "l"]
  | PBool true => ["t"; "r"; "u"; "e"]
  | PBool false => ["f"; "a"; "l"; "s"; "e"]
  | PInt z => write_int z
  | PStr s => write_string s
  | PBytes _ => ["n"; "u"; "l"; "l"]
  | PList l => "[" :: write_seq write "]" l
  | PDict d =>
      "{" :: write_seq
               (fun kv => write_string (fst kv) ++ ":" :: " " :: write (snd kv))
               "}" d
  end.

Definition dumps (v : pyval) : string := string_of_list_ascii (write v).

(** The UTF-8 bytes of a code point of the basic plane. *)
Definition utf8_of_code_point (n : N) : option chars :=
  if (n <? 128)%N then Some [ascii_of_N n]
  else if (n <? 2048)%N then
    Some [ascii_of_N (192 + n / 64); ascii_of_N (128 + n mod 64)]
  else if ((55296 <=? n) && (n <=? 57343))%N then None
  else Some [ascii_of_N (224 + n / 4096); ascii_of_N (128 + n / 64 mod 64);
             ascii_of_N (128 + n mod 64)].

Definition code_point (a b c d : ascii) : option N :=
  a ← hex_value a; b ← hex_value b; c ← hex_value c; d ← hex_value d;
  Some (4096 * a + 256 * b + 16 * c + d)%N.

(** The characters of a string up to its closing quote, and the rest. *)
Fixpoint read_chars (s : chars) : option (chars * chars) :=
  match s with
  | [] => None
  | c :: r =>
      if Ascii.eqb c "034" then Some ([], r)
      else if Ascii.eqb c "092" then
        match r with
        | "u" :: h1 :: h2 :: h3 :: h4 :: r' =>
            n ← code_point h1 h2 h3 h4;
            u ← utf8_of_code_point n;
            '(t, rest) ← read_chars r';
            Some (u ++ t, rest)
        | e :: r' =>
            x ← (if Ascii.eqb e "034" then Some "034"
                 else if Ascii.eqb e "092" then Some "092"
                 else if Ascii.eqb e "/" then Some "/"
                 else if Ascii.eqb e "n" then Some "010"
                 else if Ascii.eqb e "r" then Some "013"
                 else if Ascii.eqb e "t" then Some "009"
                 else if Ascii.eqb e "b" then Some "008"
                 else if Ascii.eqb e "f" then Some "012"
                 else None);
            '(t, rest) ← read_chars r';
            Some (x :: t, rest)
        | [] => None
        end
      else if (N_of_ascii c <? 32)%N then None
      else '(t, rest) ← read_chars r; Some (c :: t, rest)
  end.

Definition is_int_char (c : ascii) : bool :=
  Ascii.eqb c "-" || ((48 <=? N_of_ascii c) && (N_of_ascii c <=? 57))%N.

Fixpoint span_int (s : chars) : chars * chars :=
  match s with
  | c :: r =>
      if is_int_char c then let '(t, rest) := span_int r in (c :: t, rest)
      else ([], s)
  | [] => ([], [])
  end.

Definition read_int (s : chars) : option (pyval * chars) :=
  let '(t, rest) := span_int s in
  d ← NilZero.int_of_string (string_of_list_ascii t);
  Some (PInt (Z.of_int d), rest).

(** [d[k] = v] for each pair read, in order. *)
Definition dict_of_pairs (pairs : list (string * pyval)) : list (string * pyval) :=
  foldl (fun d kv => assoc_set d (fst kv) (snd kv)) [] pairs.

Fixpoint read (fuel : nat) (s : chars) : option (pyval * chars) :=
  match fuel with
  | O => None
  | S fuel =>
      match s with
      | "n" :: "u" :: "l" :: "l" :: r => Some (PNone, r)
      | "t" :: "r" :: "u" :: "e" :: r => Some (PBool true, r)
      | "f" :: "a" :: "l" :: "s" :: "e" :: r => Some (PBool false, r)
      | "034" :: r =>
          '(t, rest) ← read_chars r;
          Some (PStr (string_of_list_ascii t), rest)
      | "[" :: c :: r =>
          if Ascii.eqb c "]" then Some (PList [], r)
          else '(l, rest) ← read_items fuel (c :: r); Some (PList l, rest)
      | "{" :: c :: r =>
          if Ascii.eqb c "}" then Some (PDict [], r)
          else
            '(d, rest) ← read_members fuel (c :: r);
            Some (PDict (dict_of_pairs d), rest)
      | _ => read_int s
      end
  end
with read_items (fuel : nat) (s : chars) : option (list pyval * chars) :=
  match fuel with
  | O => None
  | S fuel =>
      '(v, r) ← read fuel s;
      match r with
      | "]" :: rest => Some ([v], rest)
      | "," :: " " :: r' =>
          '(l, rest) ← read_items fuel r'; Some (v :: l, rest)
      | _ => None
      end
  end
with read_members (fuel : nat) (s : chars)
    : option (list (string * pyval) * chars) :=
  match fuel with
  | O => None
  | S fuel =>
      match s with
      | "034" :: r =>
          '(k, r) ← read_chars r;
          match r with
          | ":" :: " " :: r =>
              '(v, r) ← read fuel r;
              match r with
              | "}" :: rest => Some ([(string_of_list_ascii k, v)], rest)
              | "," :: " " :: r' =>
                  '(d, rest) ← read_members fuel r';
                  Some ((string_of_list_ascii k, v) :: d, rest)
              | _ => None
              end
          | _ => None
          end
      | _ => None
      end
  end.

Definition loads (s : string) : option pyval :=
  let s := list_ascii_of_string s in
  '(v, rest) ← read (S (length s)) s;
  if bool_decide (rest = []) then Some v else None.

(** What the proof that [loads] reads what [dumps] writes is stated
    with: what may follow a number, the fuel a value needs, and the
    property itself. *)
Definition follow (rest : chars) : Prop :=
  match rest with
  | [] => True
  | c :: _ => is_int_char c = false
  end.

Fixpoint size (v : pyval) : nat :=
  match v with
  | PList l => S (list_sum (map (fun x => S (size x)) l))
  | PDict d => S (list_sum (map (fun kv => S (size (snd kv))) d))
  | _ => 1
  end.

Definition reads_back (v : pyval) : Prop :=
  json_plain v = true ->
  forall fuel rest, (size v <= fuel)%nat -> follow rest ->
    read fuel (write v ++ rest) = Some (v, rest).

End Json.

(** ** Base64 (RFC 4648), standard alphabet with padding

    [encode] is [base64.b64encode]; [decode] reads what [encode] writes
    and refuses anything else. *)

Module Base64.

Local Open Scope char_scope.

Definition sextet : Type := bool * bool * bool * bool * bool * bool.

(** The value of six bits, the first one the highest. *)
Definition value (s : sextet) : N :=
  let '(a, b, c, d, e, f) := s in
  (32 * N.b2n a + 16 * N.b2n b + 8 * N.b2n c + 4 * N.b2n d
   + 2 * N.b2n e + N.b2n f)%N.

Definition bits (n : N) : sextet :=
  (N.testbit n 5, N.testbit n 4, N.testbit n 3,
   N.testbit n 2, N.testbit n 1, N.testbit n 0).

Definition alphabet : string :=
  "ABCDEFGHIJKLMNOPQRSTUVWXYZabcdefghijklmnopqrstuvwxyz0123456789+/".

Definition char_of (s : sextet) : ascii :=
  match String.get (N.to_nat (value s)) alphabet with
  | Some c => c
  | None => "="
  end.

Definition sextet_of (c : ascii) : option sextet :=
  let n := N_of_ascii c in
  if ((65 <=? n) && (n <=? 90))%N then Some (bits (n - 65))
  else if ((97 <=? n) && (n <=? 122))%N then Some (bits (n - 71))
  else if ((48 <=? n) && (n <=? 57))%N then Some (bits (n + 4))
  else if (n =? 43)%N then Some (bits 62)
  else if (n =? 47)%N then Some (bits 63)
  else None.

Fixpoint encode_chars (data : bytes) : list ascii :=
  match data with
  | [] => []
  | x :: r =>
      let '(x0, (x1, (x2, (x3, (x4, (x5, (x6, x7))))))) := Byte.to_bits x in
      match r with
      | [] =>
          [char_of (x7, x6, x5, x4, x3, x2);
           char_of (x1, x0, false, false, false, false); "="; "="]
      | y :: r =>
          let '(y0, (y1, (y2, (y3, (y4, (y5, (y6, y7))))))) := Byte.to_bits y in
          match r with
          | [] =>
              [char_of (x7, x6, x5, x4, x3, x2);
               char_of (x1, x0, y7, y6, y5, y4);
               char_of (y3, y2, y1, y0, false, false); "="]
          | z :: r =>
              let '(z0, (z1, (z2, (z3, (z4, (z5, (z6, z7))))))) := Byte.to_bits z in
              char_of (x7, x6, x5, x4, x3, x2)
              :: char_of (x1, x0, y7, y6, y5, y4)
              :: char_of (y3, y2, y1, y0, z7, z6)
              :: char_of (z5, z4, z3, z2, z1, z0)
              :: encode_chars r
          end
      end
  end.

Definition encode (data : bytes) : string :=
  string_of_list_ascii (encode_chars data).

Fixpoint decode_chars (s : list ascii) : option bytes :=
  match s with
  | [] => Some []
  | c0 :: c1 :: c2 :: c3 :: r =>
      '(x7, x6, x5, x4, x3, x2) ← sextet_of c0;
      '(x1, x0, y7, y6, y5, y4) ← sextet_of c1;
      let x := Byte.of_bits (x0, (x1, (x2, (x3, (x4, (x5, (x6, x7))))))) in
      if Ascii.eqb c2 "=" then
        if Ascii.eqb c3 "=" && bool_decide (r = []) then Some [x] else None
      else
        '(y3, y2, y1, y0, z7, z6) ← sextet_of c2;
        let y := Byte.of_bits (y0, (y1, (y2, (y3, (y4, (y5, (y6, y7))))))) in
        if Ascii.eqb c3 "=" then
          if bool_decide (r = []) then Some [x; y] else None
        else
          '(z5, z4, z3, z2, z1, z0) ← sextet_of c3;
          let z := Byte.of_bits (z0, (z1, (z2, (z3, (z4, (z5, (z6, z7))))))) in
          t ← decode_chars r;
          Some (x :: y :: z :: t)
  | _ => None
  end.

Definition decode (s : string) : option bytes :=
  decode_chars (list_ascii_of_string s).

End Base64.

(** ** Stand-ins for AES-GCM, PBKDF2 and Kyber

    They have the shape of the real functions and keep the laws the
    properties below assume of them; they are not the real algorithms. *)

Module Reference.

(** [n] bytes drawn from a seed by hashing, block after block. *)
Fixpoint pack (n : nat) (l : bytes) : vec byte n :=
  match n with
  | O => [#]
  | S n' => hd x00 l ::: pack n' (tl l)
  end.

Definition stream (seed : bytes) (n : nat) : vec byte n :=
  pack n (concat (MockQKDClient.hash_chain Sha256.digest seed (S (n / 32)))).

Definition pbkdf2 (length : nat) (salt : bytes) (iterations : Z)
    (key_material : bytes) : vec byte length :=
  stream (key_material ++ salt) length.

Definition ctr (key nonce data : bytes) : bytes :=
  xor_zip data (vec_to_list (stream (key ++ nonce) (length data))).

(** The first byte of the tag is the sum of the bytes of the ciphertext
    masked by the key, so a change of one bit shows in it. *)
Definition tag (key nonce ciphertext : bytes) : vec byte 16 :=
  let mask := stream (key ++ nonce) 16 in
  byte_xor (foldr byte_xor x00 ciphertext) (mask !!! 0%fin)
  ::: stream (key ++ nonce ++ ciphertext) 15.

Definition keypair (seed : bytes) : bytes * bytes :=
  (seed, vec_to_list (Sha256.digest seed)).

Definition encapsulate (public_key coins : bytes)
    : result (bytes * vec byte 32) :=
  Return (coins, Sha256.digest (public_key ++ coins)).

Definition decapsulate (kem_ciphertext private_key : bytes)
    : result (vec byte 32) :=
  Return (Sha256.digest (vec_to_list (Sha256.digest private_key) ++ kem_ciphertext)).

#[export] Instance primitives : Primitives := {|
  sha256 := Sha256.digest;
  pbkdf2_hmac_sha256 := pbkdf2;
  gcm_ctr := ctr;
  gcm_tag := tag;
  kem_keypair_512 := keypair;
  kem_encrypt_512 := encapsulate;
  kem_decrypt_512 := decapsulate;
  b64encode := Base64.encode;
  b64decode := Base64.decode;
  json_dumps := Json.dumps;
  json_loads := Json.loads
|}.

(** A process with its client ready, in a world where the servers
    answer and nothing is stored yet. *)
Definition world0 : World :=
  {| entropy := fun i => byte_of_N (N.of_nat (7 * i + 3));
     drawn := 0; clock := 0;
     firebase_up := true; firebase_qkd_keys := ∅;
     key_server_up := true; symmetric_keys := ∅;
     trace := [] |}.

Definition service0 : CryptoServiceObject :=
  {| qkd_service :=
       {| qkd_client := Some {| MockQKDClient.connected := true |};
          _quantum_keys_cache := ∅ |} |}.

Definition state0 : state := {| self := service0; world := world0 |}.

(** A message and the keyword arguments of each branch. *)
Definition hello : bytes := encode_utf8 "hello".

Definition report : list attachment :=
  [{| filename := "a.txt"; content := [x01; x02; x03] |}].

Definition recipient_seed : bytes := [x01; x02].

Definition arguments (level : Z) (method : string) : kwargs :=
  {| security_level := Some level;
     encryption_method := Some method;
     recipient_email := Some "bob@example.org"%string;
     recipient_public_key_b64 :=
       Some (Base64.encode (snd (keypair recipient_seed)));
     key_id := Some "2f1c"%string;
     key_hex := Some (hex (replicate 96 x42));
     private_key_b64 := Some (Base64.encode (fst (keypair recipient_seed))) |}.

Definition sent (level : Z) (method : string) : result (option string) * state :=
  CryptoService.encrypt hello report (arguments level method) state0.

Definition envelope_of (run : result (option string) * state) : string :=
  match fst run with
  | Return (Some env) => env
  | _ => EmptyString
  end.

(** Another process, with nothing cached, in the world a run left. *)
Definition recipient (run : result (option string) * state) : state :=
  {| self := service0; world := world (snd run) |}.

(** A world where the key server holds one key. *)
Definition stored (key_id key_hex : string) : World :=
  with_symmetric_keys (fun t => <[key_id := key_hex]> t) world0.

(** Envelopes that lack a field, or have only what one check needs. *)
Definition bare (fields : list (string * pyval)) : string :=
  Json.dumps (PDict (("qumail_version", PStr "4.0") :: fields)).

(** The library [oqs] when it is not to be had. *)
Definition no_oqs : KeyServer.OQS :=
  {| KeyServer.oqs_generate_keypair := fun _ => Raise AttributeError;
     KeyServer.oqs_encap_secret := fun _ _ => Raise AttributeError;
     KeyServer.oqs_decap_secret := fun _ _ => Raise AttributeError |}.

(** A quantum key issued for a recipient, and one issued for none. *)
Definition issue (email : option string) : result KeyMetadata * state :=
  QKDService.get_quantum_key 8 email state0.

Definition issued_key (email : option string) : KeyMetadata :=
  match fst (issue email) with
  | Return md => md
  | Raise _ =>
      {| km_key_id := EmptyString; km_key_hex := EmptyString;
         km_key_length_bytes := 0; km_timestamp := 0;
         km_recipient_email := None; km_source := EmptyString |}
  end.

Definition bob : option string := Some "bob@example.org"%string.

(** A key minted by the key server. *)
Definition minted : string * string :=
  match fst (KeyServer.get_symmetric_key 4 world0) with
  | KeyServer.OK key => key
  | KeyServer.HTTPException _ _ => (EmptyString, EmptyString)
  end.

(** The keys the server generates for a user, and what [encapsulate]
    answers for a key of 16 bytes. *)
Definition generated : KeyServer.response (string * string) * KeyServer.pqc_keys :=
  KeyServer.generate_keys no_oqs [x01] [x02] "bob" ∅.

Definition generated_keys : string * string :=
  match fst generated with
  | KeyServer.OK keys => keys
  | KeyServer.HTTPException _ _ => (EmptyString, EmptyString)
  end.

Definition short_key : bytes := replicate 16 x2a.

Definition encapsulated : string * string :=
  match KeyServer.encapsulate no_oqs [x03] [x04] (fst generated_keys)
          (Base64.encode short_key) with
  | KeyServer.OK answer => answer
  | KeyServer.HTTPException _ _ => (EmptyString, EmptyString)
  end.

(** What the sending path with the key of the key server hands over
    for a message without attachments. *)
Definition sent_pqc (level : Z) : result (option string) * state :=
  EmailController.handle_send_email_pqc "hello" [] level state0.

End Reference.

(** * Notions used to state the properties *)

(** A request to the key server, and the server going through a list of
    them. *)
Inductive request :=
| GetSymmetricKey (key_length_bytes : Z)
| GetSymmetricKeyById (key_id : string).

Definition serve (r : request) (w : World) : World :=
  match r with
  | GetSymmetricKey n => snd (KeyServer.get_symmetric_key n w)
  | GetSymmetricKeyById key_id => snd (KeyServer.get_symmetric_key_by_id key_id w)
  end.

(** The identifier a request mints, if it mints one. *)
Definition minted (r : request) (w : World) : option string :=
  match r with
  | GetSymmetricKey n =>
      match fst (KeyServer.get_symmetric_key n w) with
      | KeyServer.OK (key_id, _) => Some key_id
      | KeyServer.HTTPException _ _ => None
      end
  | GetSymmetricKeyById _ => None
  end.

(** No request of the list mints [key_id] again. *)
Fixpoint never_minted (key_id : string) (rs : list request) (w : World) : Prop :=
  match rs with
  | [] => True
  | r :: rs => minted r w <> Some key_id /\ never_minted key_id rs (serve r w)
  end.

Definition serve_all (rs : list request) (w : World) : World :=
  foldl (fun w r => serve r w) w rs.

(** The state after an event is logged, and after [n] random bytes are
    drawn. *)
Definition logged (e : event) (st : state) : state :=
  set_world (with_trace (fun t => t ++ [e])) st.

Definition drawn_by (n : nat) (st : state) : state :=
  {| self := self st; world := snd (draw n (world st)) |}.

Section Notions.

Context `{P : Primitives}.

(** The serialized payload [encrypt] works on. *)
Definition plaintext (main_body_bytes : bytes) (attachments : list attachment)
    : bytes :=
  encode_utf8 (json_dumps
    (CryptoService.payload_dict (string_of_list_byte main_body_bytes) attachments)).

(** The identifier and the record of the quantum key issued next in a
    world, and the state after it is issued. *)
Definition issued_key_id (w : World) : string :=
  ("qkd_" ++ hex (fst (draw 16 w)))%string.

Definition issued (client : MockQKDClient.t) (n : Z) (email : option string)
    (w : World) : KeyMetadata :=
  {| km_key_id := issued_key_id w;
     km_key_hex :=
       hex (MockQKDClient.get_deterministic_key sha256 client (issued_key_id w) n);
     km_key_length_bytes := n;
     km_timestamp := clock w;
     km_recipient_email := email;
     km_source := "qkd_simulation" |}.

Definition published (n : Z) (email : option string) (w : World)
    : PublishedMetadata :=
  {| pub_key_id := issued_key_id w;
     pub_key_length_bytes := n;
     pub_timestamp := clock w;
     pub_recipient_email := email;
     pub_source := "qkd_simulation" |}.

Definition after_issue (client : MockQKDClient.t) (n : Z)
    (email : option string) (st : state) : state :=
  let w := world st in
  let w1 := with_drawn (fun d => (d + 16)%nat)
              (with_trace (fun t => t ++ [EvQuantumKeyRequest n email]) w) in
  {| self :=
       {| qkd_service :=
            {| qkd_client := Some client;
               _quantum_keys_cache :=
                 <[issued_key_id w := issued client n email w]>
                   (_quantum_keys_cache (qkd_service (self st))) |} |};
     world :=
       if truthy email && firebase_up w
       then with_firebase_qkd_keys
              (fun t => <[replace_dot (issued_key_id w) := published n email w]> t) w1
       else w1 |}.

(** The record made for a key found in the directory. *)
Definition rederived (client : MockQKDClient.t) (key_id_ : string)
    (pub : PublishedMetadata) : KeyMetadata :=
  {| km_key_id := pub_key_id pub;
     km_key_hex :=
       hex (MockQKDClient.get_deterministic_key sha256 client key_id_
              (pub_key_length_bytes pub));
     km_key_length_bytes := pub_key_length_bytes pub;
     km_timestamp := pub_timestamp pub;
     km_recipient_email := pub_recipient_email pub;
     km_source := pub_source pub |}.

(** What [decrypt] returns for a payload: each attachment has its
    content next to its encoding. *)
Definition decrypted_attachment (att : attachment) : pyval :=
  PDict [("filename", PStr (filename att));
         ("content_b64", PStr (b64encode (content att)));
         ("content", PBytes (content att))].

Definition decrypted_payload (body : string) (attachments : list attachment)
    : pyval :=
  PDict [("body", PStr body);
         ("attachments", PList (map decrypted_attachment attachments))].

(** The fields of an AES-GCM payload, in the order of levels 1 and 2. *)
Definition aead_fields (ciphertext nonce tag : bytes) : list (string * pyval) :=
  [("ciphertext_b64", PStr (b64encode ciphertext));
   ("nonce_b64", PStr (b64encode nonce));
   ("auth_tag_b64", PStr (b64encode tag))].

Definition envelope_3 (kem_ciphertext encrypted_symmetric_key
    nonce tag ciphertext : bytes) : pyval :=
  PDict [("qumail_version", PStr "4.0"); ("security_level", PInt 3);
         ("kem_ciphertext_b64", PStr (b64encode kem_ciphertext));
         ("encrypted_symmetric_key_b64", PStr (b64encode encrypted_symmetric_key));
         ("aes_payload", PDict
            [("nonce_b64", PStr (b64encode nonce));
             ("auth_tag_b64", PStr (b64encode tag));
             ("ciphertext_b64", PStr (b64encode ciphertext))])].

Definition envelope_4 (payload : pyval) : pyval :=
  PDict [("qumail_version", PStr "4.0"); ("security_level", PInt 4);
         ("plaintext_payload", payload)].

(** [encrypt] was asked for method [qkd]. *)
Definition qkd_method (kw : kwargs) : bool :=
  String.eqb (default "pqc"%string (encryption_method kw)) "qkd".

(** The process in state [st2] can get again the quantum key issued to
    the sender, who went from [st] to [st1]: its client is ready, and
    either its cache holds what the sender's holds for the identifier
    (the same process), or its cache has nothing for it and the directory,
    reachable when the key was issued and now, holds for it what it held
    when the sender was done. *)
Definition reacquirable (st st1 st2 : state) : Prop :=
  let key_id_ := issued_key_id (world st) in
  is_Some (qkd_client (qkd_service (self st2)))
  /\ (_quantum_keys_cache (qkd_service (self st2)) !! key_id_
      = _quantum_keys_cache (qkd_service (self st1)) !! key_id_
      \/ (_quantum_keys_cache (qkd_service (self st2)) !! key_id_ = None
          /\ firebase_up (world st) = true
          /\ firebase_up (world st2) = true
          /\ firebase_qkd_keys (world st2) !! replace_dot key_id_
             = firebase_qkd_keys (world st1) !! replace_dot key_id_)).

(** The key material [decrypt] is given, or can get, is the one that
    matches what [encrypt] used: the private key of the recipient's pair
    at level 3, the same [key_hex] for [pqc], a quantum key that can be
    got again for [qkd]. *)
Definition key_material_matches (kw kw' : kwargs) (st st1 st2 : state) : Prop :=
  match security_level kw with
  | Some 4 => True
  | Some 3 =>
      exists seed public_key_b64 private_key_b64_,
        recipient_public_key_b64 kw = Some public_key_b64
        /\ b64decode public_key_b64 = Some (snd (kem_keypair_512 seed))
        /\ private_key_b64 kw' = Some private_key_b64_
        /\ truthy (Some private_key_b64_) = true
        /\ b64decode private_key_b64_ = Some (fst (kem_keypair_512 seed))
  | _ =>
      if qkd_method kw then reacquirable st st1 st2
      else key_hex kw' = key_hex kw
  end.

(** The part of an envelope that holds the AES-GCM fields. *)
Definition aead_section (d : list (string * pyval)) : string :=
  if bool_decide (is_Some (assoc_get d "aes_payload")) then "aes_payload"
  else "payload".

(** The bytes of a field of the AES-GCM part of an envelope, and the
    envelope with bit [i] of that field flipped. *)
Definition field_bytes (field : string) (env : string) : option bytes :=
  match json_loads env with
  | Some (PDict d) =>
      match assoc_get d (aead_section d) with
      | Some (PDict fields) =>
          match assoc_get fields field with
          | Some (PStr s) => b64decode s
          | _ => None
          end
      | _ => None
      end
  | _ => None
  end.

Definition tamper (field : string) (i : nat) (env : string) : string :=
  match json_loads env with
  | Some (PDict d) =>
      match assoc_get d (aead_section d) with
      | Some (PDict fields) =>
          match field_bytes field env with
          | Some b =>
              json_dumps (PDict (assoc_set d (aead_section d)
                (PDict (assoc_set fields field
                          (PStr (b64encode (flip_bit i b)))))))
          | None => env
          end
      | _ => env
      end
  | _ => env
  end.

(** What [decrypt] does with the bytes it decrypted. *)
Definition finish (decrypted_payload_bytes : bytes) : M pyval :=
  decrypted_payload ← lift (of_option
    (json_loads (string_of_list_byte decrypted_payload_bytes))
    (ValueError "JSONDecodeError"));
  lift (CryptoService.decode_attachments decrypted_payload).

Definition tamper_message : string :=
  "AES-GCM tag verification failed. Message may be tampered with.".

End Notions.

(** The library [oqs] is of no use: each of its calls raises. *)
Definition oqs_unavailable (oqs : KeyServer.OQS) : Prop :=
  (forall coins, exists e, KeyServer.oqs_generate_keypair oqs coins = Raise e)
  /\ (forall public_key coins,
        exists e, KeyServer.oqs_encap_secret oqs public_key coins = Raise e)
  /\ (forall kem_ciphertext private_key,
        exists e, KeyServer.oqs_decap_secret oqs kem_ciphertext private_key = Raise e).


(** The blocks the loop of [get_deterministic_key] has yet to append
    when the key has [have] bytes of the [want] asked for. *)
Definition blocks_from (have want : Z) : nat := Z.to_nat ((want - have + 31) / 32).

(** * Properties *)

(** ** Bytes and strings *)

Lemma byte_xor_involutive x y : byte_xor (byte_xor x y) y = x.
Proof.
  unfold byte_xor.
  destruct (Byte.to_bits x) as (x0 & x1 & x2 & x3 & x4 & x5 & x6 & x7) eqn:Ex.
  destruct (Byte.to_bits y) as (y0 & y1 & y2 & y3 & y4 & y5 & y6 & y7) eqn:Ey.
  rewrite Byte.to_bits_of_bits.
  rewrite !xorb_assoc, !xorb_nilpotent, !xorb_false_r.
  by rewrite <- Ex, Byte.of_bits_to_bits.
Qed.

Lemma xor_zip_length a b : length (xor_zip a b) = (length a `min` length b)%nat.
Proof. apply length_zip_with. Qed.

(** Masking twice with a key that is long enough gives the data back. *)
Lemma xor_zip_involutive data key :
  (length data <= length key)%nat -> xor_zip (xor_zip data key) key = data.
Proof.
  revert key. induction data as [|x data IH]; intros [|k key] Hlen;
    simpl in *; try done; try lia.
  unfold xor_zip in *. simpl. rewrite byte_xor_involutive, IH by lia. done.
Qed.

Lemma fromhex_hex b : fromhex (hex b) = Some b.
Proof.
  induction b as [|x b IH]; [done|].
  destruct x; simpl; rewrite IH; done.
Qed.

(** The proofs below run the model symbolically; these functions are
    kept folded while they do. *)
Arguments hex : simpl never.
Arguments fromhex : simpl never.
Arguments draw : simpl never.
Arguments utf8_valid : simpl never.
Arguments replace_dot : simpl never.
Arguments xor_zip : simpl never.
Arguments ljust : simpl never.
Arguments slice_to : simpl never.
Arguments flip_bit : simpl never.
Arguments KeyServer.uuid4 : simpl never.
Arguments MockQKDClient.expand_key : simpl never.
Arguments MockQKDClient.get_deterministic_key : simpl never.
Arguments String.append : simpl never.

(** ** The key derivation *)

Section DerivationFacts.

Variable sha256 : bytes -> vec byte 32.

Abbreviation hash := (MockQKDClient.sha256_digest sha256).
Abbreviation chain := (MockQKDClient.hash_chain sha256).

Lemma hash_chain_length seed k : length (concat (chain seed k)) = (32 * k)%nat.
Proof.
  revert seed. induction k as [|k IH]; intros seed; simpl; [done|].
  rewrite length_app, MockQKDClient.sha256_digest_length, IH. lia.
Qed.

Lemma hash_chain_app seed k j :
  exists seed', chain seed (k + j) = chain seed k ++ chain seed' j.
Proof.
  revert seed. induction k as [|k IH]; intros seed; simpl.
  - by exists seed.
  - destruct (IH (hash seed)) as [seed' ->]. by exists seed'.
Qed.

(** Blocks beyond the requested length do not show after the cut. *)
Lemma take_hash_chain_more seed (n k1 k2 : nat) :
  (n <= 32 * k1)%nat -> (k1 <= k2)%nat ->
  take n (concat (chain seed k2)) = take n (concat (chain seed k1)).
Proof.
  intros Hn Hk. replace k2 with (k1 + (k2 - k1))%nat by lia.
  destruct (hash_chain_app seed k1 (k2 - k1)) as [seed' ->].
  rewrite concat_app. apply take_app_le. rewrite hash_chain_length. lia.
Qed.

Lemma blocks_from_done have want : want <= have -> blocks_from have want = O.
Proof.
  intros Hle. unfold blocks_from.
  assert ((want - have + 31) / 32 <= 0); [|lia].
  apply Z.lt_succ_r, Z.div_lt_upper_bound; lia.
Qed.

Lemma blocks_from_step have want :
  have < want -> blocks_from have want = S (blocks_from (have + 32) want).
Proof.
  intros Hlt. unfold blocks_from.
  replace (want - have + 31) with ((want - (have + 32) + 31) + 1 * 32) by lia.
  rewrite Z.div_add by lia.
  assert (0 <= (want - (have + 32) + 31) / 32) by (apply Z.div_pos; lia).
  lia.
Qed.

(** The loop appends to the key the blocks that are still missing. *)
Lemma expand_key_chain seed key n :
  MockQKDClient.expand_key sha256 seed key n
  = key ++ concat (chain seed (blocks_from (len key) n)).
Proof.
  funelim (MockQKDClient.expand_key sha256 seed key n); clear Heqcall.
  - match goal with IH : MockQKDClient.expand_key _ _ _ _ = _ |- _ => rewrite IH end.
    rewrite (blocks_from_step (len key)) by done. simpl.
    unfold len at 1. rewrite length_app, MockQKDClient.sha256_digest_length.
    replace (Z.of_nat (length key + 32)) with (len key + 32)
      by (unfold len; lia).
    by rewrite <- app_assoc.
  - rewrite blocks_from_done by lia. simpl. by rewrite app_nil_r.
Qed.

Lemma get_deterministic_key_blocks self key_id n k :
  (MockQKDClient.blocks_needed n <= k)%nat ->
  MockQKDClient.get_deterministic_key sha256 self key_id n
  = take (Z.to_nat n) (concat (chain (hash (encode_utf8 key_id)) k)).
Proof.
  intros Hk. unfold MockQKDClient.get_deterministic_key. rewrite expand_key_chain.
  simpl. change (blocks_from (len []) n) with (blocks_from 0 n).
  assert (blocks_from 0 n = MockQKDClient.blocks_needed n) as ->.
  { unfold blocks_from, MockQKDClient.blocks_needed. f_equal. f_equal. lia. }
  unfold slice_to. destruct (Z.leb_spec 0 n) as [Hn|Hn].
  - symmetry. apply take_hash_chain_more; [|done].
    unfold MockQKDClient.blocks_needed.
    pose proof (Z.mul_succ_div_gt (n + 31) 32). 
    assert (0 <= (n + 31) / 32) by (apply Z.div_pos; lia). lia.
  - replace (Z.to_nat n) with O by lia. rewrite take_0.
    assert (MockQKDClient.blocks_needed n = O) as ->.
    { unfold MockQKDClient.blocks_needed.
      assert ((n + 31) / 32 <= 0); [|lia].
      apply Z.lt_succ_r, Z.div_lt_upper_bound; lia. }
    done.
Qed.

End DerivationFacts.

(** ** The claims on the key derivation *)

(** C3. The derivation is the hash chain of the specification: the seed
    is the SHA-256 of the identifier, each block the SHA-256 of the one
    before it, and the blocks are concatenated and cut to [n] bytes, with
    as many blocks as the length needs or more.  The client object plays
    no part in it: two clients give the same bytes. *)
Theorem C3_derivation_is_the_hash_chain
    (sha256 : bytes -> vec byte 32) (self self' : MockQKDClient.t)
    (key_id : string) (n : Z) :
  MockQKDClient.get_deterministic_key sha256 self key_id n
  = MockQKDClient.derive_spec sha256 key_id n
  /\ (forall blocks, (MockQKDClient.blocks_needed n <= blocks)%nat ->
        MockQKDClient.get_deterministic_key sha256 self key_id n
        = take (Z.to_nat n)
            (concat (MockQKDClient.hash_chain sha256
               (MockQKDClient.sha256_digest sha256 (encode_utf8 key_id)) blocks)))
  /\ MockQKDClient.get_deterministic_key sha256 self key_id n
     = MockQKDClient.get_deterministic_key sha256 self' key_id n.
Proof.
  split; [|split].
  - unfold MockQKDClient.derive_spec. by apply get_deterministic_key_blocks.
  - intros blocks Hb. by apply get_deterministic_key_blocks.
  - reflexivity.
Qed.

Lemma get_deterministic_key_length sha256 self key_id n :
  0 <= n -> len (MockQKDClient.get_deterministic_key sha256 self key_id n) = n.
Proof.
  intros Hn.
  rewrite (get_deterministic_key_blocks sha256 self key_id n _ (le_n _)).
  unfold len. rewrite length_take, hash_chain_length.
  unfold MockQKDClient.blocks_needed.
  pose proof (Z.mul_succ_div_gt (n + 31) 32).
  assert (0 <= (n + 31) / 32) by (apply Z.div_pos; lia). lia.
Qed.

(** C9. A shorter key is a prefix of a longer one for the same
    identifier, and a key has the length asked for; for the length 0 it
    is empty. *)
Theorem C9_derived_keys_are_prefixes
    (sha256 : bytes -> vec byte 32) (self : MockQKDClient.t)
    (key_id : string) (m n : Z) :
  m <= n ->
  MockQKDClient.get_deterministic_key sha256 self key_id m
    `prefix_of` MockQKDClient.get_deterministic_key sha256 self key_id n
  /\ (0 <= n ->
      len (MockQKDClient.get_deterministic_key sha256 self key_id n) = n)
  /\ MockQKDClient.get_deterministic_key sha256 self key_id 0 = [].
Proof.
  intros Hmn. split; [|split].
  - set (k := (MockQKDClient.blocks_needed m `max` MockQKDClient.blocks_needed n)%nat).
    rewrite (get_deterministic_key_blocks sha256 self key_id m k) by lia.
    rewrite (get_deterministic_key_blocks sha256 self key_id n k) by lia.
    replace (take (Z.to_nat m) _) with
      (take (Z.to_nat m) (take (Z.to_nat n)
         (concat (MockQKDClient.hash_chain sha256
            (MockQKDClient.sha256_digest sha256 (encode_utf8 key_id)) k)))).
    + apply prefix_take.
    + rewrite take_take. f_equal. lia.
  - apply get_deterministic_key_length.
  - rewrite (get_deterministic_key_blocks sha256 self key_id 0 _ (le_n _)). done.
Qed.

Lemma C9_witness :
  5 <= 40
  /\ (MockQKDClient.get_deterministic_key Sha256.digest
        {| MockQKDClient.connected := true |} "qkd_00" 5
        `prefix_of` MockQKDClient.get_deterministic_key Sha256.digest
                      {| MockQKDClient.connected := true |} "qkd_00" 40
      /\ (0 <= 40 ->
          len (MockQKDClient.get_deterministic_key Sha256.digest
                 {| MockQKDClient.connected := true |} "qkd_00" 40) = 40)
      /\ MockQKDClient.get_deterministic_key Sha256.digest
           {| MockQKDClient.connected := true |} "qkd_00" 0 = []).
Proof.
  split; [lia|].
  apply (C9_derived_keys_are_prefixes Sha256.digest
           {| MockQKDClient.connected := true |} "qkd_00" 5 40). lia.
Defined.

(** ** The claim on single-use keys *)

Lemma serve_keeps_absent key_id r w :
  symmetric_keys w !! key_id = None -> minted r w <> Some key_id ->
  symmetric_keys (serve r w) !! key_id = None.
Proof.
  intros Hw Hm. destruct r as [n|k]; simpl in *.
  - unfold KeyServer.get_symmetric_key, draw in *. simpl in *.
    destruct (n <? 0); simpl in *; [done|].
    destruct (symmetric_keys w !! _) eqn:E3 in Hm |- *; simpl in *; [done|].
    rewrite lookup_insert_ne; [done|]. intros Heq. apply Hm. by rewrite Heq.
  - unfold KeyServer.get_symmetric_key_by_id.
    destruct (symmetric_keys w !! k) eqn:E; simpl; [|done].
    destruct (decide (k = key_id)) as [->|Hne].
    + apply lookup_delete_eq.
    + by rewrite lookup_delete_ne.
Qed.

Lemma serve_all_keeps_absent key_id rs w :
  symmetric_keys w !! key_id = None -> never_minted key_id rs w ->
  symmetric_keys (serve_all rs w) !! key_id = None.
Proof.
  revert w. induction rs as [|r rs IH]; intros w Hw Hrs; simpl in *; [done|].
  destruct Hrs as [Hr Hrs]. apply IH; [|done]. by apply serve_keeps_absent.
Qed.

(** C5. The first retrieval of a stored key returns it and deletes it;
    whatever the server is asked afterwards, short of minting the same
    identifier again, a retrieval of that identifier is answered 404, and
    the client raises the HTTP error of that status. *)
Theorem C5_single_use_retrieval (key_id key_hex : string) (w : World) :
  symmetric_keys w !! key_id = Some key_hex ->
  exists w1,
    KeyServer.get_symmetric_key_by_id key_id w = (KeyServer.OK key_hex, w1)
    /\ symmetric_keys w1 = delete key_id (symmetric_keys w)
    /\ (forall rs, never_minted key_id rs w1 ->
          KeyServer.get_symmetric_key_by_id key_id (serve_all rs w1)
          = (KeyServer.HTTPException 404 "Symmetric key not found.",
             serve_all rs w1))
    /\ (forall service : CryptoServiceObject,
          key_server_up w = true ->
          exists st1 st2,
            CryptoService.get_symmetric_key_by_id key_id
              {| self := service; world := w |} = (Return key_hex, st1)
            /\ CryptoService.get_symmetric_key_by_id key_id st1
               = (Raise (HTTPStatusError 404), st2)).
Proof.
  intros Hw. unfold KeyServer.get_symmetric_key_by_id at 1. rewrite Hw.
  eexists. split; [reflexivity|]. split; [reflexivity|]. split.
  - intros rs Hrs. unfold KeyServer.get_symmetric_key_by_id.
    rewrite serve_all_keeps_absent; [done| |done].
    simpl. apply lookup_delete_eq.
  - intros service Hup.
    unfold CryptoService.get_symmetric_key_by_id, CryptoService.http_get,
      KeyServer.get_symmetric_key_by_id.
    cbv beta iota zeta delta
      [mbind mret M_bind M_ret modify log_event set_world self world fst snd].
    simpl. rewrite Hup, Hw. eexists. eexists. split; [reflexivity|].
    simpl. rewrite Hup, lookup_delete_eq. reflexivity.
Qed.

(** ** Running a computation *)

Ltac mrun :=
  cbv beta iota zeta delta
    [mbind mret M_bind M_ret result_bind result_ret get_state modify raise lift
     try_except log_event urandom of_option negb
     CryptoService.kwarg CryptoService.b64_field CryptoService.bytes_fromhex
     CryptoService.qkd_ready];
  cbn [self world qkd_service qkd_client _quantum_keys_cache fst snd
       set_world set_qkd].

Tactic Notation "mrun" "in" hyp(H) :=
  cbv beta iota zeta delta
    [mbind mret M_bind M_ret result_bind result_ret get_state modify raise lift
     try_except log_event urandom of_option negb
     CryptoService.kwarg CryptoService.b64_field CryptoService.bytes_fromhex
     CryptoService.qkd_ready] in H;
  cbn [self world qkd_service qkd_client _quantum_keys_cache fst snd
       set_world set_qkd] in H.



Lemma py_eq_int_distinct v m n : m <> n -> py_eq_int v m = true -> py_eq_int v n = false.
Proof.
  destruct v as [|[]|z| | | |]; cbn [py_eq_int]; try done; intros Hne Hm;
    apply Z.eqb_eq in Hm; apply Z.eqb_neq; lia.
Qed.

Lemma Return_inj {A} (a b : A) : Return a = Return b -> a = b.
Proof. by intros [= ->]. Qed.

Lemma bind_inv {A B} (m : M A) (k : A -> M B) st b st' :
  ((m ≫= k) : M B) st = (Return b, st') ->
  exists a st1, m st = (Return a, st1) /\ k a st1 = (Return b, st').
Proof.
  unfold mbind, M_bind. destruct (m st) as [[a|e] st1]; [eauto|done].
Qed.

Lemma bind_run {A B} (m : M A) (k : A -> M B) st a st1 :
  m st = (Return a, st1) -> ((m ≫= k) : M B) st = k a st1.
Proof. unfold mbind, M_bind. by intros ->. Qed.


Lemma lift_inv {A} (r : result A) st a st' :
  lift r st = (Return a, st') -> r = Return a /\ st' = st.
Proof. unfold lift. by intros [= -> ->]. Qed.

Lemma ret_inv {A} (a b : A) (st st' : state) :
  (mret a : M A) st = (Return b, st') -> a = b /\ st' = st.
Proof. unfold mret, M_ret. by intros [= -> ->]. Qed.

Lemma kwarg_inv {A} name (v : option A) st a st' :
  CryptoService.kwarg name v st = (Return a, st') -> v = Some a /\ st' = st.
Proof.
  unfold CryptoService.kwarg, lift. destruct v; simpl; [|done].
  by intros [= -> ->].
Qed.

Lemma bytes_fromhex_inv s st b st' :
  CryptoService.bytes_fromhex s st = (Return b, st') ->
  fromhex s = Some b /\ st' = st.
Proof.
  unfold CryptoService.bytes_fromhex, lift. destruct (fromhex s); simpl; [|done].
  by intros [= -> ->].
Qed.

Lemma urandom_inv n st r st' :
  urandom n st = (Return r, st') ->
  r = fst (draw n (world st)) /\ st' = drawn_by n st.
Proof. unfold urandom. by intros [= <- <-]. Qed.

Lemma log_event_inv e st u st' :
  log_event e st = (Return u, st') -> st' = logged e st.
Proof. unfold log_event, modify. by intros [= <- <-]. Qed.

Lemma draw_length n w : length (fst (draw n w)) = n.
Proof. unfold draw. simpl. by rewrite length_map, length_seq. Qed.

(** Peel one step off a run that returned. *)
Ltac minv H :=
  lazymatch type of H with
  | mbind _ _ _ = (Return _, _) =>
      let a := fresh "a" in
      let st := fresh "st" in
      let Ha := fresh "Hrun" in
      apply bind_inv in H as (a & st & Ha & H)
  | lift _ _ = (Return _, _) =>
      apply lift_inv in H as [H ?]; subst; try (injection H as <-)
  | mret _ _ = (Return _, _) => apply ret_inv in H as [H ?]; subst
  | raise _ _ = (Return _, _) => discriminate H
  | CryptoService.kwarg _ _ _ = (Return _, _) =>
      apply kwarg_inv in H as [H ?]; subst
  | CryptoService.bytes_fromhex _ _ = (Return _, _) =>
      apply bytes_fromhex_inv in H as [H ?]; subst
  | urandom _ _ = (Return _, _) => apply urandom_inv in H as [? ?]; subst
  | log_event _ _ = (Return _, _) => apply log_event_inv in H; subst
  end.

(** ** The claims on missing material in [decrypt] *)

Section Decrypt.

Context `{P : Primitives}.

(** C7. An envelope of level 3 (its [aes_payload] is there) decrypted
    without a private key, absent or empty, raises [DecryptionError]; the
    state is left as it was, so the trace has no new event: neither the
    decapsulation nor AES-GCM was attempted. *)
Theorem C7_missing_private_key_fails_before_the_primitives
    (env : string) (kw : kwargs) (st : state) (data level aes_payload : pyval) :
  json_loads env = Some data ->
  py_getitem data "security_level" = Return level ->
  py_eq_int level 3 = true ->
  py_getitem data "aes_payload" = Return aes_payload ->
  truthy (private_key_b64 kw) = false ->
  exists st',
    CryptoService.decrypt env kw st
    = (Raise (DecryptionError "Missing private key for local decapsulation."), st')
    /\ trace (world st') = trace (world st)
    /\ st' = st.
Proof.
  intros Hload Hlevel H3 Haes Hkey. exists st. split; [|done].
  unfold CryptoService.decrypt. mrun. rewrite Hload, Hlevel.
  rewrite (py_eq_int_distinct level 3 4) by done.
  rewrite H3, Haes, Hkey. reflexivity.
Qed.




End Decrypt.

(** ** What a successful [encrypt] did *)

Section Encrypt.

Context `{P : Primitives}.

Lemma aes_gcm_encrypt_inv key nonce data st ciphertext tag st' :
  CryptoService.aes_gcm_encrypt key nonce data st = (Return (ciphertext, tag), st') ->
  CryptoService.valid_aes_key key = true
  /\ CryptoService.valid_gcm_nonce nonce = true
  /\ ciphertext = gcm_ctr key nonce data
  /\ tag = vec_to_list (gcm_tag key nonce ciphertext)
  /\ st' = logged EvAeadEncrypt st.
Proof.
  unfold CryptoService.aes_gcm_encrypt. intros H. minv H. minv Hrun.
  destruct (CryptoService.valid_aes_key key); [|done].
  destruct (CryptoService.valid_gcm_nonce nonce); [|done]. simpl in H.
  minv H. injection H as <- <-. by rewrite app_nil_r.
Qed.

(** Peel every step off the runs that returned. *)
Ltac minv_all :=
  repeat match goal with
  | H : mbind _ _ _ = (Return _, _) |- _ =>
      let Ha := fresh "Hrun" in apply bind_inv in H as (? & ? & Ha & H)
  | H : lift _ _ = (Return _, _) |- _ => apply lift_inv in H as [H ?]; subst
  | H : mret _ _ = (Return _, _) |- _ => apply ret_inv in H as [H ?]; subst
  | H : raise _ _ = (Return _, _) |- _ => discriminate H
  | H : CryptoService.kwarg _ _ _ = (Return _, _) |- _ =>
      apply kwarg_inv in H as [H ?]; subst
  | H : CryptoService.bytes_fromhex _ _ = (Return _, _) |- _ =>
      apply bytes_fromhex_inv in H as [H ?]; subst
  | H : urandom _ _ = (Return _, _) |- _ => apply urandom_inv in H as [? ?]; subst
  | H : log_event _ _ = (Return _, _) |- _ => apply log_event_inv in H; subst
  | H : CryptoService.aes_gcm_encrypt _ _ _ _ = (Return (_, _), _) |- _ =>
      apply aes_gcm_encrypt_inv in H as (? & ? & ? & ? & ?); subst
  | H : CryptoService.aes_gcm_encrypt _ _ _ _ = (Return ?a, _) |- _ =>
      destruct a
  | H : context [match ?x with (_, _) => _ end] |- _ => is_var x; destruct x
  | H : Return _ = Return _ |- _ => apply Return_inj in H; try subst
  | H : Some _ = Some _ |- _ => apply (inj Some) in H; try subst
  end.

Lemma get_quantum_key_run n email st client :
  qkd_client (qkd_service (self st)) = Some client ->
  CryptoService.get_quantum_key n email st
  = (Return (issued client n email (world st)), after_issue client n email st).
Proof.
  intros Hc. destruct st as [[[cl cache]] w]. simpl in Hc. subst cl.
  unfold CryptoService.get_quantum_key, QKDService.get_quantum_key,
    QKDService.initialize, QKDService.cache_key,
    QKDService._store_key_metadata_in_firebase, after_issue, issued, published,
    issued_key_id.
  mrun. simpl. destruct (truthy email); simpl; [|done].
  destruct (firebase_up w); done.
Qed.

Lemma get_quantum_key_not_ready n email st :
  qkd_client (qkd_service (self st)) = None ->
  CryptoService.get_quantum_key n email st
  = (Raise (EncryptionError "QKD service not available or not initialized"), st).
Proof.
  intros Hc. unfold CryptoService.get_quantum_key. mrun. by rewrite Hc.
Qed.

Lemma get_quantum_key_inv n email st md st' :
  CryptoService.get_quantum_key n email st = (Return md, st') ->
  exists client,
    qkd_client (qkd_service (self st)) = Some client
    /\ md = issued client n email (world st)
    /\ st' = after_issue client n email st.
Proof.
  destruct (qkd_client (qkd_service (self st))) as [client|] eqn:Hc.
  - rewrite (get_quantum_key_run _ _ _ _ Hc). intros [= <- <-]. eauto.
  - by rewrite (get_quantum_key_not_ready _ _ _ Hc).
Qed.

Lemma encrypt_inv_utf8 src body atts kw st env st1 :
  CryptoService.encrypt_with src body atts kw st = (Return env, st1) ->
  utf8_valid body = true.
Proof.
  unfold CryptoService.encrypt_with. intros H. minv H. minv Hrun.
  unfold CryptoService.decode_utf8 in Hrun. by destruct (utf8_valid body).
Qed.

(** A run that returned an envelope ran at one of the four levels. *)
Lemma encrypt_inv_level src body atts kw st env st1 :
  CryptoService.encrypt_with src body atts kw st = (Return (Some env), st1) ->
  exists level, security_level kw = Some level /\ level ∈ [1; 2; 3; 4].
Proof.
  unfold CryptoService.encrypt_with. intros H. minv H. clear Hrun.
  destruct (security_level kw) as [level|] eqn:Hl.
  - exists level. split; [done|].
    destruct (decide (level = 4)) as [->|H4]; [set_solver|].
    destruct (decide (level = 3)) as [->|H3]; [set_solver|].
    rewrite !bool_decide_eq_false_2 in H by congruence.
    destruct (decide (level ∈ [1; 2])) as [H12|H12]; [set_solver|].
    rewrite (bool_decide_eq_false_2 _ H12) in H. by minv H.
  - rewrite !bool_decide_eq_false_2 in H by done. by minv H.
Qed.

Lemma encrypt_inv_level4 src body atts kw st env st1 :
  security_level kw = Some 4 ->
  CryptoService.encrypt_with src body atts kw st = (Return (Some env), st1) ->
  env = json_dumps (envelope_4
          (CryptoService.payload_dict (string_of_list_byte body) atts))
  /\ st1 = st.
Proof.
  intros Hl H. pose proof (encrypt_inv_utf8 _ _ _ _ _ _ _ H) as Hutf.
  unfold CryptoService.encrypt_with, CryptoService.decode_utf8 in H.
  rewrite Hutf, Hl in H. minv H. minv Hrun.
  rewrite bool_decide_eq_true_2 in H by done. minv H. by injection H as <-.
Qed.

Lemma encrypt_inv_level3 src body atts kw st env st1 :
  security_level kw = Some 3 ->
  CryptoService.encrypt_with src body atts kw st = (Return (Some env), st1) ->
  exists aes_key nonce public_key_b64 public_key coins kem_ciphertext shared_secret,
    length aes_key = 32%nat /\ length nonce = 12%nat
    /\ CryptoService.valid_aes_key aes_key = true
    /\ CryptoService.valid_gcm_nonce nonce = true
    /\ recipient_public_key_b64 kw = Some public_key_b64
    /\ b64decode public_key_b64 = Some public_key
    /\ kem_encrypt_512 public_key coins = Return (kem_ciphertext, shared_secret)
    /\ (let ciphertext := gcm_ctr aes_key nonce (plaintext body atts) in
        env = json_dumps (envelope_3 kem_ciphertext
                (xor_zip (ljust aes_key (length (vec_to_list shared_secret)) x00)
                         (vec_to_list shared_secret))
                nonce (vec_to_list (gcm_tag aes_key nonce ciphertext)) ciphertext))
    /\ trace (world st1)
       = trace (world st) ++ [EvAeadEncrypt; EvKemEncapsulate].
Proof.
  intros Hl H. pose proof (encrypt_inv_utf8 _ _ _ _ _ _ _ H) as Hutf.
  unfold CryptoService.encrypt_with, CryptoService.decode_utf8 in H.
  rewrite Hutf, Hl in H. minv H. minv Hrun.
  rewrite bool_decide_eq_false_2 in H by done.
  rewrite bool_decide_eq_true_2 in H by done.
  minv_all.
  unfold CryptoService.b64decode_val in *.
  match goal with
  | H : of_option (b64decode ?s) _ = Return _ |- _ =>
      destruct (b64decode s) eqn:Hpk; [|done]; injection H as <-
  | H : match b64decode ?s with _ => _ end = Return _ |- _ =>
      destruct (b64decode s) eqn:Hpk; [|done]; injection H as <-
  end.
  eexists _, _, _, _, _, _, _.
  split_and!; try eassumption; try apply draw_length; [reflexivity|].
  unfold logged, drawn_by, draw. simpl. by rewrite <- app_assoc.
Qed.

Lemma encrypt_inv_pqc src body atts kw st env st1 level :
  security_level kw = Some level -> level = 1 \/ level = 2 ->
  String.eqb (default "pqc"%string (encryption_method kw)) "qkd" = false ->
  CryptoService.encrypt_with src body atts kw st = (Return (Some env), st1) ->
  exists key_hex_ key_id_ key,
    key_hex kw = Some key_hex_ /\ key_id kw = Some key_id_
    /\ fromhex key_hex_ = Some key
    /\ (level = 1 ->
        len (plaintext body atts) <= len key
        /\ env = json_dumps (CryptoService.envelope_12 1 "pqc" key_id_
                   (PDict [("ciphertext_b64",
                            PStr (b64encode (xor_zip (plaintext body atts) key)))]))
        /\ st1 = logged EvOtpMask st)
    /\ (level = 2 ->
        exists nonce,
          length nonce = 12%nat
          /\ CryptoService.valid_aes_key (slice_to key 32) = true
          /\ CryptoService.valid_gcm_nonce nonce = true
          /\ (let ciphertext := gcm_ctr (slice_to key 32) nonce (plaintext body atts) in
              env = json_dumps (CryptoService.envelope_12 2 "pqc" key_id_
                      (PDict (aead_fields ciphertext nonce
                                (vec_to_list (gcm_tag (slice_to key 32) nonce ciphertext))))))
          /\ st1 = logged EvAeadEncrypt (drawn_by 12 st)).
Proof.
  intros Hl Hlevel Hm H. pose proof (encrypt_inv_utf8 _ _ _ _ _ _ _ H) as Hutf.
  unfold CryptoService.encrypt_with, CryptoService.decode_utf8 in H.
  rewrite Hutf, Hl in H.
  rewrite !bool_decide_eq_false_2 in H by (intros [= ->]; lia).
  rewrite bool_decide_eq_true_2 in H by (destruct Hlevel as [-> | ->]; set_solver).
  rewrite Hm in H. minv_all. fold (plaintext body atts) in *.
  match goal with
  | Hh : key_hex kw = Some ?kh, Hi : key_id kw = Some ?kid,
    Hf : fromhex ?kh = Some ?key |- _ => exists kh, kid, key
  end.
  split_and!; try done.
  - intros ->.
    match goal with
    | Hx : (if 1 =? 2 then _ else if len ?key <? _ then _ else _) _ = _ |- _ =>
        change (1 =? 2) with false in Hx; cbv iota in Hx;
        destruct (Z.ltb_spec (len key) (len (plaintext body atts)));
          [discriminate Hx|]
    end.
    minv_all. split_and!; [lia|done|done].
  - intros ->.
    match goal with
    | Hx : (if 2 =? 2 then _ else _) _ = _ |- _ =>
        change (2 =? 2) with true in Hx; cbv iota in Hx
    end.
    minv_all. eexists. split_and!; try eassumption; try apply draw_length; done.
Qed.

Lemma encrypt_inv_qkd body atts kw st env st1 level :
  security_level kw = Some level -> level = 1 \/ level = 2 ->
  String.eqb (default "pqc"%string (encryption_method kw)) "qkd" = true ->
  CryptoService.encrypt body atts kw st = (Return (Some env), st1) ->
  exists client,
    truthy (recipient_email kw) = true
    /\ qkd_client (qkd_service (self st)) = Some client
    /\ (let n := len (plaintext body atts) in
        let key_id_ := issued_key_id (world st) in
        let key := MockQKDClient.get_deterministic_key sha256 client key_id_ n in
        let st0 := after_issue client n (recipient_email kw) st in
        (level = 1 ->
         env = json_dumps (CryptoService.envelope_12 1 "qkd" key_id_
                 (PDict [("ciphertext_b64",
                          PStr (b64encode (xor_zip (plaintext body atts) key)))]))
         /\ st1 = logged EvOtpMask st0)
        /\ (level = 2 ->
            let salt := fst (draw 16 (world st0)) in
            let aes_key := vec_to_list (pbkdf2_hmac_sha256 32 salt 100000 key) in
            let nonce := fst (draw 12 (world (logged EvKdf (drawn_by 16 st0)))) in
            let ciphertext := gcm_ctr aes_key nonce (plaintext body atts) in
            CryptoService.valid_aes_key aes_key = true
            /\ CryptoService.valid_gcm_nonce nonce = true
            /\ env = json_dumps (CryptoService.envelope_12 2 "qkd" key_id_
                     (PDict (aead_fields ciphertext nonce
                               (vec_to_list (gcm_tag aes_key nonce ciphertext))
                             ++ [("salt_b64", PStr (b64encode salt))])))
            /\ st1 = logged EvAeadEncrypt
                       (drawn_by 12 (logged EvKdf (drawn_by 16 st0))))).
Proof.
  intros Hl Hlevel Hm H. pose proof (encrypt_inv_utf8 _ _ _ _ _ _ _ H) as Hutf.
  unfold CryptoService.encrypt, CryptoService.encrypt_with,
    CryptoService.decode_utf8 in H.
  rewrite Hutf, Hl in H.
  rewrite !bool_decide_eq_false_2 in H by (intros [= ->]; lia).
  rewrite bool_decide_eq_true_2 in H by (destruct Hlevel as [-> | ->]; set_solver).
  rewrite Hm in H.
  destruct (truthy (recipient_email kw)) eqn:Hemail; cbn [negb] in H;
    [|by minv_all].
  minv_all. fold (plaintext body atts) in *.
  match goal with
  | Hq : CryptoService.get_quantum_key _ _ _ = (Return _, _) |- _ =>
      apply get_quantum_key_inv in Hq as (client & Hc & -> & ->)
  end.
  cbn [issued km_key_hex km_key_id] in *.
  match goal with
  | Hf : fromhex (hex _) = Some _ |- _ =>
      rewrite fromhex_hex in Hf; apply (inj Some) in Hf; subst
  end.
  exists client. split_and!; try done.
  - intros ->.
    match goal with
    | Hx : (if 1 =? 2 then _ else if ?c then _ else _) _ = _ |- _ =>
        change (1 =? 2) with false in Hx; cbv iota in Hx;
        destruct c; [discriminate Hx|]
    end.
    by minv_all.
  - intros ->.
    match goal with
    | Hx : (if 2 =? 2 then _ else _) _ = _ |- _ =>
        change (2 =? 2) with true in Hx; cbv iota in Hx
    end.
    unfold CryptoService._derive_aes_key_from_quantum in *. minv_all.
    match goal with
    | Hf : fromhex (hex _) = Some _ |- _ =>
        rewrite fromhex_hex in Hf; apply (inj Some) in Hf; subst
    end.
    by split_and!.
Qed.

Lemma aes_gcm_encrypt_run key nonce data st :
  CryptoService.valid_aes_key key = true ->
  CryptoService.valid_gcm_nonce nonce = true ->
  CryptoService.aes_gcm_encrypt key nonce data st
  = (Return (gcm_ctr key nonce data,
             vec_to_list (gcm_tag key nonce (gcm_ctr key nonce data))),
     logged EvAeadEncrypt st).
Proof.
  intros Hk Hn. unfold CryptoService.aes_gcm_encrypt. mrun.
  rewrite Hk, Hn. simpl. by rewrite app_nil_r.
Qed.

Lemma valid_aes_key_32 (key : bytes) :
  length key = 32%nat -> CryptoService.valid_aes_key key = true.
Proof.
  intros Hlen. unfold CryptoService.valid_aes_key. rewrite Hlen.
  apply bool_decide_eq_true. set_solver.
Qed.

Lemma valid_gcm_nonce_12 (nonce : bytes) :
  length nonce = 12%nat -> CryptoService.valid_gcm_nonce nonce = true.
Proof.
  intros Hlen. unfold CryptoService.valid_gcm_nonce. rewrite Hlen.
  apply bool_decide_eq_true. lia.
Qed.

End Encrypt.

(** ** The claims on the one-time pad and on level 2 with [qkd] *)

Section EncryptClaims.

Context `{P : Primitives}.

(** C10. A level-1 run of [encrypt] that returns an envelope, with
    either method, put in it a ciphertext of exactly the length of the
    serialized payload. *)
Theorem C10_otp_ciphertext_has_the_length_of_the_payload
    (body : bytes) (atts : list attachment) (kw : kwargs) (st st1 : state)
    (env : string) :
  security_level kw = Some 1 ->
  CryptoService.encrypt body atts kw st = (Return (Some env), st1) ->
  exists method key_id_ xor_ciphertext,
    env = json_dumps (CryptoService.envelope_12 1 method key_id_
            (PDict [("ciphertext_b64", PStr (b64encode xor_ciphertext))]))
    /\ length xor_ciphertext = length (plaintext body atts).
Proof.
  intros Hl H.
  destruct (String.eqb (default "pqc"%string (encryption_method kw)) "qkd") eqn:Hm.
  - apply (encrypt_inv_qkd _ _ _ _ _ _ 1 Hl (or_introl eq_refl) Hm) in H
      as (client & _ & _ & H1 & _).
    destruct (H1 eq_refl) as [-> _]. eexists _, _, _. split; [done|].
    rewrite xor_zip_length.
    pose proof (get_deterministic_key_length sha256 client
      (issued_key_id (world st)) (len (plaintext body atts))) as Hk.
    unfold len in *. lia.
  - apply (encrypt_inv_pqc _ _ _ _ _ _ _ 1 Hl (or_introl eq_refl) Hm) in H
      as (kh & kid & key & _ & _ & _ & H1 & _).
    destruct (H1 eq_refl) as (Hlen & -> & _). eexists _, _, _. split; [done|].
    rewrite xor_zip_length. unfold len in *. lia.
Qed.





(** C6, as the code has it.  At level 2 with method [qkd], for a body
    that decodes, a recipient and a ready client, [encrypt] requests from
    the quantum key service a key of the length of the serialized payload
    (not of 32 bytes), draws a salt of 16 bytes after the identifier was
    drawn, derives the AES key from the quantum key and that salt with
    PBKDF2 (32 bytes, 100000 iterations), draws a nonce of 12 bytes,
    encrypts with AES-GCM and returns the envelope with the key
    identifier, the ciphertext, the nonce, the tag and the salt. *)
Theorem C6_level2_qkd_requests_a_payload_length_key_and_derives_the_aes_key
    (body : bytes) (atts : list attachment) (kw : kwargs) (st : state)
    (client : MockQKDClient.t) :
  security_level kw = Some 2 ->
  String.eqb (default "pqc"%string (encryption_method kw)) "qkd" = true ->
  utf8_valid body = true ->
  truthy (recipient_email kw) = true ->
  qkd_client (qkd_service (self st)) = Some client ->
  let n := len (plaintext body atts) in
  let key_id_ := issued_key_id (world st) in
  let quantum_key := MockQKDClient.get_deterministic_key sha256 client key_id_ n in
  let st0 := after_issue client n (recipient_email kw) st in
  let salt := fst (draw 16 (world st0)) in
  let aes_key := vec_to_list (pbkdf2_hmac_sha256 32 salt 100000 quantum_key) in
  let nonce := fst (draw 12 (world (logged EvKdf (drawn_by 16 st0)))) in
  let ciphertext := gcm_ctr aes_key nonce (plaintext body atts) in
  let tag := vec_to_list (gcm_tag aes_key nonce ciphertext) in
  exists st1,
    CryptoService.encrypt body atts kw st
    = (Return (Some (json_dumps (CryptoService.envelope_12 2 "qkd" key_id_
         (PDict [("ciphertext_b64", PStr (b64encode ciphertext));
                 ("nonce_b64", PStr (b64encode nonce));
                 ("auth_tag_b64", PStr (b64encode tag));
                 ("salt_b64", PStr (b64encode salt))])))), st1)
    /\ trace (world st1)
       = trace (world st)
         ++ [EvQuantumKeyRequest n (recipient_email kw); EvKdf; EvAeadEncrypt]
    /\ length salt = 16%nat /\ length nonce = 12%nat /\ length aes_key = 32%nat.
Proof.
  intros Hl Hm Hutf Hemail Hc n key_id_ quantum_key st0 salt aes_key nonce
    ciphertext tag.
  assert (length aes_key = 32%nat) as Hkey by apply length_vec_to_list.
  assert (length nonce = 12%nat) as Hnonce by apply draw_length.
  eexists. split; [|split; [|split_and!; try done; apply draw_length]].
  - unfold CryptoService.encrypt, CryptoService.encrypt_with,
      CryptoService.decode_utf8, CryptoService._derive_aes_key_from_quantum.
    rewrite Hutf, Hl, Hm, Hemail.
    rewrite !bool_decide_eq_false_2 by done.
    rewrite bool_decide_eq_true_2 by set_solver. mrun.
    fold (plaintext body atts). fold n.
    rewrite (get_quantum_key_run _ _ _ _ Hc). cbn [issued km_key_hex km_key_id].
    fold key_id_. fold quantum_key. fold st0.
    rewrite !fromhex_hex. change (2 =? 2) with true. cbv beta iota.
    fold salt. fold aes_key.
    change {| self := self st0; world := (draw 16 (world st0)).2 |}
      with (drawn_by 16 st0).
    change (set_world (with_trace (fun t => t ++ [EvKdf])) (drawn_by 16 st0))
      with (logged EvKdf (drawn_by 16 st0)).
    fold nonce.
    rewrite (aes_gcm_encrypt_run aes_key nonce)
      by (by apply valid_aes_key_32 || by apply valid_gcm_nonce_12).
    reflexivity.
  - subst st0. unfold logged, drawn_by, draw, after_issue. simpl.
    destruct (truthy (recipient_email kw) && firebase_up (world st)); simpl;
      by rewrite <- !app_assoc.
Qed.

End EncryptClaims.

(** ** What [decrypt] does with an envelope of [encrypt] *)

Section RoundTrip.

Context `{P : Primitives}.

(** What is assumed of the libraries: base64 and JSON read what they
    write; the counter mode undoes itself; decapsulation with the private
    key of a pair gives the secret encapsulated for its public key. *)
Hypothesis b64_law : forall b, b64decode (b64encode b) = Some b.
Hypothesis json_law :
  forall v, json_plain v = true -> json_loads (json_dumps v) = Some v.
Hypothesis ctr_law :
  forall key nonce data, gcm_ctr key nonce (gcm_ctr key nonce data) = data.
Hypothesis kem_law :
  forall seed coins kem_ciphertext shared_secret,
    kem_encrypt_512 (snd (kem_keypair_512 seed)) coins
    = Return (kem_ciphertext, shared_secret) ->
    kem_decrypt_512 kem_ciphertext (fst (kem_keypair_512 seed))
    = Return shared_secret.

Lemma payload_plain body atts :
  json_plain (CryptoService.payload_dict body atts) = true.
Proof.
  unfold CryptoService.payload_dict. cbn [json_plain forallb snd map fst].
  rewrite bool_decide_eq_true_2 by (repeat constructor; set_solver).
  cbn [andb]. rewrite andb_true_r.
  induction atts as [|att atts IH]; [done|].
  cbn [map forallb]. rewrite IH, andb_true_r.
  unfold CryptoService.attachment_json. cbn [json_plain forallb snd map fst].
  rewrite bool_decide_eq_true_2 by (repeat constructor; set_solver). done.
Qed.

Lemma decode_each_attachments atts :
  CryptoService.decode_each (map CryptoService.attachment_json atts)
  = Return (map decrypted_attachment atts).
Proof.
  induction atts as [|att atts IH]; [done|].
  cbn [map CryptoService.decode_each]. rewrite IH.
  unfold CryptoService.attachment_json, decrypted_attachment,
    CryptoService.b64decode_val, py_getitem, py_setitem.
  cbn. by rewrite b64_law.
Qed.

Lemma decode_attachments_payload body atts :
  CryptoService.decode_attachments (CryptoService.payload_dict body atts)
  = Return (decrypted_payload body atts).
Proof.
  unfold CryptoService.decode_attachments, CryptoService.payload_dict.
  cbn [py_get assoc_get String.eqb Ascii.eqb Bool.eqb].
  mrun. cbn [py_iter]. rewrite decode_each_attachments.
  rewrite bool_decide_eq_true_2 by done. done.
Qed.

Lemma finish_plaintext body atts st :
  finish (plaintext body atts) st
  = (Return (decrypted_payload (string_of_list_byte body) atts), st).
Proof.
  unfold finish, plaintext, encode_utf8.
  rewrite string_of_list_byte_of_string, json_law by apply payload_plain.
  mrun. by rewrite decode_attachments_payload.
Qed.

(** Run [decrypt] on an envelope whose fields are known. *)
Ltac run_fields :=
  repeat progress
    (mrun;
     cbn [py_getitem py_get py_eq_str assoc_get String.eqb Ascii.eqb Bool.eqb
          py_eq_int Z.eqb Pos.eqb orb andb default id
          CryptoService.b64decode_val]).

Lemma aead_genuine key nonce data st :
  CryptoService.valid_aes_key key = true ->
  CryptoService.valid_gcm_nonce nonce = true ->
  CryptoService.aes_gcm_decrypt_or_tamper key nonce
    (vec_to_list (gcm_tag key nonce (gcm_ctr key nonce data)))
    (gcm_ctr key nonce data) st
  = (Return data, logged EvAeadDecrypt st).
Proof.
  intros Hk Hn.
  unfold CryptoService.aes_gcm_decrypt_or_tamper, CryptoService.aes_gcm_decrypt.
  mrun. rewrite Hk, Hn, length_vec_to_list.
  rewrite !bool_decide_eq_true_2 by (done || lia). cbn [andb].
  by rewrite ctr_law, app_nil_r.
Qed.

Lemma aead_tampered key nonce tag ciphertext st :
  CryptoService.valid_aes_key key = true ->
  CryptoService.valid_gcm_nonce nonce = true ->
  length tag = 16%nat ->
  tag <> vec_to_list (gcm_tag key nonce ciphertext) ->
  CryptoService.aes_gcm_decrypt_or_tamper key nonce tag ciphertext st
  = (Raise (DecryptionError tamper_message), logged EvAeadDecrypt st).
Proof.
  intros Hk Hn Hlen Htag.
  unfold CryptoService.aes_gcm_decrypt_or_tamper, CryptoService.aes_gcm_decrypt.
  mrun. rewrite Hk, Hn.
  rewrite bool_decide_eq_true_2 by done. cbn [andb].
  by rewrite bool_decide_eq_false_2.
Qed.

Lemma decrypt_level4 payload kw st :
  json_plain payload = true ->
  CryptoService.decrypt (json_dumps (envelope_4 payload)) kw st
  = (CryptoService.decode_attachments payload, st).
Proof.
  intros Hplain. unfold CryptoService.decrypt.
  rewrite json_law
    by (unfold envelope_4; cbn [json_plain forallb snd map fst];
        rewrite Hplain; by vm_compute).
  unfold envelope_4. run_fields. done.
Qed.

Lemma decrypt_level3 kem_ciphertext wrapped nonce tag ciphertext kw st
    private_key_b64_ private_key shared_secret :
  private_key_b64 kw = Some private_key_b64_ ->
  truthy (Some private_key_b64_) = true ->
  b64decode private_key_b64_ = Some private_key ->
  kem_decrypt_512 kem_ciphertext private_key = Return shared_secret ->
  CryptoService.decrypt
    (json_dumps (envelope_3 kem_ciphertext wrapped nonce tag ciphertext)) kw st
  = (CryptoService.aes_gcm_decrypt_or_tamper
       (xor_zip wrapped (vec_to_list shared_secret)) nonce tag ciphertext
     ≫= finish) (logged EvKemDecapsulate st).
Proof.
  intros Hkw Htruthy Hsk Hkem. unfold CryptoService.decrypt, finish.
  rewrite json_law by (by vm_compute).
  unfold envelope_3. run_fields.
  rewrite Hkw, Htruthy. run_fields. rewrite !b64_law. run_fields.
  rewrite Hsk. run_fields. rewrite Hkem. run_fields. reflexivity.
Qed.

Lemma decrypt_level2_pqc key_id_ ciphertext nonce tag kw st key_hex_ key :
  key_hex kw = Some key_hex_ -> fromhex key_hex_ = Some key ->
  CryptoService.decrypt
    (json_dumps (CryptoService.envelope_12 2 "pqc" key_id_
       (PDict (aead_fields ciphertext nonce tag)))) kw st
  = (CryptoService.aes_gcm_decrypt_or_tamper (slice_to key 32) nonce tag
       ciphertext ≫= finish) st.
Proof.
  intros Hkw Hkey. unfold CryptoService.decrypt, finish.
  rewrite json_law by (by vm_compute).
  unfold CryptoService.envelope_12, aead_fields. run_fields.
  rewrite Hkw. run_fields. rewrite Hkey. run_fields. rewrite !b64_law.
  run_fields. reflexivity.
Qed.

Lemma decrypt_level1_pqc key_id_ ciphertext kw st key_hex_ key :
  key_hex kw = Some key_hex_ -> fromhex key_hex_ = Some key ->
  len ciphertext <= len key ->
  CryptoService.decrypt
    (json_dumps (CryptoService.envelope_12 1 "pqc" key_id_
       (PDict [("ciphertext_b64", PStr (b64encode ciphertext))]))) kw st
  = finish (xor_zip ciphertext key) (logged EvOtpMask st).
Proof.
  intros Hkw Hkey Hlen. unfold CryptoService.decrypt, finish,
    CryptoService.otp_unmask.
  rewrite json_law by (by vm_compute).
  unfold CryptoService.envelope_12. run_fields.
  rewrite Hkw. run_fields. rewrite Hkey. run_fields. rewrite !b64_law.
  run_fields. rewrite (proj2 (Z.ltb_ge _ _)) by done. reflexivity.
Qed.

(** *** Re-acquiring a quantum key *)

Lemma get_quantum_key_by_id_cached key_id_ md st :
  is_Some (qkd_client (qkd_service (self st))) ->
  _quantum_keys_cache (qkd_service (self st)) !! key_id_ = Some md ->
  CryptoService.get_quantum_key_by_id (PStr key_id_) st = (Return md, st).
Proof.
  intros [client Hc] Hcache.
  unfold CryptoService.get_quantum_key_by_id, QKDService.get_quantum_key_by_id.
  mrun. rewrite Hc.
  rewrite bool_decide_eq_true_2 by eauto. mrun. by rewrite Hcache.
Qed.

Lemma get_quantum_key_by_id_published key_id_ pub client st :
  qkd_client (qkd_service (self st)) = Some client ->
  _quantum_keys_cache (qkd_service (self st)) !! key_id_ = None ->
  firebase_up (world st) = true ->
  firebase_qkd_keys (world st) !! replace_dot key_id_ = Some pub ->
  CryptoService.get_quantum_key_by_id (PStr key_id_) st
  = (Return (rederived client key_id_ pub),
     set_qkd (fun q =>
       {| qkd_client := qkd_client q;
          _quantum_keys_cache :=
            <[key_id_ := rederived client key_id_ pub]> (_quantum_keys_cache q) |})
       st).
Proof.
  intros Hc Hcache Hup Hpub.
  unfold CryptoService.get_quantum_key_by_id, QKDService.get_quantum_key_by_id,
    QKDService._get_key_metadata_from_firebase, QKDService.cache_key.
  mrun. rewrite Hc.
  rewrite bool_decide_eq_true_2 by eauto. mrun.
  rewrite Hcache. mrun. rewrite Hup, Hpub. mrun. rewrite Hc. mrun. done.
Qed.

Lemma after_issue_cache client n email st :
  _quantum_keys_cache (qkd_service (self (after_issue client n email st)))
    !! issued_key_id (world st)
  = Some (issued client n email (world st)).
Proof. unfold after_issue. cbn [self qkd_service _quantum_keys_cache]. apply lookup_insert_eq. Qed.

Lemma after_issue_published client n email st :
  truthy email = true -> firebase_up (world st) = true ->
  firebase_qkd_keys (world (after_issue client n email st))
    !! replace_dot (issued_key_id (world st))
  = Some (published n email (world st)).
Proof.
  intros He Hup. unfold after_issue. cbn [world]. rewrite He, Hup.
  cbn [andb with_firebase_qkd_keys firebase_qkd_keys]. apply lookup_insert_eq.
Qed.

(** A process that can get the key again gets the bytes the sender
    used. *)
Lemma reacquire client n email st st1 st2 :
  truthy email = true ->
  self st1 = self (after_issue client n email st) ->
  firebase_qkd_keys (world st1)
  = firebase_qkd_keys (world (after_issue client n email st)) ->
  reacquirable st st1 st2 ->
  exists md st3,
    CryptoService.get_quantum_key_by_id (PStr (issued_key_id (world st))) st2
    = (Return md, st3)
    /\ km_key_hex md
       = hex (MockQKDClient.get_deterministic_key sha256 client
                (issued_key_id (world st)) n).
Proof.
  intros He Hself Hfb [Hready [Hsame | (Hnone & Hup & Hup2 & Hdir)]].
  - rewrite Hself, after_issue_cache in Hsame.
    eexists _, _. split; [by apply get_quantum_key_by_id_cached|done].
  - rewrite Hfb, after_issue_published in Hdir by done.
    destruct Hready as [client2 Hc2].
    eexists _, _. split; [by eapply get_quantum_key_by_id_published|done].
Qed.

Lemma decrypt_level1_qkd key_id_ ciphertext kw st md st' key :
  CryptoService.get_quantum_key_by_id (PStr key_id_) st = (Return md, st') ->
  fromhex (km_key_hex md) = Some key ->
  len ciphertext <= len key ->
  CryptoService.decrypt
    (json_dumps (CryptoService.envelope_12 1 "qkd" key_id_
       (PDict [("ciphertext_b64", PStr (b64encode ciphertext))]))) kw st
  = finish (xor_zip ciphertext key) (logged EvOtpMask st').
Proof.
  intros Hq Hkey Hlen. unfold CryptoService.decrypt, finish,
    CryptoService.otp_unmask.
  rewrite json_law by (by vm_compute).
  unfold CryptoService.envelope_12. run_fields.
  rewrite Hq. run_fields. rewrite Hkey. run_fields. rewrite !b64_law.
  run_fields. rewrite (proj2 (Z.ltb_ge _ _)) by done. reflexivity.
Qed.

Lemma decrypt_level2_qkd key_id_ ciphertext nonce tag salt kw st md st' key :
  CryptoService.get_quantum_key_by_id (PStr key_id_) st = (Return md, st') ->
  fromhex (km_key_hex md) = Some key ->
  CryptoService.decrypt
    (json_dumps (CryptoService.envelope_12 2 "qkd" key_id_
       (PDict (aead_fields ciphertext nonce tag
               ++ [("salt_b64", PStr (b64encode salt))])))) kw st
  = (CryptoService.aes_gcm_decrypt_or_tamper
       (vec_to_list (pbkdf2_hmac_sha256 32 salt 100000 key)) nonce tag
       ciphertext ≫= finish) (logged EvKdf st').
Proof.
  intros Hq Hkey. unfold CryptoService.decrypt, finish,
    CryptoService._derive_aes_key_from_quantum.
  rewrite json_law by (by vm_compute).
  unfold CryptoService.envelope_12, aead_fields. cbn [app]. run_fields.
  rewrite Hq. run_fields. rewrite Hkey. run_fields. rewrite !b64_law.
  run_fields. reflexivity.
Qed.

(** *** Flipping a bit *)

Lemma ljust_long a n fill : (n <= length a)%nat -> ljust a n fill = a.
Proof.
  intros Hn. unfold ljust. replace (n - length a)%nat with 0%nat by lia.
  apply app_nil_r.
Qed.

Lemma byte_xor_bit_mask x i : byte_xor x (bit_mask i) <> x.
Proof.
  unfold bit_mask. pose proof (Nat.mod_upper_bound i 8 ltac:(lia)) as Hi.
  destruct (i mod 8)%nat as [|[|[|[|[|[|[|[|]]]]]]]]; try lia;
    destruct x; discriminate.
Qed.

Lemma flip_bit_length i b : length (flip_bit i b) = length b.
Proof. apply length_alter. Qed.

Lemma flip_bit_ne i b : (i < 8 * length b)%nat -> flip_bit i b <> b.
Proof.
  intros Hi Heq.
  assert (i / 8 < length b)%nat as Hlt
    by (apply Nat.Div0.div_lt_upper_bound; lia).
  destruct (lookup_lt_is_Some_2 b _ Hlt) as [x Hx].
  assert (flip_bit i b !! (i / 8)%nat = Some (byte_xor x (bit_mask i))) as Hf
    by (unfold flip_bit; by rewrite list_lookup_alter_eq, Hx).
  rewrite Heq, Hx in Hf. apply (inj Some) in Hf. symmetry in Hf.
  by apply byte_xor_bit_mask in Hf.
Qed.


Lemma genuine_finish key nonce body atts st :
  CryptoService.valid_aes_key key = true ->
  CryptoService.valid_gcm_nonce nonce = true ->
  (CryptoService.aes_gcm_decrypt_or_tamper key nonce
     (vec_to_list (gcm_tag key nonce (gcm_ctr key nonce (plaintext body atts))))
     (gcm_ctr key nonce (plaintext body atts)) ≫= finish) st
  = (Return (decrypted_payload (string_of_list_byte body) atts),
     logged EvAeadDecrypt st).
Proof.
  intros Hk Hn. unfold mbind, M_bind.
  by rewrite aead_genuine, finish_plaintext.
Qed.

Lemma tampered_finish key nonce tag ciphertext st :
  CryptoService.valid_aes_key key = true ->
  CryptoService.valid_gcm_nonce nonce = true ->
  length tag = 16%nat ->
  tag <> vec_to_list (gcm_tag key nonce ciphertext) ->
  (CryptoService.aes_gcm_decrypt_or_tamper key nonce tag ciphertext ≫= finish) st
  = (Raise (DecryptionError tamper_message), logged EvAeadDecrypt st).
Proof.
  intros Hk Hn Hlen Htag. unfold mbind, M_bind.
  by rewrite aead_tampered.
Qed.

(** C1. Decrypting the envelope [encrypt] returned, with the key material
    that matches the one [encrypt] used, returns the payload that was
    encrypted: the body, and each attachment with its file name and its
    content; this at the four levels and for both methods, under the laws
    assumed of the libraries. *)
Theorem C1_decrypt_returns_the_payload_encrypted
    (body : bytes) (atts : list attachment) (kw kw' : kwargs)
    (st st1 st2 : state) (env : string) :
  CryptoService.encrypt body atts kw st = (Return (Some env), st1) ->
  key_material_matches kw kw' st st1 st2 ->
  exists st3,
    CryptoService.decrypt env kw' st2
    = (Return (decrypted_payload (string_of_list_byte body) atts), st3).
Proof.
  intros Henc Hkeys.
  destruct (encrypt_inv_level _ _ _ _ _ _ _ Henc) as (level & Hl & Hlevel).
  unfold key_material_matches in Hkeys. rewrite Hl in Hkeys.
  assert (level = 4 \/ level = 3 \/ level = 1 \/ level = 2)
    as [-> | [-> | Hlow]] by set_solver.
  - destruct (encrypt_inv_level4 _ _ _ _ _ _ _ Hl Henc) as [-> ->].
    rewrite decrypt_level4 by apply payload_plain.
    rewrite decode_attachments_payload. eauto.
  - destruct (encrypt_inv_level3 _ _ _ _ _ _ _ Hl Henc)
      as (aes_key & nonce & pk_b64 & pk & coins & kem & ss
          & Hlen & _ & Hk & Hn & Hpk & Hdec & Hkem & -> & _).
    destruct Hkeys as (seed & pk_b64' & sk_b64 & Hpk' & Hdec' & Hsk & Ht & Hsk').
    assert (pk_b64' = pk_b64) as -> by congruence.
    assert (pk = snd (kem_keypair_512 seed)) as -> by congruence.
    apply kem_law in Hkem.
    erewrite decrypt_level3 by eassumption.
    rewrite ljust_long by (rewrite length_vec_to_list; lia).
    rewrite xor_zip_involutive by (rewrite length_vec_to_list; lia).
    rewrite genuine_finish by done. eauto.
  - assert (match level with 4 => True | 3 => True | _ =>
              if qkd_method kw then reacquirable st st1 st2
              else key_hex kw' = key_hex kw end) as Hkeys'
      by (destruct Hlow as [-> | ->]; exact Hkeys).
    clear Hkeys. unfold qkd_method in Hkeys'.
    destruct (String.eqb (default "pqc"%string (encryption_method kw)) "qkd")
      eqn:Hm.
    + destruct (encrypt_inv_qkd _ _ _ _ _ _ _ Hl Hlow Hm Henc)
        as (client & Hemail & Hc & H1 & H2).
      destruct Hlow as [-> | ->].
      * destruct (H1 eq_refl) as [-> ->].
        destruct (reacquire client _ _ st _ st2 Hemail eq_refl eq_refl Hkeys')
          as (md & st3 & Hq & Hhex).
        erewrite decrypt_level1_qkd;
          [| exact Hq | rewrite Hhex; apply fromhex_hex |].
        -- rewrite xor_zip_involutive, finish_plaintext; [eauto|].
           apply Nat2Z.inj_le. fold (len (plaintext body atts)).
           match goal with
           | |- _ <= Z.of_nat (length ?k) => fold (len k)
           end.
           rewrite get_deterministic_key_length; unfold len; lia.
        -- unfold len at 1. rewrite xor_zip_length.
           rewrite get_deterministic_key_length by (unfold len; lia).
           unfold len. lia.
      * destruct (H2 eq_refl) as (Hk & Hn & -> & ->).
        destruct (reacquire client _ _ st _ st2 Hemail eq_refl eq_refl Hkeys')
          as (md & st3 & Hq & Hhex).
        erewrite decrypt_level2_qkd;
          [| exact Hq | rewrite Hhex; apply fromhex_hex].
        rewrite genuine_finish by done. eauto.
    + destruct (encrypt_inv_pqc _ _ _ _ _ _ _ _ Hl Hlow Hm Henc)
        as (key_hex_ & key_id_ & key & Hkh & Hkid & Hfrom & H1 & H2).
      assert (key_hex kw' = Some key_hex_) as Hkh'
        by (destruct Hlow as [-> | ->]; congruence).
      destruct Hlow as [-> | ->].
      * destruct (H1 eq_refl) as (Hlen & -> & ->).
        erewrite decrypt_level1_pqc; [| exact Hkh' | exact Hfrom |].
        -- rewrite xor_zip_involutive, finish_plaintext; [eauto|].
           unfold len in Hlen. lia.
        -- unfold len at 1. rewrite xor_zip_length. unfold len in *. lia.
      * destruct (H2 eq_refl) as (nonce & _ & Hk & Hn & -> & ->).
        erewrite decrypt_level2_pqc by eassumption.
        rewrite genuine_finish by done. eauto.
Qed.


(** *** Tampering with an envelope *)

Lemma tamper_dumps d fields field s b i :
  json_plain (PDict d) = true ->
  assoc_get d (aead_section d) = Some (PDict fields) ->
  assoc_get fields field = Some (PStr s) -> b64decode s = Some b ->
  field_bytes field (json_dumps (PDict d)) = Some b
  /\ tamper field i (json_dumps (PDict d))
     = json_dumps (PDict (assoc_set d (aead_section d)
         (PDict (assoc_set fields field (PStr (b64encode (flip_bit i b))))))).
Proof.
  intros Hplain Hsec Hfield Hb. unfold tamper, field_bytes.
  rewrite json_law by done. by rewrite Hsec, Hfield, Hb.
Qed.

Lemma tamper_envelope_3 field i kem wrapped nonce tag c b :
  field = "ciphertext_b64"%string \/ field = "auth_tag_b64"%string ->
  field_bytes field (json_dumps (envelope_3 kem wrapped nonce tag c)) = Some b ->
  (field = "ciphertext_b64"%string /\ b = c
   /\ tamper field i (json_dumps (envelope_3 kem wrapped nonce tag c))
      = json_dumps (envelope_3 kem wrapped nonce tag (flip_bit i c)))
  \/ (field = "auth_tag_b64"%string /\ b = tag
      /\ tamper field i (json_dumps (envelope_3 kem wrapped nonce tag c))
         = json_dumps (envelope_3 kem wrapped nonce (flip_bit i tag) c)).
Proof.
  intros [-> | ->] Hb; [left | right].
  - destruct (tamper_dumps _ _ "ciphertext_b64" _ c i
                (ltac:(by vm_compute) :
                   json_plain (envelope_3 kem wrapped nonce tag c) = true)
                eq_refl eq_refl (b64_law c)) as [Hb' Ht].
    unfold envelope_3 in Hb. rewrite Hb' in Hb. apply (inj Some) in Hb as <-.
    split_and!; [done|done|]. unfold envelope_3. by rewrite Ht.
  - destruct (tamper_dumps _ _ "auth_tag_b64" _ tag i
                (ltac:(by vm_compute) :
                   json_plain (envelope_3 kem wrapped nonce tag c) = true)
                eq_refl eq_refl (b64_law tag)) as [Hb' Ht].
    unfold envelope_3 in Hb. rewrite Hb' in Hb. apply (inj Some) in Hb as <-.
    split_and!; [done|done|]. unfold envelope_3. by rewrite Ht.
Qed.

Lemma tamper_envelope_2 field i method key_id_ nonce tag c extra b :
  field = "ciphertext_b64"%string \/ field = "auth_tag_b64"%string ->
  json_plain (CryptoService.envelope_12 2 method key_id_
                (PDict (aead_fields c nonce tag ++ extra))) = true ->
  field_bytes field (json_dumps (CryptoService.envelope_12 2 method key_id_
                       (PDict (aead_fields c nonce tag ++ extra)))) = Some b ->
  (field = "ciphertext_b64"%string /\ b = c
   /\ tamper field i (json_dumps (CryptoService.envelope_12 2 method key_id_
                        (PDict (aead_fields c nonce tag ++ extra))))
      = json_dumps (CryptoService.envelope_12 2 method key_id_
          (PDict (aead_fields (flip_bit i c) nonce tag ++ extra))))
  \/ (field = "auth_tag_b64"%string /\ b = tag
      /\ tamper field i (json_dumps (CryptoService.envelope_12 2 method key_id_
                           (PDict (aead_fields c nonce tag ++ extra))))
         = json_dumps (CryptoService.envelope_12 2 method key_id_
             (PDict (aead_fields c nonce (flip_bit i tag) ++ extra)))).
Proof.
  intros [-> | ->] Hplain Hb; [left | right].
  - destruct (tamper_dumps _ _ "ciphertext_b64" _ c i Hplain
                eq_refl eq_refl (b64_law c)) as [Hb' Ht].
    unfold CryptoService.envelope_12 in Hb. rewrite Hb' in Hb.
    apply (inj Some) in Hb as <-.
    split_and!; [done|done|]. unfold CryptoService.envelope_12. by rewrite Ht.
  - destruct (tamper_dumps _ _ "auth_tag_b64" _ tag i Hplain
                eq_refl eq_refl (b64_law tag)) as [Hb' Ht].
    unfold CryptoService.envelope_12 in Hb. rewrite Hb' in Hb.
    apply (inj Some) in Hb as <-.
    split_and!; [done|done|]. unfold CryptoService.envelope_12. by rewrite Ht.
Qed.

(** What is assumed of the tag: it changes when one bit of the
    ciphertext does. *)
Hypothesis tag_law :
  forall key nonce ciphertext i,
    (i < 8 * length ciphertext)%nat ->
    gcm_tag key nonce (flip_bit i ciphertext) <> gcm_tag key nonce ciphertext.

(** The genuine tag is not the tag of the ciphertext with a bit flipped,
    and a tag with a bit flipped is not the genuine one. *)
Lemma tag_of_flipped key nonce c i :
  (i < 8 * length c)%nat ->
  vec_to_list (gcm_tag key nonce c)
  <> vec_to_list (gcm_tag key nonce (flip_bit i c)).
Proof.
  intros Hi Heq. apply vec_to_list_inj2 in Heq.
  by apply (tag_law key nonce c i Hi).
Qed.

Lemma tampered_ciphertext key nonce c i st :
  CryptoService.valid_aes_key key = true ->
  CryptoService.valid_gcm_nonce nonce = true ->
  (i < 8 * length c)%nat ->
  (CryptoService.aes_gcm_decrypt_or_tamper key nonce
     (vec_to_list (gcm_tag key nonce c)) (flip_bit i c) ≫= finish) st
  = (Raise (DecryptionError tamper_message), logged EvAeadDecrypt st).
Proof.
  intros Hk Hn Hi. apply tampered_finish; try done.
  - rewrite length_vec_to_list. lia.
  - by apply tag_of_flipped.
Qed.

Lemma tampered_tag key nonce c i st :
  CryptoService.valid_aes_key key = true ->
  CryptoService.valid_gcm_nonce nonce = true ->
  (i < 8 * length (vec_to_list (gcm_tag key nonce c)))%nat ->
  (CryptoService.aes_gcm_decrypt_or_tamper key nonce
     (flip_bit i (vec_to_list (gcm_tag key nonce c))) c ≫= finish) st
  = (Raise (DecryptionError tamper_message), logged EvAeadDecrypt st).
Proof.
  intros Hk Hn Hi. apply tampered_finish; try done.
  - rewrite flip_bit_length, length_vec_to_list. lia.
  - by apply flip_bit_ne.
Qed.

(** C2. At level 2 and at level 3, when one bit of the ciphertext or of
    the authentication tag of the envelope [encrypt] returned is flipped,
    [decrypt], given the matching key material, raises the
    [DecryptionError] for a tampered message and returns no payload; this
    under the laws assumed of the libraries, of which one says that the
    tag of a ciphertext changes when one bit of the ciphertext does. *)
Theorem C2_a_flipped_bit_raises_the_tamper_error
    (body : bytes) (atts : list attachment) (kw kw' : kwargs)
    (st st1 st2 : state) (env field : string) (i : nat) (b : bytes) :
  CryptoService.encrypt body atts kw st = (Return (Some env), st1) ->
  security_level kw = Some 2 \/ security_level kw = Some 3 ->
  key_material_matches kw kw' st st1 st2 ->
  field = "ciphertext_b64"%string \/ field = "auth_tag_b64"%string ->
  field_bytes field env = Some b ->
  (i < 8 * length b)%nat ->
  exists st3,
    CryptoService.decrypt (tamper field i env) kw' st2
    = (Raise (DecryptionError tamper_message), st3).
Proof.
  intros Henc Hlevel Hkeys Hfield Hb Hi.
  unfold key_material_matches in Hkeys.
  destruct Hlevel as [Hl | Hl]; rewrite Hl in Hkeys; cbv beta iota in Hkeys.
  - unfold qkd_method in Hkeys.
    destruct (String.eqb (default "pqc"%string (encryption_method kw)) "qkd")
      eqn:Hm.
    + destruct (encrypt_inv_qkd _ _ _ _ _ _ _ Hl (or_intror eq_refl) Hm Henc)
        as (client & Hemail & Hc & _ & H2).
      destruct (H2 eq_refl) as (Hk & Hn & -> & ->).
      destruct (reacquire client _ _ st _ st2 Hemail eq_refl eq_refl Hkeys)
        as (md & st3 & Hq & Hhex).
      eapply (tamper_envelope_2 _ i) in Hb as Hcase;
        [|done|by vm_compute].
      destruct Hcase as [(_ & -> & ->) | (_ & -> & ->)];
        (erewrite decrypt_level2_qkd;
         [first [rewrite tampered_ciphertext by done
                | rewrite tampered_tag by done]; eauto
         | exact Hq | rewrite Hhex; apply fromhex_hex]).
    + destruct (encrypt_inv_pqc _ _ _ _ _ _ _ _ Hl (or_intror eq_refl) Hm Henc)
        as (key_hex_ & key_id_ & key & Hkh & Hkid & Hfrom & _ & H2).
      destruct (H2 eq_refl) as (nonce & _ & Hk & Hn & -> & ->).
      assert (key_hex kw' = Some key_hex_) as Hkh' by congruence.
      pose proof (tamper_envelope_2 field i "pqc" key_id_ nonce _ _ [] b
                    Hfield ltac:(by vm_compute) Hb) as Hcase.
      change (aead_fields ?x ?y ?z ++ []) with (aead_fields x y z) in Hcase.
      destruct Hcase as [(_ & -> & ->) | (_ & -> & ->)];
        erewrite decrypt_level2_pqc by eassumption;
        first [rewrite tampered_ciphertext by done
              | rewrite tampered_tag by done]; eauto.
  - destruct (encrypt_inv_level3 _ _ _ _ _ _ _ Hl Henc)
      as (aes_key & nonce & pk_b64 & pk & coins & kem & ss
          & Hlen & _ & Hk & Hn & Hpk & Hdec & Hkem & -> & _).
    destruct Hkeys as (seed & pk_b64' & sk_b64 & Hpk' & Hdec' & Hsk & Ht & Hsk').
    assert (pk_b64' = pk_b64) as -> by congruence.
    assert (pk = snd (kem_keypair_512 seed)) as -> by congruence.
    apply kem_law in Hkem.
    apply (tamper_envelope_3 _ i) in Hb as Hcase; [|done].
    destruct Hcase as [(_ & -> & ->) | (_ & -> & ->)];
      erewrite decrypt_level3 by eassumption;
      rewrite ljust_long by (rewrite length_vec_to_list; lia);
      rewrite xor_zip_involutive by (rewrite length_vec_to_list; lia);
      first [rewrite tampered_ciphertext by done
            | rewrite tampered_tag by done]; eauto.
Qed.


End RoundTrip.

(** * Further properties *)

(** ** The quantum key service *)

Section QuantumKeys.

Context `{P : Primitives}.

(** The client a service works with: its own, or the one it makes when
    it has none. *)
Lemma qkd_get_quantum_key_run n email st :
  let client := default {| MockQKDClient.connected := true |}
                  (qkd_client (qkd_service (self st))) in
  QKDService.get_quantum_key n email st
  = (Return (issued client n email (world st)), after_issue client n email st).
Proof.
  destruct st as [[[[client|] cache]] w];
    unfold QKDService.get_quantum_key, QKDService.initialize,
      QKDService.cache_key, QKDService._store_key_metadata_in_firebase,
      after_issue, issued, published, issued_key_id;
    mrun; simpl; destruct (truthy email); simpl; try done;
    destruct (firebase_up w); done.
Qed.

Lemma get_deterministic_key_max sha256 self key_id n :
  len (MockQKDClient.get_deterministic_key sha256 self key_id n) = Z.max 0 n.
Proof.
  destruct (Z.le_gt_cases 0 n) as [Hn|Hn].
  - rewrite get_deterministic_key_length by done. lia.
  - rewrite (get_deterministic_key_blocks sha256 self key_id n _ (le_n _)).
    replace (Z.to_nat n) with 0%nat by lia. rewrite take_0. unfold len. simpl. lia.
Qed.

(** X1. [QKDService.get_quantum_key] returns a record in every state: it
    makes its client when it has none, and a directory that cannot be
    reached does not make it fail.  The record has the length asked for,
    its key has that many bytes (none for a negative length), the cache
    holds the record under its identifier, and the client is set. *)
Theorem X1_get_quantum_key_always_issues (n : Z) (email : option string)
    (st : state) :
  exists md st',
    QKDService.get_quantum_key n email st = (Return md, st')
    /\ km_key_length_bytes md = n
    /\ (exists key, fromhex (km_key_hex md) = Some key /\ len key = Z.max 0 n)
    /\ _quantum_keys_cache (qkd_service (self st')) !! km_key_id md = Some md
    /\ is_Some (qkd_client (qkd_service (self st')))
    /\ trace (world st') = trace (world st) ++ [EvQuantumKeyRequest n email].
Proof.
  eexists _, _. split; [apply qkd_get_quantum_key_run|].
  split_and!.
  - done.
  - eexists. split; [apply fromhex_hex|apply get_deterministic_key_max].
  - apply after_issue_cache.
  - by eexists.
  - unfold after_issue. cbn [world].
    by destruct (truthy email && firebase_up (world st)).
Qed.

Lemma qkd_get_quantum_key_by_id_cached key_id_ md st :
  _quantum_keys_cache (qkd_service (self st)) !! key_id_ = Some md ->
  QKDService.get_quantum_key_by_id (PStr key_id_) st = (Return md, st).
Proof.
  intros Hcache. unfold QKDService.get_quantum_key_by_id. mrun.
  by rewrite Hcache.
Qed.

Lemma qkd_get_quantum_key_by_id_published key_id_ pub client st :
  qkd_client (qkd_service (self st)) = Some client ->
  _quantum_keys_cache (qkd_service (self st)) !! key_id_ = None ->
  firebase_up (world st) = true ->
  firebase_qkd_keys (world st) !! replace_dot key_id_ = Some pub ->
  QKDService.get_quantum_key_by_id (PStr key_id_) st
  = (Return (rederived client key_id_ pub),
     set_qkd (fun q =>
       {| qkd_client := qkd_client q;
          _quantum_keys_cache :=
            <[key_id_ := rederived client key_id_ pub]> (_quantum_keys_cache q) |})
       st).
Proof.
  intros Hc Hcache Hup Hpub.
  unfold QKDService.get_quantum_key_by_id,
    QKDService._get_key_metadata_from_firebase, QKDService.cache_key.
  mrun. rewrite Hcache. mrun. rewrite Hup, Hpub. mrun. rewrite Hc. mrun. done.
Qed.

Lemma qkd_get_quantum_key_by_id_missing key_id_ st :
  _quantum_keys_cache (qkd_service (self st)) !! key_id_ = None ->
  firebase_up (world st) = false
  \/ firebase_qkd_keys (world st) !! replace_dot key_id_ = None ->
  QKDService.get_quantum_key_by_id (PStr key_id_) st
  = (Raise (QKDServiceError "Failed to get quantum key by ID"), st).
Proof.
  intros Hcache Hdir.
  unfold QKDService.get_quantum_key_by_id,
    QKDService._get_key_metadata_from_firebase.
  mrun. rewrite Hcache. mrun.
  destruct (firebase_up (world st)); [|done].
  destruct Hdir as [Hup | ->]; done.
Qed.

(** X2. The service that issued a key returns the same record when it
    is asked for the key by its identifier, and nothing changes: the
    cache answers, the directory is not consulted. *)
Theorem X2_issued_key_is_retrieved_from_the_cache
    (n : Z) (email : option string) (st st1 : state) (md : KeyMetadata) :
  QKDService.get_quantum_key n email st = (Return md, st1) ->
  forall w,
    QKDService.get_quantum_key_by_id (PStr (km_key_id md))
      {| self := self st1; world := w |}
    = (Return md, {| self := self st1; world := w |}).
Proof.
  rewrite qkd_get_quantum_key_run. intros [= <- <-] w.
  apply qkd_get_quantum_key_by_id_cached. apply after_issue_cache.
Qed.

(** X3. A key issued for a recipient while the directory is reachable
    can be got by another process that finds the published record: it
    derives the same key bytes from the identifier, without the key
    having been published; and once it has cached the record it needs
    the directory no more. *)
Theorem X3_another_process_derives_the_same_key
    (n : Z) (email : option string) (st st1 st2 : state) (md : KeyMetadata) :
  QKDService.get_quantum_key n email st = (Return md, st1) ->
  truthy email = true -> firebase_up (world st) = true ->
  is_Some (qkd_client (qkd_service (self st2))) ->
  _quantum_keys_cache (qkd_service (self st2)) !! km_key_id md = None ->
  firebase_up (world st2) = true ->
  firebase_qkd_keys (world st2) !! replace_dot (km_key_id md)
  = firebase_qkd_keys (world st1) !! replace_dot (km_key_id md) ->
  exists md' st3,
    QKDService.get_quantum_key_by_id (PStr (km_key_id md)) st2 = (Return md', st3)
    /\ km_key_hex md' = km_key_hex md
    /\ km_key_id md' = km_key_id md
    /\ km_key_length_bytes md' = n
    /\ world st3 = world st2
    /\ (forall w,
          QKDService.get_quantum_key_by_id (PStr (km_key_id md))
            {| self := self st3; world := w |}
          = (Return md', {| self := self st3; world := w |})).
Proof.
  rewrite qkd_get_quantum_key_run. intros [= <- <-] Hemail Hup [client Hc]
    Hcache Hup2 Hdir.
  cbn [issued km_key_id km_key_hex] in *.
  rewrite after_issue_published in Hdir by done.
  eexists _, _. split; [by eapply qkd_get_quantum_key_by_id_published|].
  split_and!; try done.
  intros w. apply qkd_get_quantum_key_by_id_cached.
  cbn [set_qkd self qkd_service _quantum_keys_cache]. apply lookup_insert_eq.
Qed.

(** X4. A key that is neither in the cache nor to be found in the
    directory, because the directory cannot be reached or has no record
    for it, makes [QKDService.get_quantum_key_by_id] raise
    [QKDServiceError] and [CryptoService.get_quantum_key_by_id], when the
    client is ready, [EncryptionError]; the state is left as it was. *)
Theorem X4_unknown_key_raises (key_id_ : string) (st : state) :
  _quantum_keys_cache (qkd_service (self st)) !! key_id_ = None ->
  firebase_up (world st) = false
  \/ firebase_qkd_keys (world st) !! replace_dot key_id_ = None ->
  QKDService.get_quantum_key_by_id (PStr key_id_) st
  = (Raise (QKDServiceError "Failed to get quantum key by ID"), st)
  /\ (is_Some (qkd_client (qkd_service (self st))) ->
      CryptoService.get_quantum_key_by_id (PStr key_id_) st
      = (Raise (EncryptionError "Failed to get quantum key by ID"), st)).
Proof.
  intros Hcache Hdir.
  pose proof (qkd_get_quantum_key_by_id_missing _ _ Hcache Hdir) as Hraise.
  split; [done|]. intros Hready.
  unfold CryptoService.get_quantum_key_by_id. mrun.
  rewrite bool_decide_eq_true_2 by done. mrun. by rewrite Hraise.
Qed.

(** X5. A key issued without a recipient, or while the directory could
    not be reached, is never published: the directory is as it was, and a
    process that has not cached the key, in the world the issuer left,
    cannot get it. *)
Theorem X5_unpublished_key_stays_with_the_issuer
    (n : Z) (email : option string) (st st1 : state) (md : KeyMetadata) :
  QKDService.get_quantum_key n email st = (Return md, st1) ->
  truthy email = false \/ firebase_up (world st) = false ->
  firebase_qkd_keys (world st1) = firebase_qkd_keys (world st)
  /\ (firebase_qkd_keys (world st) !! replace_dot (km_key_id md) = None ->
      forall service,
        _quantum_keys_cache (qkd_service service) !! km_key_id md = None ->
        QKDService.get_quantum_key_by_id (PStr (km_key_id md))
          {| self := service; world := world st1 |}
        = (Raise (QKDServiceError "Failed to get quantum key by ID"),
           {| self := service; world := world st1 |})).
Proof.
  rewrite qkd_get_quantum_key_run. intros [= <- <-] Hnot.
  assert (firebase_qkd_keys (world (after_issue
            (default {| MockQKDClient.connected := true |}
               (qkd_client (qkd_service (self st)))) n email st))
          = firebase_qkd_keys (world st)) as Hsame.
  { unfold after_issue. cbn [world].
    destruct Hnot as [-> | ->]; [done|]. by rewrite andb_false_r. }
  split; [done|]. intros Hfresh service Hcache.
  apply qkd_get_quantum_key_by_id_missing; [done|]. right.
  cbn [world]. by rewrite Hsame.
Qed.

(** X6. For a length that is not positive the derivation returns no
    bytes: the loop is not entered, and the cut of the empty key is
    empty. *)
Theorem X6_no_key_bytes_for_a_length_that_is_not_positive
    (sha256 : bytes -> vec byte 32) (self : MockQKDClient.t)
    (key_id_ : string) (n : Z) :
  n <= 0 -> MockQKDClient.get_deterministic_key sha256 self key_id_ n = [].
Proof.
  intros Hn. apply nil_length_inv, Nat2Z.inj.
  change (len (MockQKDClient.get_deterministic_key sha256 self key_id_ n) = 0).
  rewrite get_deterministic_key_max. lia.
Qed.

(** X7. After [close] the cache is kept but the client is gone, so
    [CryptoService] refuses both to issue a key and to return one, also
    one that is cached, while [QKDService.get_quantum_key] itself would
    make a new client and issue. *)
Theorem X7_after_close_the_crypto_service_refuses
    (n : Z) (email : option string) (key_id_ : pyval) (st : state) :
  exists st',
    CryptoService.close st = (Return tt, st')
    /\ _quantum_keys_cache (qkd_service (self st'))
       = _quantum_keys_cache (qkd_service (self st))
    /\ world st' = world st
    /\ CryptoService.get_quantum_key n email st'
       = (Raise (EncryptionError "QKD service not available or not initialized"), st')
    /\ CryptoService.get_quantum_key_by_id key_id_ st'
       = (Raise (EncryptionError "QKD service not available or not initialized"), st')
    /\ exists md st2, QKDService.get_quantum_key n email st' = (Return md, st2).
Proof.
  exists (set_qkd (fun q =>
    {| qkd_client := None; _quantum_keys_cache := _quantum_keys_cache q |}) st).
  split_and!; try done.
  - unfold CryptoService.close, QKDService.close. mrun.
    destruct st as [[[[client|] cache]] w]; done.
  - rewrite qkd_get_quantum_key_run. eauto.
Qed.

End QuantumKeys.

(** ** The key server *)

Section KeyServerFacts.

Lemma byte_xor_x00 x : byte_xor x x00 = x.
Proof. by destruct x. Qed.

Lemma xor_zip_zeros a n :
  (length a <= n)%nat -> xor_zip a (replicate n x00) = a.
Proof.
  revert n. induction a as [|x a IH]; intros [|n] Hn; simpl in *; try done; try lia.
  unfold xor_zip in *. simpl. rewrite byte_xor_x00, IH by lia. done.
Qed.

Lemma length_ljust a n fill : length (ljust a n fill) = (length a `max` n)%nat.
Proof. unfold ljust. rewrite length_app, length_replicate. lia. Qed.

Lemma xor_bytes_length a b :
  length (KeyServer.xor_bytes a b) = (length a `max` length b)%nat.
Proof.
  unfold KeyServer.xor_bytes. rewrite xor_zip_length, !length_ljust. lia.
Qed.

Lemma xor_bytes_twice a b :
  KeyServer.xor_bytes (KeyServer.xor_bytes a b) b
  = ljust a (length a `max` length b) x00.
Proof.
  unfold KeyServer.xor_bytes at 1. rewrite xor_bytes_length.
  replace ((length a `max` length b) `max` length b)%nat
    with (length a `max` length b)%nat by lia.
  rewrite (ljust_long (KeyServer.xor_bytes a b))
    by (rewrite xor_bytes_length; lia).
  unfold KeyServer.xor_bytes. apply xor_zip_involutive.
  rewrite !length_ljust. lia.
Qed.

(** X8. [xor_bytes] returns as many bytes as its longer argument has,
    and masking twice with the same bytes gives the first argument back
    padded with zeros to that length: unchanged when it is the longer
    one, longer than it was otherwise. *)
Theorem X8_xor_bytes_unmasks_up_to_padding (a b : bytes) :
  length (KeyServer.xor_bytes a b) = (length a `max` length b)%nat
  /\ KeyServer.xor_bytes (KeyServer.xor_bytes a b) b
     = ljust a (length a `max` length b) x00
  /\ ((length b <= length a)%nat ->
      KeyServer.xor_bytes (KeyServer.xor_bytes a b) b = a).
Proof.
  split_and!; [apply xor_bytes_length|apply xor_bytes_twice|].
  intros Hle. rewrite xor_bytes_twice. apply ljust_long. lia.
Qed.

(** X9. Where the first argument of [xor_bytes] is longer than the
    second, its bytes beyond the length of the second are returned as
    they are: of a key longer than the shared secret, only the first
    bytes are masked. *)
Theorem X9_xor_bytes_returns_the_excess_unmasked (a b : bytes) :
  (length b <= length a)%nat ->
  take (length b) (KeyServer.xor_bytes a b) = xor_zip (take (length b) a) b
  /\ drop (length b) (KeyServer.xor_bytes a b) = drop (length b) a.
Proof.
  intros Hle. unfold KeyServer.xor_bytes.
  replace (length a `max` length b)%nat with (length a) by lia.
  rewrite ljust_long by lia. unfold ljust, xor_zip.
  assert (zip_with byte_xor a (b ++ replicate (length a - length b) x00)
          = zip_with byte_xor (take (length b) a) b ++ drop (length b) a)
    as ->.
  { rewrite <- (take_drop (length b) a) at 1.
    rewrite zip_with_app by (rewrite length_take; lia).
    f_equal. apply xor_zip_zeros. rewrite length_drop. lia. }
  assert (length (zip_with byte_xor (take (length b) a) b) = length b) as Hlen
    by (rewrite length_zip_with, length_take; lia).
  split.
  - by rewrite take_app_length'.
  - by rewrite drop_app_length'.
Qed.

(** X10. A key the server mints is stored under an identifier that was
    free, has the length asked for, and is returned by the first
    retrieval of that identifier, after which the table is as it was
    before the key was minted. *)
Theorem X10_a_minted_key_is_retrieved_once
    (n : Z) (w w1 : World) (key_id_ key_hex_ : string) :
  KeyServer.get_symmetric_key n w = (KeyServer.OK (key_id_, key_hex_), w1) ->
  0 <= n
  /\ symmetric_keys w !! key_id_ = None
  /\ (exists key, fromhex key_hex_ = Some key /\ len key = n)
  /\ exists w2,
       KeyServer.get_symmetric_key_by_id key_id_ w1 = (KeyServer.OK key_hex_, w2)
       /\ symmetric_keys w2 = symmetric_keys w
       /\ trace w2 = trace w.
Proof.
  unfold KeyServer.get_symmetric_key, draw. cbv beta iota zeta.
  destruct (Z.ltb_spec n 0) as [Hn|Hn]; [done|].
  cbn [with_drawn symmetric_keys drawn entropy].
  destruct (symmetric_keys w !! _) eqn:Hfree; [done|].
  intros [= <- <- <-]. split_and!; [done|done| |].
  - eexists. split; [apply fromhex_hex|].
    unfold len. rewrite length_map, length_seq. lia.
  - unfold KeyServer.get_symmetric_key_by_id.
    cbn [with_symmetric_keys symmetric_keys]. rewrite lookup_insert_eq.
    eexists. split; [done|]. cbn [with_symmetric_keys symmetric_keys trace].
    split; [|done]. by apply delete_insert_id.
Qed.

(** X11. Minting never touches a key that is stored: whatever
    [get_symmetric_key] answers, every key of the table is still there
    under its identifier; when the identifier drawn is taken, the answer
    is a 500 and the table is unchanged. *)
Theorem X11_minting_keeps_the_stored_keys
    (n : Z) (w : World) (key_id_ key_hex_ : string) :
  symmetric_keys w !! key_id_ = Some key_hex_ ->
  symmetric_keys (snd (KeyServer.get_symmetric_key n w)) !! key_id_ = Some key_hex_.
Proof.
  intros Hstored. unfold KeyServer.get_symmetric_key, draw. cbv beta iota zeta.
  destruct (n <? 0); [done|]. cbn [with_drawn symmetric_keys drawn entropy].
  destruct (symmetric_keys w !! KeyServer.uuid4 _) eqn:Hfree; [done|].
  cbn [snd with_symmetric_keys symmetric_keys].
  rewrite lookup_insert_ne; [done|]. intros Heq. rewrite Heq in Hfree. congruence.
Qed.

Section Endpoints.

Context `{P : Primitives}.
Variable oqs : KeyServer.OQS.

(** X12. [get_public_key] and [decapsulate] never answer 404: the
    [HTTPException] raised for a user without keys is caught by the
    [except Exception] around it and answered as a 500; and whatever goes
    wrong in [decapsulate] or [encapsulate], the answer is the same
    500. *)
Theorem X12_a_user_without_keys_is_answered_500
    (userId kem_ciphertext_b64 encrypted_symmetric_key_b64 : string)
    (table : KeyServer.pqc_keys) :
  (table !! userId = None ->
   KeyServer.get_public_key userId table
   = KeyServer.HTTPException 500 "Failed to fetch public key."
   /\ KeyServer.decapsulate oqs userId kem_ciphertext_b64
        encrypted_symmetric_key_b64 table
      = KeyServer.HTTPException 500 "Decapsulation failed.")
  /\ ((exists body,
         KeyServer.decapsulate oqs userId kem_ciphertext_b64
           encrypted_symmetric_key_b64 table = KeyServer.OK body)
      \/ KeyServer.decapsulate oqs userId kem_ciphertext_b64
           encrypted_symmetric_key_b64 table
         = KeyServer.HTTPException 500 "Decapsulation failed.")
  /\ (forall coins fallback_coins publicKey_b64 plaintextKey_b64,
        (exists body,
           KeyServer.encapsulate oqs coins fallback_coins publicKey_b64
             plaintextKey_b64 = KeyServer.OK body)
        \/ KeyServer.encapsulate oqs coins fallback_coins publicKey_b64
             plaintextKey_b64
           = KeyServer.HTTPException 500 "Encapsulation failed.").
Proof.
  split_and!.
  - intros Hnone. unfold KeyServer.get_public_key, KeyServer.decapsulate.
    by rewrite Hnone.
  - unfold KeyServer.decapsulate.
    match goal with
    | |- context [KeyServer.except_Exception ?body ?h] => destruct body
    end; cbn; eauto.
  - intros. unfold KeyServer.encapsulate.
    match goal with
    | |- context [KeyServer.except_Exception ?body ?h] => destruct body
    end; cbn; eauto.
Qed.

(** X13. [generate_keys] answers with a key pair whatever [oqs] does,
    since the pair of Kyber-512 stands in; it stores the pair for the
    user, in the place of an earlier one, so that [get_public_key]
    returns the new public key, and leaves the keys of the other users as
    they are. *)
Theorem X13_generated_keys_are_served
    (coins fallback_coins : bytes) (userId : string)
    (table : KeyServer.pqc_keys) :
  exists publicKey_b64 privateKey_b64 table1,
    KeyServer.generate_keys oqs coins fallback_coins userId table
    = (KeyServer.OK (publicKey_b64, privateKey_b64), table1)
    /\ table1 !! userId = Some (publicKey_b64, privateKey_b64)
    /\ KeyServer.get_public_key userId table1 = KeyServer.OK publicKey_b64
    /\ (forall other, other <> userId ->
          KeyServer.get_public_key other table1
          = KeyServer.get_public_key other table).
Proof.
  unfold KeyServer.generate_keys.
  match goal with
  | |- context [KeyServer.except_Exception ?body ?h] =>
      assert (exists keys, KeyServer.except_Exception body h = KeyServer.Done keys)
        as [[public_key private_key] ->]
  end.
  { destruct (KeyServer.oqs_generate_keypair oqs coins) as [[pk sk]|e]; cbn.
    - destruct (bool_decide (pk = []) || bool_decide (sk = [])); cbn;
        destruct (kem_keypair_512 fallback_coins); cbn; eauto.
    - destruct (kem_keypair_512 fallback_coins); cbn; eauto. }
  eexists _, _, _. split; [done|].
  split_and!.
  - apply lookup_insert_eq.
  - unfold KeyServer.get_public_key. by rewrite lookup_insert_eq.
  - intros other Hother. unfold KeyServer.get_public_key.
    by rewrite lookup_insert_ne.
Qed.

Hypothesis b64_law : forall b, b64decode (b64encode b) = Some b.
Hypothesis kem_law :
  forall seed coins kem_ciphertext shared_secret,
    kem_encrypt_512 (snd (kem_keypair_512 seed)) coins
    = Return (kem_ciphertext, shared_secret) ->
    kem_decrypt_512 kem_ciphertext (fst (kem_keypair_512 seed))
    = Return shared_secret.

(** X14. With [oqs] of no use, so that Kyber-512 stands in at each
    step: for a user whose keys the server generated, [decapsulate]
    applied to what [encapsulate] answered for a key returns that key
    padded with zeros to 32 bytes, the length of the shared secret:
    the key itself when it has 32 bytes or more. *)
Theorem X14_decapsulate_returns_the_key_padded
    (coins fallback_coins coins' fallback_coins' key : bytes)
    (userId publicKey_b64 privateKey_b64 kem_ciphertext_b64
       encrypted_symmetric_key_b64 : string)
    (table table1 : KeyServer.pqc_keys) :
  oqs_unavailable oqs ->
  KeyServer.generate_keys oqs coins fallback_coins userId table
  = (KeyServer.OK (publicKey_b64, privateKey_b64), table1) ->
  KeyServer.encapsulate oqs coins' fallback_coins' publicKey_b64 (b64encode key)
  = KeyServer.OK (kem_ciphertext_b64, encrypted_symmetric_key_b64) ->
  KeyServer.decapsulate oqs userId kem_ciphertext_b64
    encrypted_symmetric_key_b64 table1
  = KeyServer.OK (b64encode (ljust key 32 x00)).
Proof.
  intros (Hgen & Henc & Hdec).
  unfold KeyServer.generate_keys.
  destruct (Hgen coins) as [e ->]. cbn.
  destruct (kem_keypair_512 fallback_coins) as [sk pk] eqn:Hpair. cbn.
  intros [= <- <- <-].
  unfold KeyServer.encapsulate, KeyServer.b64decode_str.
  rewrite !b64_law. cbn.
  destruct (Henc pk coins') as [e' ->]. cbn.
  destruct (kem_encrypt_512 pk fallback_coins') as [[ct ss]|e''] eqn:Hkem;
    cbn; [|done].
  intros [= <- <-].
  unfold KeyServer.decapsulate, KeyServer.b64decode_str.
  rewrite lookup_insert_eq, !b64_law. cbn.
  destruct (Hdec ct sk) as [e'' ->]. cbn.
  replace pk with (snd (kem_keypair_512 fallback_coins)) in Hkem
    by (by rewrite Hpair).
  apply kem_law in Hkem. rewrite Hpair in Hkem. cbn in Hkem. rewrite Hkem. cbn.
  rewrite xor_bytes_twice.
  rewrite length_vec_to_list. do 2 f_equal.
  unfold ljust. f_equal. f_equal. lia.
Qed.

End Endpoints.

End KeyServerFacts.

(** ** Edges of [encrypt] and [decrypt] *)

Section Edges.

Context `{P : Primitives}.

(** X15. For a security level other than 1, 2, 3 and 4, or none,
    [encrypt] raises nothing: it returns [None], and the state is as it
    was. *)
Theorem X15_encrypt_returns_None_for_another_level
    (body : bytes) (atts : list attachment) (kw : kwargs) (st : state) :
  utf8_valid body = true ->
  security_level kw ∉ [Some 1; Some 2; Some 3; Some 4] ->
  CryptoService.encrypt body atts kw st = (Return None, st).
Proof.
  intros Hutf Hlevel.
  unfold CryptoService.encrypt, CryptoService.encrypt_with,
    CryptoService.decode_utf8.
  rewrite Hutf. mrun.
  rewrite !bool_decide_eq_false_2 by set_solver.
  destruct (security_level kw) as [level|]; [|done].
  rewrite bool_decide_eq_false_2; [done|]. set_solver.
Qed.

(** X16. An envelope whose security level is none of 1, 2, 3 and 4 makes
    [decrypt] raise the error of [json.loads] for the empty input, not
    [DecryptionError]: no branch is taken and the empty byte string is
    parsed. *)
Theorem X16_decrypt_parses_nothing_for_another_level
    (env : string) (kw : kwargs) (st : state) (data level : pyval) :
  json_loads EmptyString = None ->
  json_loads env = Some data ->
  py_getitem data "security_level" = Return level ->
  py_eq_int level 1 = false -> py_eq_int level 2 = false ->
  py_eq_int level 3 = false -> py_eq_int level 4 = false ->
  CryptoService.decrypt env kw st = (Raise (ValueError "JSONDecodeError"), st).
Proof.
  intros Hempty Hload Hlevel H1 H2 H3 H4.
  unfold CryptoService.decrypt. mrun.
  rewrite Hload, Hlevel, H1, H2, H3, H4. cbn. by rewrite Hempty.
Qed.

(** X17. At level 3 the payload is encrypted before the public key of
    the recipient is read: without [recipient_public_key_b64], [encrypt]
    raises [KeyError] after it has drawn the key and the nonce and run
    AES-GCM. *)
Theorem X17_level3_encrypts_before_it_misses_the_public_key
    (body : bytes) (atts : list attachment) (kw : kwargs) (st : state) :
  utf8_valid body = true ->
  security_level kw = Some 3 ->
  recipient_public_key_b64 kw = None ->
  CryptoService.encrypt body atts kw st
  = (Raise (KeyError "recipient_public_key_b64"),
     logged EvAeadEncrypt (drawn_by 12 (drawn_by 32 st))).
Proof.
  intros Hutf Hl Hpk.
  unfold CryptoService.encrypt, CryptoService.encrypt_with,
    CryptoService.decode_utf8.
  rewrite Hutf, Hl, Hpk. mrun.
  rewrite bool_decide_eq_false_2 by done.
  rewrite bool_decide_eq_true_2 by done.
  change {| self := self st; world := (draw 32 (world st)).2 |}
    with (drawn_by 32 st).
  change {| self := self (drawn_by 32 st);
            world := (draw 12 (world (drawn_by 32 st))).2 |}
    with (drawn_by 12 (drawn_by 32 st)).
  rewrite aes_gcm_encrypt_run;
    [done|apply valid_aes_key_32|apply valid_gcm_nonce_12]; apply draw_length.
Qed.

(** X18. At levels 1 and 2 with method [qkd], without a recipient, or
    with the empty one, [encrypt] raises [EncryptionError] before it asks
    for a key: the state is as it was. *)
Theorem X18_qkd_without_recipient_requests_no_key
    (body : bytes) (atts : list attachment) (kw : kwargs) (st : state)
    (level : Z) :
  utf8_valid body = true ->
  security_level kw = Some level -> level = 1 \/ level = 2 ->
  encryption_method kw = Some "qkd"%string ->
  truthy (recipient_email kw) = false ->
  CryptoService.encrypt body atts kw st
  = (Raise (EncryptionError "Recipient email required for QKD encryption"), st).
Proof.
  intros Hutf Hl Hlevel Hm Hemail.
  unfold CryptoService.encrypt, CryptoService.encrypt_with,
    CryptoService.decode_utf8.
  rewrite Hutf, Hl, Hm, Hemail. mrun.
  rewrite !bool_decide_eq_false_2 by (intros [= ->]; lia).
  rewrite bool_decide_eq_true_2 by (destruct Hlevel as [-> | ->]; set_solver).
  done.
Qed.

(** X19. At level 1, a key shorter than the ciphertext makes [decrypt]
    raise [DecryptionError] before it unmasks anything, with the key of
    the caller as with a quantum key. *)
Theorem X19_decrypt_checks_the_length_of_the_pad
    (env : string) (kw : kwargs) (st : state) (d : list (string * pyval))
    (payload : pyval) (s : string) (xor_ciphertext : bytes) :
  json_loads env = Some (PDict d) ->
  assoc_get d "security_level" = Some (PInt 1) ->
  assoc_get d "payload" = Some payload ->
  py_getitem payload "ciphertext_b64" = Return (PStr s) ->
  b64decode s = Some xor_ciphertext ->
  (forall key_hex_ key,
     assoc_get d "encryption_method" = Some (PStr "pqc") ->
     key_hex kw = Some key_hex_ -> fromhex key_hex_ = Some key ->
     len key < len xor_ciphertext ->
     CryptoService.decrypt env kw st
     = (Raise (DecryptionError "OTP key is shorter than ciphertext."), st))
  /\ (forall key_id_ md st' key,
        assoc_get d "encryption_method" = Some (PStr "qkd") ->
        assoc_get d "key_id" = Some key_id_ ->
        CryptoService.get_quantum_key_by_id key_id_ st = (Return md, st') ->
        fromhex (km_key_hex md) = Some key ->
        len key < len xor_ciphertext ->
        CryptoService.decrypt env kw st
        = (Raise (DecryptionError "Quantum OTP key is shorter than ciphertext."),
           st')).
Proof.
  intros Hload Hlevel Hpayload Hfield Hct. split.
  - intros kh key Hm Hkh Hkey Hshort.
    unfold CryptoService.decrypt, CryptoService.otp_unmask, py_getitem, py_get.
    mrun. rewrite Hload, Hlevel, Hm, Hkh, Hkey, Hpayload. cbn.
    rewrite Hfield. cbn. rewrite Hct. cbn.
    by rewrite (proj2 (Z.ltb_lt _ _)).
  - intros kid md st' key Hm Hkid Hq Hkey Hshort.
    unfold CryptoService.decrypt, CryptoService.otp_unmask, py_getitem, py_get.
    mrun. rewrite Hload, Hlevel, Hm, Hkid. cbn. rewrite Hq, Hkey, Hpayload. cbn.
    rewrite Hfield. cbn. rewrite Hct. cbn.
    by rewrite (proj2 (Z.ltb_lt _ _)).
Qed.

(** X20. At level 2 with the key of the caller, only the first 32 bytes
    of the key count: two keys that agree on them give the same run of
    [encrypt], and the same run of [decrypt] on any envelope that names
    the method. *)
Theorem X20_level2_uses_the_first_32_bytes_of_the_key
    (body : bytes) (atts : list attachment) (env : string) (st : state)
    (email pk key_id_ sk : option string) (key_hex_ key_hex' : string)
    (key key' : bytes) (d : list (string * pyval)) :
  fromhex key_hex_ = Some key -> fromhex key_hex' = Some key' ->
  take 32 key = take 32 key' ->
  let kw h :=
    {| security_level := Some 2; encryption_method := Some "pqc"%string;
       recipient_email := email; recipient_public_key_b64 := pk;
       key_id := key_id_; key_hex := Some h; private_key_b64 := sk |} in
  CryptoService.encrypt body atts (kw key_hex_) st
  = CryptoService.encrypt body atts (kw key_hex') st
  /\ (json_loads env = Some (PDict d) ->
      assoc_get d "security_level" = Some (PInt 2) ->
      assoc_get d "encryption_method" = Some (PStr "pqc") ->
      CryptoService.decrypt env (kw key_hex_) st
      = CryptoService.decrypt env (kw key_hex') st).
Proof.
  intros Hkey Hkey' Hsame kw.
  assert (slice_to key 32 = slice_to key' 32) as Hslice by exact Hsame.
  split.
  - unfold CryptoService.encrypt, CryptoService.encrypt_with. mrun.
    cbn [security_level encryption_method key_hex key_id kw default].
    destruct (CryptoService.decode_utf8 body); [|done].
    rewrite !bool_decide_eq_false_2 by done.
    rewrite bool_decide_eq_true_2 by set_solver.
    change (String.eqb "pqc" "qkd") with false. cbv beta iota.
    rewrite Hkey, Hkey'. change (2 =? 2) with true. cbv beta iota.
    by rewrite Hslice.
  - intros Hload Hlevel Hm.
    unfold CryptoService.decrypt, py_getitem, py_get. mrun.
    rewrite Hload, Hlevel, Hm.
    cbn [py_eq_int py_eq_str Z.eqb Pos.eqb orb String.eqb Ascii.eqb Bool.eqb
         key_hex kw].
    rewrite Hkey, Hkey'. by rewrite Hslice.
Qed.

Lemma payload_dict_plain body atts :
  json_plain (CryptoService.payload_dict body atts) = true.
Proof.
  unfold CryptoService.payload_dict. cbn [json_plain forallb snd map fst].
  rewrite bool_decide_eq_true_2 by (repeat constructor; set_solver).
  cbn [andb]. rewrite andb_true_r.
  induction atts as [|att atts IH]; [done|].
  cbn [map forallb]. rewrite IH, andb_true_r.
  unfold CryptoService.attachment_json. cbn [json_plain forallb snd map fst].
  rewrite bool_decide_eq_true_2 by (repeat constructor; set_solver). done.
Qed.

Hypothesis json_law :
  forall v, json_plain v = true -> json_loads (json_dumps v) = Some v.

(** X21. What [encrypt] returns, when it returns an envelope, is a JSON
    object that [json.loads] reads, with the version ["4.0"] and the
    security level that was asked for. *)
Theorem X21_the_envelope_names_its_level
    (body : bytes) (atts : list attachment) (kw : kwargs) (st st1 : state)
    (env : string) :
  CryptoService.encrypt body atts kw st = (Return (Some env), st1) ->
  exists level d,
    security_level kw = Some level
    /\ json_loads env = Some (PDict d)
    /\ assoc_get d "qumail_version" = Some (PStr "4.0")
    /\ assoc_get d "security_level" = Some (PInt level).
Proof.
  intros Henc.
  destruct (encrypt_inv_level _ _ _ _ _ _ _ Henc) as (level & Hl & Hlevel).
  exists level.
  assert (level = 4 \/ level = 3 \/ level = 1 \/ level = 2)
    as [-> | [-> | Hlow]] by set_solver.
  - destruct (encrypt_inv_level4 _ _ _ _ _ _ _ Hl Henc) as [-> ->].
    eexists. split; [done|]. split;
      [apply json_law; unfold envelope_4;
       cbn [json_plain forallb snd map fst]; rewrite payload_dict_plain;
       by vm_compute|done].
  - destruct (encrypt_inv_level3 _ _ _ _ _ _ _ Hl Henc)
      as (aes_key & nonce & pk_b64 & pk & coins & kem & ss & _ & _ & _ & _
          & _ & _ & _ & -> & _).
    eexists. split; [done|]. split; [apply json_law; by vm_compute|done].
  - destruct (String.eqb (default "pqc"%string (encryption_method kw)) "qkd")
      eqn:Hm.
    + destruct (encrypt_inv_qkd _ _ _ _ _ _ _ Hl Hlow Hm Henc)
        as (client & _ & _ & H1 & H2).
      destruct Hlow as [-> | ->].
      * destruct (H1 eq_refl) as [-> _].
        eexists. split; [done|]. split; [apply json_law; by vm_compute|done].
      * destruct (H2 eq_refl) as (_ & _ & -> & _).
        eexists. split; [done|]. split; [apply json_law; by vm_compute|done].
    + destruct (encrypt_inv_pqc _ _ _ _ _ _ _ _ Hl Hlow Hm Henc)
        as (kh & kid & key & _ & _ & _ & H1 & H2).
      destruct Hlow as [-> | ->].
      * destruct (H1 eq_refl) as (_ & -> & _).
        eexists. split; [done|]. split; [apply json_law; by vm_compute|done].
      * destruct (H2 eq_refl) as (nonce & _ & _ & _ & -> & _).
        eexists. split; [done|]. split; [apply json_law; by vm_compute|done].
Qed.

End Edges.

(** ** The sending and the receiving path *)

Section Receiving.

Context `{P : Primitives}.

Ltac run_shown :=
  repeat progress
    (mrun;
     cbn [py_getitem py_get py_eq_str assoc_get String.eqb Ascii.eqb Bool.eqb
          py_eq_int Z.eqb Pos.eqb orb andb default id negb
          EmailController.py_contains EmailController.py_truthy]).

(** X22. A JSON document that is not an object but holds the text
    [qumail_version], as a string does of which it is a part, is taken for
    an envelope; reading its security level then fails, and the page of
    an unexpected failure is shown. *)
Theorem X22_a_document_that_is_no_object_ends_in_the_failure_page
    (plain_body : string) (private_key : option string) (st : state)
    (data : pyval) :
  plain_body <> EmptyString ->
  json_loads plain_body = Some data ->
  EmailController.py_contains data "qumail_version" = Return true ->
  (forall d, data <> PDict d) ->
  EmailController.handle_email_selection (Some plain_body) private_key st
  = (Return (EmailController.ShowUnexpected AttributeError), st).
Proof.
  intros Hne Hload Hin Hobj. unfold EmailController.handle_email_selection.
  assert (truthy (Some plain_body) = true) as ->.
  { cbn. destruct (String.eqb_spec plain_body EmptyString); done. }
  change (default EmptyString (Some plain_body)) with plain_body.
  rewrite Hload, Hin.
  destruct data; try done. by destruct (Hobj d).
Qed.

Hypothesis json_law :
  forall v, json_plain v = true -> json_loads (json_dumps v) = Some v.
Hypothesis json_empty : json_loads EmptyString = None.

Lemma dumps_truthy v : json_plain v = true -> truthy (Some (json_dumps v)) = true.
Proof using json_law json_empty.
  intros Hplain. cbn. destruct (String.eqb_spec (json_dumps v) EmptyString) as [He|]; [|done].
  pose proof (json_law v Hplain) as Hload. rewrite He, json_empty in Hload. done.
Qed.

(** X23. What the sending path with the key of the key server sends, at
    level 1 as at level 2, is a message without attachments, and the
    receiving path refuses it: it shows the failure for a legacy message
    without calling [decrypt] or the key server, so the state is as it
    was. *)
Theorem X23_what_the_pqc_path_sends_is_refused_on_receipt
    (body : string) (atts : list attachment) (level : Z) (st st1 st2 : state)
    (env : string) (private_key : option string) :
  level = 1 \/ level = 2 ->
  EmailController.handle_send_email_pqc body atts level st
  = (Return (Some env), st1) ->
  atts = []
  /\ EmailController.handle_email_selection (Some env) private_key st2
     = (Return (EmailController.ShowFailed
          "Legacy PQC message level unsupported after QKD upgrade."), st2).
Proof using json_law json_empty.
  intros Hlevel Hsend. unfold EmailController.handle_send_email_pqc in Hsend.
  apply bind_inv in Hsend as (attachments_list & st' & Hlist & Hsend).
  apply lift_inv in Hlist as [Hlist ->].
  destruct atts as [|att atts]; [clear Hlist|done]. split; [done|].
  apply bind_inv in Hsend as ([kid kh] & st0 & _ & Henc).
  unfold CryptoService.encrypt in Henc.
  eapply encrypt_inv_pqc in Henc as (kh' & kid' & key & _ & _ & _ & H1 & H2);
    [|reflexivity|exact Hlevel|reflexivity].
  unfold EmailController.handle_email_selection.
  destruct Hlevel as [-> | ->].
  - destruct (H1 eq_refl) as (_ & -> & _).
    rewrite dumps_truthy by (by vm_compute).
    change (default EmptyString (Some ?x)) with x.
    rewrite json_law by (by vm_compute).
    unfold CryptoService.envelope_12. run_shown.
    rewrite bool_decide_eq_true_2 by eauto. run_shown. done.
  - destruct (H2 eq_refl) as (nonce & _ & _ & _ & -> & _).
    rewrite dumps_truthy by (by vm_compute).
    change (default EmptyString (Some ?x)) with x.
    rewrite json_law by (by vm_compute).
    unfold CryptoService.envelope_12. run_shown.
    rewrite bool_decide_eq_true_2 by eauto. run_shown. done.
Qed.

(** X24. An envelope of level 3, received where no private key is in
    the settings, is not handed to [decrypt]: the failure shown is the
    one of the controller, and the state is as it was. *)
Theorem X24_level3_without_a_private_key_is_not_decrypted
    (body : bytes) (atts : list attachment) (kw : kwargs) (st st1 st2 : state)
    (env : string) (private_key : option string) :
  security_level kw = Some 3 ->
  CryptoService.encrypt body atts kw st = (Return (Some env), st1) ->
  truthy private_key = false ->
  EmailController.handle_email_selection (Some env) private_key st2
  = (Return (EmailController.ShowFailed
       "Cannot decrypt Level 3 message: PQC private key not found in settings."),
     st2).
Proof using json_law json_empty.
  intros Hl Henc Hkey.
  destruct (encrypt_inv_level3 _ _ _ _ _ _ _ Hl Henc)
    as (aes_key & nonce & pk_b64 & pk & coins & kem & ss & _ & _ & _ & _
        & _ & _ & _ & -> & _).
  unfold EmailController.handle_email_selection.
  rewrite dumps_truthy by (by vm_compute).
    change (default EmptyString (Some ?x)) with x.
  rewrite json_law by (by vm_compute).
  unfold envelope_3. run_shown.
  rewrite bool_decide_eq_true_2 by eauto. run_shown. rewrite Hkey. done.
Qed.

(** X25. An envelope of level 4 is shown without [decrypt]: the body,
    and the attachments as they are in the envelope, with the encoding
    of their content and without the content [decrypt] would add. *)
Theorem X25_level4_is_shown_as_it_is_in_the_envelope
    (body : bytes) (atts : list attachment) (kw : kwargs) (st st1 st2 : state)
    (env : string) (private_key : option string) :
  security_level kw = Some 4 ->
  CryptoService.encrypt body atts kw st = (Return (Some env), st1) ->
  EmailController.handle_email_selection (Some env) private_key st2
  = (Return (EmailController.ShowPayload (PStr (string_of_list_byte body))
       (PList (map CryptoService.attachment_json atts))), st2).
Proof using json_law json_empty.
  intros Hl Henc.
  destruct (encrypt_inv_level4 _ _ _ _ _ _ _ Hl Henc) as [-> _].
  assert (json_plain (envelope_4 (CryptoService.payload_dict
            (string_of_list_byte body) atts)) = true) as Hplain.
  { unfold envelope_4. cbn [json_plain forallb snd map fst].
    rewrite payload_dict_plain. by vm_compute. }
  unfold EmailController.handle_email_selection.
  rewrite dumps_truthy by done.
  change (default EmptyString (Some ?x)) with x. rewrite json_law by done.
  unfold envelope_4, CryptoService.payload_dict. run_shown.
  rewrite !bool_decide_eq_true_2 by eauto. run_shown.
  rewrite !bool_decide_eq_true_2 by eauto. run_shown.
  rewrite bool_decide_eq_false_2 by (intros Hnil; discriminate Hnil). done.
Qed.

Hypothesis b64_law : forall b, b64decode (b64encode b) = Some b.

Lemma finish_payload body atts st :
  finish (plaintext body atts) st
  = (Return (decrypted_payload (string_of_list_byte body) atts), st).
Proof using json_law b64_law.
  unfold finish, plaintext, encode_utf8.
  rewrite string_of_list_byte_of_string, json_law by apply payload_dict_plain.
  mrun. by rewrite (decode_attachments_payload b64_law).
Qed.

(** What the controller shows of a payload [decrypt] returned. *)
Lemma shown_payload (run : M pyval) body atts st st' :
  run st = (Return (decrypted_payload body atts), st') ->
  try_except
    (decrypted_payload ← run;
     if EmailController.py_truthy decrypted_payload then
       html_body ← lift (py_get decrypted_payload "body" PNone);
       attachments ← lift (py_get decrypted_payload "attachments" (PList []));
       mret (EmailController.ShowPayload html_body attachments)
     else raise (DecryptionError "Decryption process yielded no content."))
    (fun e => Some (mret (match e with
                          | DecryptionError msg => EmailController.ShowFailed msg
                          | _ => EmailController.ShowUnexpected e
                          end))) st
  = (Return (EmailController.ShowPayload (PStr body)
       (PList (map decrypted_attachment atts))), st').
Proof using Type.
  intros Hrun. mrun. rewrite Hrun. unfold decrypted_payload. run_shown.
  rewrite bool_decide_eq_false_2 by (intros Hnil; discriminate Hnil). done.
Qed.

Hypothesis ctr_law :
  forall key nonce data, gcm_ctr key nonce (gcm_ctr key nonce data) = data.

Lemma genuine_payload key nonce body atts st :
  CryptoService.valid_aes_key key = true ->
  CryptoService.valid_gcm_nonce nonce = true ->
  (CryptoService.aes_gcm_decrypt_or_tamper key nonce
     (vec_to_list (gcm_tag key nonce (gcm_ctr key nonce (plaintext body atts))))
     (gcm_ctr key nonce (plaintext body atts)) ≫= finish) st
  = (Return (decrypted_payload (string_of_list_byte body) atts),
     logged EvAeadDecrypt st).
Proof using json_law b64_law ctr_law.
  intros Hk Hn. unfold mbind, M_bind.
  by rewrite (aead_genuine ctr_law), finish_payload.
Qed.

(** X26. A message [encrypt] made with a quantum key, at level 1 or 2,
    is shown with the body and the attachments that were sent, each with
    its content, wherever the key can be got again. *)
Theorem X26_a_qkd_message_is_shown_as_it_was_sent
    (body : bytes) (atts : list attachment) (kw : kwargs) (st st1 st2 : state)
    (env : string) (private_key : option string) (level : Z) :
  security_level kw = Some level -> level = 1 \/ level = 2 ->
  encryption_method kw = Some "qkd"%string ->
  CryptoService.encrypt body atts kw st = (Return (Some env), st1) ->
  reacquirable st st1 st2 ->
  exists st3,
    EmailController.handle_email_selection (Some env) private_key st2
    = (Return (EmailController.ShowPayload (PStr (string_of_list_byte body))
         (PList (map decrypted_attachment atts))), st3).
Proof using json_law json_empty b64_law ctr_law.
  intros Hl Hlevel Hm Henc Hkeys.
  assert (String.eqb (default "pqc"%string (encryption_method kw)) "qkd" = true)
    as Hm' by (by rewrite Hm).
  destruct (encrypt_inv_qkd _ _ _ _ _ _ _ Hl Hlevel Hm' Henc)
    as (client & Hemail & Hc & H1 & H2).
  unfold EmailController.handle_email_selection.
  destruct Hlevel as [-> | ->].
  - destruct (H1 eq_refl) as [-> ->].
    destruct (reacquire client _ _ st _ st2 Hemail eq_refl eq_refl Hkeys)
      as (md & st3 & Hq & Hhex).
    rewrite dumps_truthy by (by vm_compute).
    change (default EmptyString (Some ?x)) with x.
    rewrite (json_law (CryptoService.envelope_12 _ _ _ _)) by (by vm_compute).
    set (envelope := json_dumps _).
    unfold CryptoService.envelope_12.
    cbn [EmailController.py_contains assoc_get String.eqb Ascii.eqb Bool.eqb].
    rewrite bool_decide_eq_true_2 by eauto.
    eexists. apply shown_payload. run_shown. subst envelope.
    erewrite (decrypt_level1_qkd b64_law json_law);
      [| exact Hq | rewrite Hhex; apply fromhex_hex |].
    + rewrite xor_zip_involutive, finish_payload; [done|].
      apply Nat2Z.inj_le. fold (len (plaintext body atts)).
      match goal with
      | |- _ <= Z.of_nat (length ?k) => fold (len k)
      end.
      rewrite get_deterministic_key_length; unfold len; lia.
    + unfold len at 1. rewrite xor_zip_length.
      rewrite get_deterministic_key_length by (unfold len; lia).
      unfold len. lia.
  - destruct (H2 eq_refl) as (Hk & Hn & -> & ->).
    destruct (reacquire client _ _ st _ st2 Hemail eq_refl eq_refl Hkeys)
      as (md & st3 & Hq & Hhex).
    rewrite dumps_truthy by (by vm_compute).
    change (default EmptyString (Some ?x)) with x.
    rewrite (json_law (CryptoService.envelope_12 _ _ _ _)) by (by vm_compute).
    set (envelope := json_dumps _).
    unfold CryptoService.envelope_12.
    cbn [EmailController.py_contains assoc_get String.eqb Ascii.eqb Bool.eqb].
    rewrite bool_decide_eq_true_2 by eauto.
    eexists. apply shown_payload. run_shown. subst envelope.
    erewrite (decrypt_level2_qkd b64_law json_law);
      [| exact Hq | rewrite Hhex; apply fromhex_hex].
    by rewrite genuine_payload.
Qed.

End Receiving.

Section SendingAndReceiving.

Context `{P : Primitives}.

Ltac run_shown :=
  repeat progress
    (mrun;
     cbn [py_getitem py_get py_eq_str assoc_get String.eqb Ascii.eqb Bool.eqb
          py_eq_int Z.eqb Pos.eqb orb andb default id negb
          EmailController.py_contains EmailController.py_truthy]).

(** X28. The sending path with the key of the key server, for a message
    without attachments, gets a key that fits: while the server answers
    and the identifier it draws is free, it asks for as many bytes as the
    serialized payload has at level 1 and for 32 bytes at level 2, the
    key is stored under the identifier, and [encrypt] returns an
    envelope: the pad is never too short, and the AES key has 32 bytes.
    For a message with an attachment it raises [NameError] for [base64]
    and leaves the state as it was: no key is asked for. *)
Theorem X28_the_pqc_sending_path_gets_a_key_that_fits
    (body : string) (atts : list attachment) (level : Z) (st : state) :
  level = 1 \/ level = 2 ->
  utf8_valid (encode_utf8 body) = true ->
  key_server_up (world st) = true ->
  symmetric_keys (world st) !! KeyServer.uuid4 (fst (draw 16 (world st))) = None ->
  let n := if level =? 1 then len (plaintext (encode_utf8 body) []) else 32 in
  match atts with
  | [] =>
      exists env st1 key,
        EmailController.handle_send_email_pqc body [] level st
        = (Return (Some env), st1)
        /\ len key = n
        /\ symmetric_keys (world st1) !! KeyServer.uuid4 (fst (draw 16 (world st)))
           = Some (hex key)
        /\ trace (world st1)
           = trace (world st)
             ++ [EvSymmetricKeyRequest n;
                 if level =? 1 then EvOtpMask else EvAeadEncrypt]
  | _ :: _ =>
      EmailController.handle_send_email_pqc body atts level st
      = (Raise (NameError "base64"), st)
  end.
Proof.
  intros Hlevel Hutf Hup Hfree n.
  destruct atts as [|att atts]; [|done].
  assert (0 <= n) as Hn by (subst n; destruct Hlevel as [-> | ->]; cbn; unfold len; lia).
  set (key := fst (draw (Z.to_nat n)
                     (snd (draw 16 (world (logged (EvSymmetricKeyRequest n) st)))))).
  assert (len key = n) as Hlen
    by (subst key; unfold len; rewrite draw_length; lia).
  assert (plaintext (encode_utf8 body) []
          = encode_utf8 (json_dumps (CryptoService.payload_dict body [])))
    as Hplain
    by (unfold plaintext, encode_utf8; by rewrite string_of_list_byte_of_string).
  assert (CryptoService.get_symmetric_key n st
          = (Return (KeyServer.uuid4 (fst (draw 16 (world st))), hex key),
             {| self := self st;
                world := with_symmetric_keys
                  (fun t => <[KeyServer.uuid4 (fst (draw 16 (world st))) := hex key]> t)
                  (snd (draw (Z.to_nat n)
                     (snd (draw 16 (world (logged (EvSymmetricKeyRequest n) st)))))) |}))
    as Hget.
  { unfold CryptoService.get_symmetric_key, CryptoService.http_get,
      KeyServer.get_symmetric_key. mrun.
    cbn [with_trace key_server_up]. rewrite Hup.
    rewrite (proj2 (Z.ltb_ge _ _)) by done.
    unfold draw in *. cbn [fst snd with_drawn with_trace symmetric_keys drawn
                           entropy logged set_world world] in *.
    by rewrite Hfree. }
  unfold EmailController.handle_send_email_pqc.
  rewrite (bind_run (lift (EmailController.attachments_json [])) _
             st [] st eq_refl).
  change (PDict [("body", PStr body); ("attachments", PList [])])
    with (CryptoService.payload_dict body []).
  rewrite <- Hplain. fold n.
  rewrite (bind_run _ _ _ _ _ Hget).
  unfold CryptoService.encrypt, CryptoService.encrypt_with,
    CryptoService.decode_utf8.
  rewrite Hutf. mrun. cbn [security_level encryption_method key_hex key_id default].
  rewrite !bool_decide_eq_false_2 by (intros [= ->]; lia).
  rewrite bool_decide_eq_true_2 by (destruct Hlevel as [-> | ->]; set_solver).
  unfold id. change (String.eqb "pqc" "qkd") with false. cbv beta iota.
  rewrite fromhex_hex. fold (plaintext (encode_utf8 body) []).
  destruct Hlevel as [-> | ->].
  - change (1 =? 2) with false. change (1 =? 1) with true in *. cbv beta iota.
    subst n. cbv beta iota in Hlen.
    rewrite (proj2 (Z.ltb_ge _ _)) by lia.
    eexists _, _, key. split; [reflexivity|]. split; [done|].
    cbn [world with_trace with_symmetric_keys symmetric_keys trace].
    split; [apply lookup_insert_eq|].
    unfold draw, logged. cbn. by rewrite <- app_assoc.
  - change (2 =? 2) with true. change (2 =? 1) with false in *. cbv beta iota.
    subst n. cbv beta iota in Hlen.
    assert (slice_to key 32 = key) as ->.
    { unfold slice_to. cbn. apply take_ge. unfold len in Hlen. lia. }
    rewrite aes_gcm_encrypt_run;
      [|apply valid_aes_key_32; unfold len in Hlen; lia
       |apply valid_gcm_nonce_12, draw_length].
    eexists _, _, key. split; [reflexivity|]. split; [done|].
    cbn [world with_trace with_symmetric_keys symmetric_keys trace logged
         set_world].
    split; [apply lookup_insert_eq|].
    unfold draw, logged. cbn. by rewrite <- app_assoc.
Qed.

Hypothesis json_law :
  forall v, json_plain v = true -> json_loads (json_dumps v) = Some v.
Hypothesis json_empty : json_loads EmptyString = None.
Hypothesis b64_law : forall b, b64decode (b64encode b) = Some b.
Hypothesis ctr_law :
  forall key nonce data, gcm_ctr key nonce (gcm_ctr key nonce data) = data.
Hypothesis kem_law :
  forall seed coins kem_ciphertext shared_secret,
    kem_encrypt_512 (snd (kem_keypair_512 seed)) coins
    = Return (kem_ciphertext, shared_secret) ->
    kem_decrypt_512 kem_ciphertext (fst (kem_keypair_512 seed))
    = Return shared_secret.

(** X27. A message of level 3 is shown with the body and the
    attachments that were sent, each with its content, where the
    settings hold the private key of the pair whose public key it was
    encrypted for. *)
Theorem X27_a_level3_message_is_shown_as_it_was_sent
    (body : bytes) (atts : list attachment) (kw : kwargs) (st st1 st2 : state)
    (env public_key_b64 private_key_b64_ : string) (seed : bytes) :
  security_level kw = Some 3 ->
  CryptoService.encrypt body atts kw st = (Return (Some env), st1) ->
  recipient_public_key_b64 kw = Some public_key_b64 ->
  b64decode public_key_b64 = Some (snd (kem_keypair_512 seed)) ->
  truthy (Some private_key_b64_) = true ->
  b64decode private_key_b64_ = Some (fst (kem_keypair_512 seed)) ->
  exists st3,
    EmailController.handle_email_selection (Some env) (Some private_key_b64_) st2
    = (Return (EmailController.ShowPayload (PStr (string_of_list_byte body))
         (PList (map decrypted_attachment atts))), st3).
Proof using json_law json_empty b64_law ctr_law kem_law.
  intros Hl Henc Hpk Hdec Htruthy Hsk.
  destruct (encrypt_inv_level3 _ _ _ _ _ _ _ Hl Henc)
    as (aes_key & nonce & pk_b64 & pk & coins & kem & ss
        & Hlen & _ & Hk & Hn & Hpk' & Hdec' & Hkem & -> & _).
  assert (pk_b64 = public_key_b64) as -> by congruence.
  assert (pk = snd (kem_keypair_512 seed)) as -> by congruence.
  apply kem_law in Hkem.
  unfold EmailController.handle_email_selection.
  rewrite (dumps_truthy json_law json_empty) by (by vm_compute).
  change (default EmptyString (Some ?x)) with x.
  rewrite (json_law (envelope_3 _ _ _ _ _)) by (by vm_compute).
  set (envelope := json_dumps _).
  unfold envelope_3.
  cbn [EmailController.py_contains assoc_get String.eqb Ascii.eqb Bool.eqb].
  rewrite bool_decide_eq_true_2 by eauto.
  eexists. apply shown_payload. run_shown. rewrite Htruthy. run_shown.
  subst envelope.
  erewrite (decrypt_level3 b64_law json_law); [|done|done|exact Hsk|exact Hkem].
  rewrite ljust_long by (rewrite length_vec_to_list; lia).
  rewrite xor_zip_involutive by (rewrite length_vec_to_list; lia).
  by rewrite (genuine_payload json_law b64_law ctr_law).
Qed.

End SendingAndReceiving.

(** ** Names in the directory *)

Section DirectoryNames.

Lemma replace_dot_cons c s :
  replace_dot (String c s)
  = if Ascii.eqb c "."%char then ("(dot)" ++ replace_dot s)%string
    else String c (replace_dot s).
Proof. reflexivity. Qed.

Lemma replace_dot_app s t :
  replace_dot (s ++ t) = (replace_dot s ++ replace_dot t)%string.
Proof.
  induction s as [|c s IH]; [done|].
  change (String c s ++ t)%string with (String c (s ++ t)).
  rewrite !replace_dot_cons, IH. by destruct (Ascii.eqb c ".").
Qed.

Lemma length_append s t :
  String.length (s ++ t) = (String.length s + String.length t)%nat.
Proof.
  induction s as [|c s IH]; [done|].
  change (String c s ++ t)%string with (String c (s ++ t)).
  cbn [String.length]. by rewrite IH.
Qed.

(** X29. The path of an address in the directory does not tell a dot
    from the text [(dot)]: two addresses that differ only in that are
    kept at the same place, so that the key published for one is the key
    fetched for the other. *)
Theorem X29_two_addresses_share_a_path (database_url s t : string) :
  (s ++ "." ++ t)%string <> (s ++ "(dot)" ++ t)%string
  /\ FirebaseDirectory._key_path database_url (s ++ "." ++ t)
     = FirebaseDirectory._key_path database_url (s ++ "(dot)" ++ t).
Proof.
  split.
  - intros Heq. apply (f_equal String.length) in Heq.
    rewrite !length_append in Heq. cbn in Heq. lia.
  - unfold FirebaseDirectory._key_path. by rewrite !replace_dot_app.
Qed.

Lemma hex_digit_high x :
  Ascii.eqb (hex_digit (Byte.to_N x / 16)) "."%char = false.
Proof. by destruct x. Qed.

Lemma hex_digit_low x :
  Ascii.eqb (hex_digit (Byte.to_N x mod 16)) "."%char = false.
Proof. by destruct x. Qed.

Lemma replace_dot_hex b : replace_dot (hex b) = hex b.
Proof.
  induction b as [|x b IH]; [done|].
  change (hex (x :: b))
    with (String (hex_digit (Byte.to_N x / 16))
            (String (hex_digit (Byte.to_N x mod 16)) (hex b))).
  by rewrite !replace_dot_cons, hex_digit_high, hex_digit_low, IH.
Qed.

Context `{P : Primitives}.

(** X30. The identifier of a quantum key has no dot, so the record of a
    key issued for a recipient while the directory is reachable is kept
    under the identifier itself; it names the key, its length and the
    recipient. *)
Theorem X30_a_quantum_key_is_published_under_its_identifier
    (n : Z) (email : option string) (st st1 : state) (md : KeyMetadata) :
  QKDService.get_quantum_key n email st = (Return md, st1) ->
  replace_dot (km_key_id md) = km_key_id md
  /\ (truthy email = true -> firebase_up (world st) = true ->
      exists pub,
        firebase_qkd_keys (world st1) !! km_key_id md = Some pub
        /\ pub_key_id pub = km_key_id md
        /\ pub_key_length_bytes pub = n
        /\ pub_recipient_email pub = email).
Proof.
  rewrite qkd_get_quantum_key_run. intros [= <- <-].
  assert (replace_dot (issued_key_id (world st)) = issued_key_id (world st))
    as Hsafe.
  { unfold issued_key_id. rewrite replace_dot_app, replace_dot_hex. done. }
  split; [done|]. intros Hemail Hup. eexists. split.
  - cbn [issued km_key_id]. rewrite <- Hsafe at 1.
    by apply after_issue_published.
  - done.
Qed.

End DirectoryNames.

(** * Facts on the instance *)

(** ** The JSON codec reads what it writes *)

Section PyvalInduction.

Variable P : pyval -> Prop.
Hypothesis HNone : P PNone.
Hypothesis HBool : forall b, P (PBool b).
Hypothesis HInt : forall z, P (PInt z).
Hypothesis HStr : forall s, P (PStr s).
Hypothesis HBytes : forall b, P (PBytes b).
Hypothesis HList : forall l, Forall P l -> P (PList l).
Hypothesis HDict : forall d, Forall (fun kv => P (snd kv)) d -> P (PDict d).

Fixpoint pyval_ind (v : pyval) : P v :=
  match v with
  | PNone => HNone
  | PBool b => HBool b
  | PInt z => HInt z
  | PStr s => HStr s
  | PBytes b => HBytes b
  | PList l =>
      HList l ((fix go l : Forall P l :=
                  match l with
                  | [] => Forall_nil_2 P
                  | x :: r => Forall_cons_2 P x r (pyval_ind x) (go r)
                  end) l)
  | PDict d =>
      HDict d ((fix go d : Forall (fun kv => P (snd kv)) d :=
                  match d with
                  | [] => Forall_nil_2 _
                  | kv :: r => Forall_cons_2 _ kv r (pyval_ind (snd kv)) (go r)
                  end) d)
  end.

End PyvalInduction.

Module JsonFacts.
Import Json.
Local Open Scope char_scope.

Lemma read_chars_escape_char c t :
  read_chars (escape_char c ++ t)
  = match read_chars t with
    | Some (s, rest) => Some (c :: s, rest)
    | None => None
    end.
Proof. destruct c as [[] [] [] [] [] [] [] []]; reflexivity. Qed.

Lemma read_chars_escape s rest :
  read_chars (concat (map escape_char s) ++ "034" :: rest) = Some (s, rest).
Proof.
  induction s as [|c s IH]; [done|].
  simpl. rewrite <- app_assoc, read_chars_escape_char, IH. done.
Qed.

Lemma read_write_string fuel s rest :
  read (S fuel) (write_string s ++ rest) = Some (PStr s, rest).
Proof.
  unfold write_string. rewrite <- app_comm_cons, <- app_assoc. simpl.
  rewrite read_chars_escape. simpl.
  by rewrite string_of_list_ascii_of_string.
Qed.

Lemma uint_chars d :
  Forall (fun c => is_int_char c = true)
    (list_ascii_of_string (NilEmpty.string_of_uint d)).
Proof. induction d; simpl; constructor; done. Qed.

Lemma write_int_chars z : Forall (fun c => is_int_char c = true) (write_int z).
Proof.
  unfold write_int, NilZero.string_of_int, NilZero.string_of_uint.
  destruct (Z.to_int z) as [d|d]; destruct d; simpl;
    repeat constructor; apply uint_chars.
Qed.

Lemma span_int_app t rest :
  Forall (fun c => is_int_char c = true) t -> follow rest ->
  span_int (t ++ rest) = (t, rest).
Proof.
  intros Ht Hrest. induction Ht as [|c t Hc _ IH]; cbn [app span_int].
  - destruct rest as [|c r]; [done|]. cbn [follow span_int] in *. by rewrite Hrest.
  - by rewrite Hc, IH.
Qed.

Lemma to_int_not_nil z : Z.to_int z <> Decimal.Pos Decimal.Nil /\ Z.to_int z <> Decimal.Neg Decimal.Nil.
Proof.
  destruct z as [|p|p]; simpl; split; try discriminate;
    intros [= Hp]; by apply (Unsigned.to_uint_nonnil p).
Qed.

Lemma read_int_write z rest :
  follow rest -> read_int (write_int z ++ rest) = Some (PInt z, rest).
Proof.
  intros Hrest. unfold read_int.
  rewrite (span_int_app _ _ (write_int_chars z) Hrest).
  unfold write_int. rewrite string_of_list_ascii_of_string.
  destruct (to_int_not_nil z) as [H1 H2].
  rewrite NilZero.isi by done. simpl. by rewrite DecimalZ.of_to.
Qed.

Lemma read_write_int fuel z rest :
  follow rest -> read (S fuel) (write_int z ++ rest) = Some (PInt z, rest).
Proof.
  intros Hrest. rewrite <- (read_int_write z rest Hrest).
  pose proof (write_int_chars z) as Hz.
  destruct (write_int z) as [|c t] eqn:E.
  - exfalso. revert E. unfold write_int, NilZero.string_of_int, NilZero.string_of_uint.
    destruct (Z.to_int z) as [d|d]; destruct d; discriminate.
  - inversion Hz as [|? ? Hc _]; subst.
    destruct c as [[] [] [] [] [] [] [] []]; try discriminate Hc; reflexivity.
Qed.

Lemma write_head v :
  exists c t, write v = c :: t /\ Ascii.eqb c "]" = false.
Proof.
  destruct v as [|[]|z|s|b|l|d]; simpl; try by eauto.
  pose proof (write_int_chars z) as Hz.
  destruct (write_int z) as [|c t] eqn:E.
  - exfalso. revert E. unfold write_int, NilZero.string_of_int, NilZero.string_of_uint.
    destruct (Z.to_int z) as [d|d]; destruct d; discriminate.
  - inversion Hz as [|? ? Hc _]; subst. exists c, t. split; [done|].
    destruct c as [[] [] [] [] [] [] [] []]; try discriminate Hc; reflexivity.
Qed.

Lemma read_items_write l :
  Forall reads_back l -> forallb json_plain l = true -> l <> [] ->
  forall fuel rest, (list_sum (map (fun x => S (size x)) l) <= fuel)%nat ->
    read_items fuel (write_seq write "]" l ++ rest) = Some (l, rest).
Proof.
  induction 1 as [|x l Hx Hl IH]; [done|].
  intros Hplain _ fuel rest Hfuel. simpl in Hplain, Hfuel.
  apply andb_true_iff in Hplain as [Hpx Hpl].
  destruct fuel as [|fuel]; [lia|].
  destruct l as [|y l].
  - cbn [write_seq read_items]. rewrite <- app_assoc. cbn [app].
    rewrite (Hx Hpx) by (simpl; done || lia). done.
  - cbn [write_seq read_items]. rewrite <- app_assoc. cbn [app].
    rewrite (Hx Hpx) by (simpl; done || lia). simpl.
    rewrite IH by (done || simpl in *; lia). done.
Qed.

Lemma read_members_write (d : list (string * pyval)) :
  Forall (fun kv => reads_back (snd kv)) d ->
  forallb (fun kv => json_plain (snd kv)) d = true -> d <> [] ->
  forall fuel rest, (list_sum (map (fun kv => S (size (snd kv))) d) <= fuel)%nat ->
    read_members fuel
      (write_seq (fun kv => write_string (fst kv) ++ ":" :: " " :: write (snd kv))
         "}" d ++ rest)
    = Some (d, rest).
Proof.
  induction 1 as [|[k x] d Hx Hd IH]; [done|].
  intros Hplain _ fuel rest Hfuel. simpl in Hplain, Hfuel, Hx.
  apply andb_true_iff in Hplain as [Hpx Hpd].
  destruct fuel as [|fuel]; [lia|].
  assert (forall tail,
    (write_string k ++ ":" :: " " :: write x) ++ tail
    = "034" :: concat (map escape_char (list_ascii_of_string k))
           ++ "034" :: ":" :: " " :: write x ++ tail) as Hshape.
  { intros tail. unfold write_string. simpl.
    by rewrite <- !app_assoc. }
  destruct d as [|y d].
  - cbn [write_seq fst snd]. rewrite <- app_assoc, Hshape.
    cbn [read_members]. rewrite read_chars_escape. simpl.
    rewrite (Hx Hpx) by (simpl; done || lia).
    simpl. by rewrite string_of_list_ascii_of_string.
  - cbn [write_seq fst snd]. rewrite <- app_assoc, Hshape.
    cbn [read_members]. rewrite read_chars_escape. simpl.
    rewrite (Hx Hpx) by (simpl; done || lia). simpl.
    rewrite IH by (done || simpl in *; lia).
    simpl. by rewrite string_of_list_ascii_of_string.
Qed.

Lemma assoc_set_fresh {V} (d : list (string * V)) k v :
  k ∉ map fst d -> assoc_set d k v = d ++ [(k, v)].
Proof.
  induction d as [|[k' v'] d IH]; simpl; [done|]. intros Hk.
  apply not_elem_of_cons in Hk as [Hne Hk].
  destruct (String.eqb_spec k' k) as [->|_]; [done|]. by rewrite IH.
Qed.

Lemma dict_of_pairs_nodup (d : list (string * pyval)) :
  NoDup (map fst d) -> dict_of_pairs d = d.
Proof.
  unfold dict_of_pairs. change d with ([] ++ d) at 1 3.
  generalize (@nil (string * pyval)) as acc.
  induction d as [|[k v] d IH]; intros acc Hnd; simpl.
  - by rewrite app_nil_r in *.
  - rewrite map_app in Hnd. simpl in Hnd.
    rewrite assoc_set_fresh.
    + replace (acc ++ (k, v) :: d) with ((acc ++ [(k, v)]) ++ d)
        by (by rewrite <- app_assoc).
      apply IH. by rewrite <- app_assoc, map_app.
    + apply NoDup_app in Hnd as (_ & Hdisj & _).
      intros Hin. apply (Hdisj _ Hin). left.
Qed.

Lemma read_write v : reads_back v.
Proof.
  induction v as [| b | z | s | b | l IH | d IH] using pyval_ind;
    intros Hplain fuel rest Hfuel Hrest;
    (destruct fuel as [|fuel]; [simpl in Hfuel; lia|]).
  - done.
  - by destruct b.
  - by apply read_write_int.
  - by apply read_write_string.
  - done.
  - destruct l as [|x l]; [done|].
    simpl in Hplain, Hfuel.
    pose proof (read_items_write (x :: l) IH Hplain ltac:(done) fuel rest
                  ltac:(simpl; lia)) as Hitems.
    destruct (write_head x) as (c & t & Hc & Hne).
    cbn [write app]. cbn [write_seq] in *.
    destruct l as [|y l]; rewrite Hc in *; cbn [app read] in *;
      rewrite Hne, Hitems; done.
  - destruct d as [|[k x] d]; [done|].
    simpl in Hplain, Hfuel.
    apply andb_true_iff in Hplain as [Hnd Hplain].
    apply bool_decide_eq_true in Hnd.
    pose proof (read_members_write ((k, x) :: d) IH Hplain ltac:(done) fuel rest
                  ltac:(simpl; lia)) as Hmembers.
    cbn [write app]. cbn [write_seq fst snd] in *. unfold write_string in *.
    destruct d as [|y d]; cbn [app read] in *;
      change (Ascii.eqb "034" "}") with false; cbn iota;
      rewrite Hmembers; simpl; by rewrite dict_of_pairs_nodup.
Qed.

Lemma write_seq_length {A} (w : A -> chars) (sz : A -> nat) close l :
  Forall (fun x => sz x <= length (w x))%nat l ->
  (list_sum (map (fun x => S (sz x)) l) <= length (write_seq w close l))%nat.
Proof.
  induction 1 as [|x l Hx Hl IH]; simpl; [lia|].
  destruct l as [|y l]; simpl in *; rewrite length_app; simpl; lia.
Qed.

Lemma size_le_length v : (size v <= length (write v))%nat.
Proof.
  induction v as [| b | z | s | b | l IH | d IH] using pyval_ind;
    cbn [size write]; try (simpl; lia).
  - by destruct b; simpl; lia.
  - destruct (write_head (PInt z)) as (c & t & Hc & _). simpl in Hc.
    rewrite Hc. simpl. lia.
  - pose proof (write_seq_length write size "]" l IH). simpl. lia.
  - set (w := fun kv : string * pyval =>
                write_string (fst kv) ++ ":" :: " " :: write (snd kv)).
    pose proof (write_seq_length w (fun kv => size (snd kv)) "}" d) as Hlen.
    assert (Forall (fun x => size (snd x) <= length (w x))%nat d) as Hall.
    { eapply Forall_impl; [exact IH|]. intros [k x] Hx. subst w. simpl in *.
      rewrite length_app. simpl. lia. }
    specialize (Hlen Hall). cbn [length]. lia.
Qed.

Lemma loads_dumps v : json_plain v = true -> loads (dumps v) = Some v.
Proof.
  intros Hplain. unfold loads, dumps.
  rewrite list_ascii_of_string_of_list_ascii.
  rewrite <- (app_nil_r (write v)) at 2.
  rewrite (read_write v Hplain) by (simpl; done || (pose proof (size_le_length v); lia)).
  done.
Qed.

End JsonFacts.

(** ** The base64 codec reads what it writes *)

Module Base64Facts.
Import Base64.
Local Open Scope char_scope.

Lemma sextet_of_char_of s : sextet_of (char_of s) = Some s.
Proof. destruct s as [[[[[[] []] []] []] []] []]; reflexivity. Qed.

Lemma char_of_not_pad s : Ascii.eqb (char_of s) "=" = false.
Proof. destruct s as [[[[[[] []] []] []] []] []]; reflexivity. Qed.

Lemma decode_encode_chars data : decode_chars (encode_chars data) = Some data.
Proof.
  assert (forall n data, (length data <= n)%nat ->
            decode_chars (encode_chars data) = Some data) as Hn;
    [|by apply (Hn (length data))].
  clear data. intros n. induction n as [n IH] using lt_wf_ind.
  intros [|x [|y [|z r]]] Hlen; [done| | |]; cbn [encode_chars].
  - destruct (Byte.to_bits x) as (x0 & x1 & x2 & x3 & x4 & x5 & x6 & x7) eqn:Ex.
    cbn [decode_chars]. rewrite !sextet_of_char_of. cbn -[Byte.of_bits].
    by rewrite <- Ex, Byte.of_bits_to_bits.
  - destruct (Byte.to_bits x) as (x0 & x1 & x2 & x3 & x4 & x5 & x6 & x7) eqn:Ex.
    destruct (Byte.to_bits y) as (y0 & y1 & y2 & y3 & y4 & y5 & y6 & y7) eqn:Ey.
    cbn [decode_chars]. rewrite !sextet_of_char_of. cbn [mbind option_bind].
    rewrite char_of_not_pad. cbn -[Byte.of_bits].
    by rewrite <- Ex, <- Ey, !Byte.of_bits_to_bits.
  - destruct (Byte.to_bits x) as (x0 & x1 & x2 & x3 & x4 & x5 & x6 & x7) eqn:Ex.
    destruct (Byte.to_bits y) as (y0 & y1 & y2 & y3 & y4 & y5 & y6 & y7) eqn:Ey.
    destruct (Byte.to_bits z) as (z0 & z1 & z2 & z3 & z4 & z5 & z6 & z7) eqn:Ez.
    cbn [decode_chars]. rewrite !sextet_of_char_of. cbn [mbind option_bind].
    rewrite !char_of_not_pad.
    rewrite (IH (length r)) by (simpl in Hlen; lia). cbn -[Byte.of_bits].
    by rewrite <- Ex, <- Ey, <- Ez, !Byte.of_bits_to_bits.
Qed.

Lemma decode_encode data : decode (encode data) = Some data.
Proof.
  unfold decode, encode. rewrite list_ascii_of_string_of_list_ascii.
  apply decode_encode_chars.
Qed.
End Base64Facts.

(** ** The stand-ins for the ciphers obey the laws assumed *)

Module ReferenceFacts.
Import Reference.

Lemma byte_xor_assoc x y z :
  byte_xor x (byte_xor y z) = byte_xor (byte_xor x y) z.
Proof.
  unfold byte_xor.
  destruct (Byte.to_bits x) as (x0 & x1 & x2 & x3 & x4 & x5 & x6 & x7).
  destruct (Byte.to_bits y) as (y0 & y1 & y2 & y3 & y4 & y5 & y6 & y7).
  destruct (Byte.to_bits z) as (z0 & z1 & z2 & z3 & z4 & z5 & z6 & z7).
  rewrite !Byte.to_bits_of_bits. by rewrite !xorb_assoc.
Qed.

Lemma byte_xor_comm x y : byte_xor x y = byte_xor y x.
Proof.
  unfold byte_xor.
  destruct (Byte.to_bits x) as (x0 & x1 & x2 & x3 & x4 & x5 & x6 & x7).
  destruct (Byte.to_bits y) as (y0 & y1 & y2 & y3 & y4 & y5 & y6 & y7).
  by rewrite (xorb_comm x0), (xorb_comm x1), (xorb_comm x2), (xorb_comm x3),
    (xorb_comm x4), (xorb_comm x5), (xorb_comm x6), (xorb_comm x7).
Qed.

Lemma fold_xor_alter m k c :
  (k < length c)%nat ->
  foldr byte_xor x00 (alter (fun x => byte_xor x m) k c)
  = byte_xor (foldr byte_xor x00 c) m.
Proof.
  revert k. induction c as [|x c IH]; intros [|k] Hk; simpl in *; try lia.
  - by rewrite <- !byte_xor_assoc, (byte_xor_comm m).
  - change (list_alter ?f k c) with (alter f k c).
    by rewrite IH, byte_xor_assoc by lia.
Qed.

Lemma ctr_law key nonce data : ctr key nonce (ctr key nonce data) = data.
Proof.
  unfold ctr. rewrite xor_zip_length, length_vec_to_list, Nat.min_id.
  apply xor_zip_involutive. by rewrite length_vec_to_list.
Qed.

Lemma kem_law seed coins kem_ciphertext shared_secret :
  encapsulate (snd (keypair seed)) coins = Return (kem_ciphertext, shared_secret) ->
  decapsulate kem_ciphertext (fst (keypair seed)) = Return shared_secret.
Proof. unfold encapsulate, decapsulate, keypair. simpl. by intros [= <- <-]. Qed.

Lemma tag_law key nonce ciphertext i :
  (i < 8 * length ciphertext)%nat ->
  tag key nonce (flip_bit i ciphertext) <> tag key nonce ciphertext.
Proof.
  intros Hi Heq. unfold tag in Heq. apply vcons_inj_1 in Heq.
  unfold flip_bit in Heq.
  rewrite fold_xor_alter in Heq by (apply Nat.Div0.div_lt_upper_bound; lia).
  apply (f_equal (fun x => byte_xor x (stream (key ++ nonce) 16 !!! 0%fin))) in Heq.
  rewrite !byte_xor_involutive in Heq.
  by apply byte_xor_bit_mask in Heq.
Qed.

End ReferenceFacts.

(** * The properties at work on the instance *)

Lemma C1_witness :
  exists st3,
    @CryptoService.decrypt Reference.primitives
      (Reference.envelope_of (Reference.sent 2 "qkd")) no_kwargs
      (Reference.recipient (Reference.sent 2 "qkd"))
    = (Return (@decrypted_payload Reference.primitives "hello" Reference.report),
       st3).
Proof.
  apply (@C1_decrypt_returns_the_payload_encrypted Reference.primitives
           Base64Facts.decode_encode JsonFacts.loads_dumps
           ReferenceFacts.ctr_law ReferenceFacts.kem_law
           Reference.hello Reference.report (Reference.arguments 2 "qkd")
           no_kwargs Reference.state0 (snd (Reference.sent 2 "qkd"))).
  - vm_compute. reflexivity.
  - split; [by eexists|]. right. vm_compute. done.
Defined.

Lemma C2_witness :
  exists st3,
    @CryptoService.decrypt Reference.primitives
      (@tamper Reference.primitives "ciphertext_b64" 5
         (Reference.envelope_of (Reference.sent 3 "pqc")))
      (Reference.arguments 3 "pqc") (snd (Reference.sent 3 "pqc"))
    = (Raise (DecryptionError tamper_message), st3).
Proof.
  apply (@C2_a_flipped_bit_raises_the_tamper_error Reference.primitives
           Base64Facts.decode_encode JsonFacts.loads_dumps
           ReferenceFacts.kem_law ReferenceFacts.tag_law
           Reference.hello Reference.report (Reference.arguments 3 "pqc")
           (Reference.arguments 3 "pqc") Reference.state0
           (snd (Reference.sent 3 "pqc")) (snd (Reference.sent 3 "pqc"))
           (Reference.envelope_of (Reference.sent 3 "pqc")) "ciphertext_b64" 5
           (default [] (@field_bytes Reference.primitives "ciphertext_b64"
              (Reference.envelope_of (Reference.sent 3 "pqc"))))).
  - vm_compute. reflexivity.
  - right. reflexivity.
  - exists Reference.recipient_seed. eexists _, _.
    split_and!; try reflexivity; vm_compute; reflexivity.
  - left. reflexivity.
  - vm_compute. reflexivity.
  - vm_compute. lia.
Defined.



Lemma C5_witness :
  exists w1,
    KeyServer.get_symmetric_key_by_id "2f1c" (Reference.stored "2f1c" "00ff")
    = (KeyServer.OK "00ff"%string, w1)
    /\ KeyServer.get_symmetric_key_by_id "2f1c"
         (serve_all [GetSymmetricKey 4; GetSymmetricKeyById "2f1c"] w1)
       = (KeyServer.HTTPException 404 "Symmetric key not found.",
          serve_all [GetSymmetricKey 4; GetSymmetricKeyById "2f1c"] w1).
Proof.
  destruct (C5_single_use_retrieval "2f1c" "00ff"
              (Reference.stored "2f1c" "00ff") ltac:(vm_compute; reflexivity))
    as (w1 & Hfirst & Hdel & Hlater & _).
  exists w1. split; [exact Hfirst|]. apply Hlater.
  injection Hfirst as <-. vm_compute. split; [discriminate|done].
Defined.

Lemma C6_witness :
  exists st1,
    @CryptoService.encrypt Reference.primitives Reference.hello Reference.report
      (Reference.arguments 2 "qkd") Reference.state0
    = (Return (Some (Reference.envelope_of (Reference.sent 2 "qkd"))), st1)
    /\ trace (world st1)
       = [EvQuantumKeyRequest
            (len (@plaintext Reference.primitives Reference.hello Reference.report))
            (Some "bob@example.org"%string);
          EvKdf; EvAeadEncrypt].
Proof.
  destruct (@C6_level2_qkd_requests_a_payload_length_key_and_derives_the_aes_key
              Reference.primitives Reference.hello Reference.report
              (Reference.arguments 2 "qkd") Reference.state0
              {| MockQKDClient.connected := true |}
              eq_refl eq_refl ltac:(vm_compute; reflexivity) eq_refl eq_refl)
    as (st1 & Hrun & Htrace & _).
  exists st1. split; [|exact Htrace].
  rewrite Hrun. vm_compute. reflexivity.
Defined.

Lemma C6_counterexample :
  (exists env, fst (Reference.sent 2 "qkd") = Return (Some env))
  /\ EvQuantumKeyRequest 80 (Some "bob@example.org"%string)
       ∈ trace (world (snd (Reference.sent 2 "qkd")))
  /\ (forall email,
        EvQuantumKeyRequest 32 email ∉ trace (world (snd (Reference.sent 2 "qkd")))).
Proof.
  replace (trace (world (snd (Reference.sent 2 "qkd"))))
    with [EvQuantumKeyRequest 80 (Some "bob@example.org"%string);
          EvKdf; EvAeadEncrypt] by (vm_compute; reflexivity).
  split; [eexists; vm_compute; reflexivity|].
  split; [apply list_elem_of_here|].
  intros email Hin.
  apply elem_of_cons in Hin as [Hin | Hin]; [discriminate Hin|].
  apply elem_of_cons in Hin as [Hin | Hin]; [discriminate Hin|].
  apply list_elem_of_singleton in Hin. discriminate Hin.
Qed.

Lemma C7_witness :
  exists st',
    @CryptoService.decrypt Reference.primitives
      (Reference.envelope_of (Reference.sent 3 "pqc")) no_kwargs
      (snd (Reference.sent 3 "pqc"))
    = (Raise (DecryptionError "Missing private key for local decapsulation."), st')
    /\ trace (world st') = trace (world (snd (Reference.sent 3 "pqc")))
    /\ st' = snd (Reference.sent 3 "pqc").
Proof.
  apply (@C7_missing_private_key_fails_before_the_primitives
           Reference.primitives
           (Reference.envelope_of (Reference.sent 3 "pqc")) no_kwargs
           (snd (Reference.sent 3 "pqc"))
           (default PNone (Json.loads (Reference.envelope_of (Reference.sent 3 "pqc"))))
           (PInt 3)
           (match py_getitem
                    (default PNone
                       (Json.loads (Reference.envelope_of (Reference.sent 3 "pqc"))))
                    "aes_payload" with
            | Return v => v
            | Raise _ => PNone
            end)).
  - vm_compute. reflexivity.
  - vm_compute. reflexivity.
  - reflexivity.
  - vm_compute. reflexivity.
  - reflexivity.
Defined.



Lemma C10_witness :
  exists method key_id_ xor_ciphertext,
    Reference.envelope_of (Reference.sent 1 "qkd")
    = Json.dumps (@CryptoService.envelope_12 1 method key_id_
        (PDict [("ciphertext_b64"%string, PStr (Base64.encode xor_ciphertext))]))
    /\ length xor_ciphertext
       = length (@plaintext Reference.primitives Reference.hello Reference.report).
Proof.
  apply (@C10_otp_ciphertext_has_the_length_of_the_payload Reference.primitives
           Reference.hello Reference.report (Reference.arguments 1 "qkd")
           Reference.state0 (snd (Reference.sent 1 "qkd"))
           (Reference.envelope_of (Reference.sent 1 "qkd"))).
  - reflexivity.
  - vm_compute. reflexivity.
Defined.

(** ** The further properties at work *)

Lemma X2_witness :
  @QKDService.get_quantum_key_by_id Reference.primitives
    (PStr (km_key_id (Reference.issued_key Reference.bob)))
    {| self := self (snd (Reference.issue Reference.bob));
       world := Reference.world0 |}
  = (Return (Reference.issued_key Reference.bob),
     {| self := self (snd (Reference.issue Reference.bob));
        world := Reference.world0 |}).
Proof.
  apply (@X2_issued_key_is_retrieved_from_the_cache Reference.primitives
           8 Reference.bob Reference.state0
           (snd (Reference.issue Reference.bob))).
  vm_compute. reflexivity.
Defined.

Lemma X3_witness :
  exists md' st3,
    @QKDService.get_quantum_key_by_id Reference.primitives
      (PStr (km_key_id (Reference.issued_key Reference.bob)))
      {| self := Reference.service0;
         world := world (snd (Reference.issue Reference.bob)) |}
    = (Return md', st3)
    /\ km_key_hex md' = km_key_hex (Reference.issued_key Reference.bob).
Proof.
  destruct (@X3_another_process_derives_the_same_key Reference.primitives
              8 Reference.bob Reference.state0
              (snd (Reference.issue Reference.bob))
              {| self := Reference.service0;
                 world := world (snd (Reference.issue Reference.bob)) |}
              (Reference.issued_key Reference.bob))
    as (md' & st3 & Hrun & Hhex & _).
  - vm_compute. reflexivity.
  - reflexivity.
  - reflexivity.
  - eexists. reflexivity.
  - vm_compute. reflexivity.
  - reflexivity.
  - reflexivity.
  - exists md', st3. split; [exact Hrun|exact Hhex].
Defined.

Lemma X4_witness :
  @QKDService.get_quantum_key_by_id Reference.primitives (PStr "qkd_00")
    Reference.state0
  = (Raise (QKDServiceError "Failed to get quantum key by ID"), Reference.state0)
  /\ @CryptoService.get_quantum_key_by_id Reference.primitives (PStr "qkd_00")
       Reference.state0
     = (Raise (EncryptionError "Failed to get quantum key by ID"), Reference.state0).
Proof.
  destruct (@X4_unknown_key_raises Reference.primitives "qkd_00" Reference.state0)
    as [Hqkd Hcrypto].
  - vm_compute. reflexivity.
  - right. vm_compute. reflexivity.
  - split; [exact Hqkd|]. apply Hcrypto. eexists. reflexivity.
Defined.

Lemma X5_witness :
  firebase_qkd_keys (world (snd (Reference.issue None)))
  = firebase_qkd_keys (world Reference.state0)
  /\ @QKDService.get_quantum_key_by_id Reference.primitives
       (PStr (km_key_id (Reference.issued_key None)))
       {| self := Reference.service0; world := world (snd (Reference.issue None)) |}
     = (Raise (QKDServiceError "Failed to get quantum key by ID"),
        {| self := Reference.service0;
           world := world (snd (Reference.issue None)) |}).
Proof.
  destruct (@X5_unpublished_key_stays_with_the_issuer Reference.primitives
              8 None Reference.state0 (snd (Reference.issue None))
              (Reference.issued_key None))
    as [Hsame Hnone].
  - vm_compute. reflexivity.
  - left. reflexivity.
  - split; [exact Hsame|]. apply Hnone; vm_compute; reflexivity.
Defined.

Lemma X6_witness :
  MockQKDClient.get_deterministic_key Sha256.digest
    {| MockQKDClient.connected := true |} "qkd_00" (-3) = [].
Proof.
  apply (X6_no_key_bytes_for_a_length_that_is_not_positive Sha256.digest
           {| MockQKDClient.connected := true |} "qkd_00" (-3)).
  lia.
Defined.

Lemma X9_witness :
  take 1 (KeyServer.xor_bytes [x01; x02; x03] [x0a])
  = xor_zip (take 1 [x01; x02; x03]) [x0a]
  /\ drop 1 (KeyServer.xor_bytes [x01; x02; x03] [x0a]) = drop 1 [x01; x02; x03].
Proof.
  apply (X9_xor_bytes_returns_the_excess_unmasked [x01; x02; x03] [x0a]).
  simpl. lia.
Defined.

Lemma X10_witness :
  exists w2,
    KeyServer.get_symmetric_key_by_id (fst Reference.minted)
      (snd (KeyServer.get_symmetric_key 4 Reference.world0))
    = (KeyServer.OK (snd Reference.minted), w2)
    /\ symmetric_keys w2 = symmetric_keys Reference.world0.
Proof.
  destruct (X10_a_minted_key_is_retrieved_once 4 Reference.world0
              (snd (KeyServer.get_symmetric_key 4 Reference.world0))
              (fst Reference.minted) (snd Reference.minted))
    as (_ & _ & _ & w2 & Hget & Hsame & _).
  - vm_compute. reflexivity.
  - exists w2. split; [exact Hget|exact Hsame].
Defined.

Lemma X11_witness :
  symmetric_keys
    (snd (KeyServer.get_symmetric_key 4 (Reference.stored "2f1c" "00ff")))
    !! "2f1c"%string
  = Some "00ff"%string.
Proof.
  apply (X11_minting_keeps_the_stored_keys 4 (Reference.stored "2f1c" "00ff")).
  vm_compute. reflexivity.
Defined.

Lemma no_oqs_unavailable : oqs_unavailable Reference.no_oqs.
Proof. split_and!; intros; eexists; reflexivity. Qed.

Lemma X14_witness :
  @KeyServer.decapsulate Reference.primitives Reference.no_oqs "bob"
    (fst Reference.encapsulated) (snd Reference.encapsulated)
    (snd Reference.generated)
  = KeyServer.OK (Base64.encode (ljust Reference.short_key 32 x00)).
Proof.
  apply (@X14_decapsulate_returns_the_key_padded Reference.primitives
           Reference.no_oqs Base64Facts.decode_encode ReferenceFacts.kem_law
           [x01] [x02] [x03] [x04] Reference.short_key "bob"
           (fst Reference.generated_keys) (snd Reference.generated_keys)
           (fst Reference.encapsulated) (snd Reference.encapsulated)
           ∅ (snd Reference.generated)).
  - apply no_oqs_unavailable.
  - vm_compute. reflexivity.
  - vm_compute. reflexivity.
Defined.

Lemma X15_witness :
  @CryptoService.encrypt Reference.primitives Reference.hello Reference.report
    (Reference.arguments 7 "pqc") Reference.state0
  = (Return None, Reference.state0).
Proof.
  apply (@X15_encrypt_returns_None_for_another_level Reference.primitives).
  - vm_compute. reflexivity.
  - apply (bool_decide_unpack _). vm_compute. exact I.
Defined.

Lemma X16_witness :
  @CryptoService.decrypt Reference.primitives
    (Reference.bare [("security_level"%string, PInt 9)]) no_kwargs
    Reference.state0
  = (Raise (ValueError "JSONDecodeError"), Reference.state0).
Proof.
  apply (@X16_decrypt_parses_nothing_for_another_level Reference.primitives
           (Reference.bare [("security_level"%string, PInt 9)]) no_kwargs
           Reference.state0
           (PDict [("qumail_version"%string, PStr "4.0");
                   ("security_level"%string, PInt 9)])
           (PInt 9)).
  - vm_compute. reflexivity.
  - vm_compute. reflexivity.
  - reflexivity.
  - reflexivity.
  - reflexivity.
  - reflexivity.
  - reflexivity.
Defined.

Lemma X17_witness :
  @CryptoService.encrypt Reference.primitives Reference.hello Reference.report
    {| security_level := Some 3; encryption_method := None;
       recipient_email := None; recipient_public_key_b64 := None;
       key_id := None; key_hex := None; private_key_b64 := None |}
    Reference.state0
  = (Raise (KeyError "recipient_public_key_b64"),
     logged EvAeadEncrypt (drawn_by 12 (drawn_by 32 Reference.state0))).
Proof.
  apply (@X17_level3_encrypts_before_it_misses_the_public_key
           Reference.primitives).
  - vm_compute. reflexivity.
  - reflexivity.
  - reflexivity.
Defined.

Lemma X18_witness :
  @CryptoService.encrypt Reference.primitives Reference.hello Reference.report
    {| security_level := Some 1; encryption_method := Some "qkd"%string;
       recipient_email := Some EmptyString; recipient_public_key_b64 := None;
       key_id := None; key_hex := None; private_key_b64 := None |}
    Reference.state0
  = (Raise (EncryptionError "Recipient email required for QKD encryption"),
     Reference.state0).
Proof.
  apply (@X18_qkd_without_recipient_requests_no_key Reference.primitives
           Reference.hello Reference.report _ Reference.state0 1).
  - vm_compute. reflexivity.
  - reflexivity.
  - left. reflexivity.
  - reflexivity.
  - reflexivity.
Defined.

Lemma X19_witness :
  @CryptoService.decrypt Reference.primitives
    (Reference.bare
       [("security_level"%string, PInt 1);
        ("encryption_method"%string, PStr "pqc");
        ("key_id"%string, PStr "2f1c");
        ("payload"%string,
         PDict [("ciphertext_b64"%string,
                 PStr (Base64.encode [x01; x02; x03]))])])
    {| security_level := None; encryption_method := None;
       recipient_email := None; recipient_public_key_b64 := None;
       key_id := None; key_hex := Some "00ff"%string;
       private_key_b64 := None |}
    Reference.state0
  = (Raise (DecryptionError "OTP key is shorter than ciphertext."),
     Reference.state0).
Proof.
  destruct (@X19_decrypt_checks_the_length_of_the_pad Reference.primitives
    (Reference.bare
       [("security_level"%string, PInt 1);
        ("encryption_method"%string, PStr "pqc");
        ("key_id"%string, PStr "2f1c");
        ("payload"%string,
         PDict [("ciphertext_b64"%string,
                 PStr (Base64.encode [x01; x02; x03]))])])
    {| security_level := None; encryption_method := None;
       recipient_email := None; recipient_public_key_b64 := None;
       key_id := None; key_hex := Some "00ff"%string;
       private_key_b64 := None |}
    Reference.state0
    [("qumail_version"%string, PStr "4.0");
     ("security_level"%string, PInt 1);
     ("encryption_method"%string, PStr "pqc");
     ("key_id"%string, PStr "2f1c");
     ("payload"%string,
      PDict [("ciphertext_b64"%string, PStr (Base64.encode [x01; x02; x03]))])]
    (PDict [("ciphertext_b64"%string, PStr (Base64.encode [x01; x02; x03]))])
    (Base64.encode [x01; x02; x03]) [x01; x02; x03]) as [Hpqc _].
  - vm_compute. reflexivity.
  - reflexivity.
  - reflexivity.
  - reflexivity.
  - vm_compute. reflexivity.
  - apply (Hpqc "00ff"%string [x00; xff]).
    + reflexivity.
    + reflexivity.
    + vm_compute. reflexivity.
    + vm_compute. reflexivity.
Defined.

Lemma X20_witness :
  @CryptoService.encrypt Reference.primitives Reference.hello Reference.report
    {| security_level := Some 2; encryption_method := Some "pqc"%string;
       recipient_email := None; recipient_public_key_b64 := None;
       key_id := Some "2f1c"%string;
       key_hex := Some (hex (replicate 32 x42 ++ [x01]));
       private_key_b64 := None |} Reference.state0
  = @CryptoService.encrypt Reference.primitives Reference.hello Reference.report
      {| security_level := Some 2; encryption_method := Some "pqc"%string;
         recipient_email := None; recipient_public_key_b64 := None;
         key_id := Some "2f1c"%string;
         key_hex := Some (hex (replicate 32 x42 ++ [x02; x03]));
         private_key_b64 := None |} Reference.state0.
Proof.
  destruct (@X20_level2_uses_the_first_32_bytes_of_the_key Reference.primitives
              Reference.hello Reference.report EmptyString Reference.state0
              None None (Some "2f1c"%string) None
              (hex (replicate 32 x42 ++ [x01]))
              (hex (replicate 32 x42 ++ [x02; x03]))
              (replicate 32 x42 ++ [x01]) (replicate 32 x42 ++ [x02; x03]) [])
    as [Hsame _].
  - vm_compute. reflexivity.
  - vm_compute. reflexivity.
  - reflexivity.
  - exact Hsame.
Defined.

Lemma X21_witness :
  exists level d,
    security_level (Reference.arguments 2 "qkd") = Some level
    /\ Json.loads (Reference.envelope_of (Reference.sent 2 "qkd")) = Some (PDict d)
    /\ assoc_get d "qumail_version" = Some (PStr "4.0")
    /\ assoc_get d "security_level" = Some (PInt level).
Proof.
  apply (@X21_the_envelope_names_its_level Reference.primitives
           JsonFacts.loads_dumps Reference.hello Reference.report
           (Reference.arguments 2 "qkd") Reference.state0
           (snd (Reference.sent 2 "qkd"))).
  vm_compute. reflexivity.
Defined.

Lemma X22_witness :
  @EmailController.handle_email_selection Reference.primitives
    (Some (Json.dumps (PStr "qumail_version"))) None Reference.state0
  = (Return (EmailController.ShowUnexpected AttributeError), Reference.state0).
Proof.
  apply (@X22_a_document_that_is_no_object_ends_in_the_failure_page
           Reference.primitives (Json.dumps (PStr "qumail_version")) None
           Reference.state0 (PStr "qumail_version")).
  - vm_compute. discriminate.
  - vm_compute. reflexivity.
  - vm_compute. reflexivity.
  - intros d. discriminate.
Defined.

Lemma loads_empty : Json.loads EmptyString = None.
Proof. reflexivity. Qed.

Lemma X23_witness :
  @nil attachment = []
  /\ @EmailController.handle_email_selection Reference.primitives
       (Some (Reference.envelope_of (Reference.sent_pqc 1))) None
       Reference.state0
     = (Return (EmailController.ShowFailed
          "Legacy PQC message level unsupported after QKD upgrade."),
        Reference.state0).
Proof.
  apply (@X23_what_the_pqc_path_sends_is_refused_on_receipt Reference.primitives
           JsonFacts.loads_dumps loads_empty "hello" [] 1
           Reference.state0 (snd (Reference.sent_pqc 1))).
  - left. reflexivity.
  - vm_compute. reflexivity.
Defined.

Lemma X24_witness :
  @EmailController.handle_email_selection Reference.primitives
    (Some (Reference.envelope_of (Reference.sent 3 "pqc"))) None Reference.state0
  = (Return (EmailController.ShowFailed
       "Cannot decrypt Level 3 message: PQC private key not found in settings."),
     Reference.state0).
Proof.
  apply (@X24_level3_without_a_private_key_is_not_decrypted Reference.primitives
           JsonFacts.loads_dumps loads_empty Reference.hello Reference.report
           (Reference.arguments 3 "pqc") Reference.state0
           (snd (Reference.sent 3 "pqc"))).
  - reflexivity.
  - vm_compute. reflexivity.
  - reflexivity.
Defined.

Lemma X25_witness :
  @EmailController.handle_email_selection Reference.primitives
    (Some (Reference.envelope_of (Reference.sent 4 "pqc"))) None Reference.state0
  = (Return (EmailController.ShowPayload (PStr "hello")
       (PList (map (@CryptoService.attachment_json Reference.primitives)
                 Reference.report))),
     Reference.state0).
Proof.
  apply (@X25_level4_is_shown_as_it_is_in_the_envelope Reference.primitives
           JsonFacts.loads_dumps loads_empty Reference.hello Reference.report
           (Reference.arguments 4 "pqc") Reference.state0
           (snd (Reference.sent 4 "pqc"))).
  - reflexivity.
  - vm_compute. reflexivity.
Defined.

Lemma X26_witness :
  exists st3,
    @EmailController.handle_email_selection Reference.primitives
      (Some (Reference.envelope_of (Reference.sent 1 "qkd"))) None
      (Reference.recipient (Reference.sent 1 "qkd"))
    = (Return (EmailController.ShowPayload (PStr "hello")
         (PList (map (@decrypted_attachment Reference.primitives)
                   Reference.report))),
       st3).
Proof.
  apply (@X26_a_qkd_message_is_shown_as_it_was_sent Reference.primitives
           JsonFacts.loads_dumps loads_empty Base64Facts.decode_encode
           ReferenceFacts.ctr_law Reference.hello Reference.report
           (Reference.arguments 1 "qkd") Reference.state0
           (snd (Reference.sent 1 "qkd"))
           (Reference.recipient (Reference.sent 1 "qkd"))
           (Reference.envelope_of (Reference.sent 1 "qkd")) None 1).
  - reflexivity.
  - left. reflexivity.
  - reflexivity.
  - vm_compute. reflexivity.
  - split; [by eexists|]. right. vm_compute. done.
Defined.

Lemma X27_witness :
  exists st3,
    @EmailController.handle_email_selection Reference.primitives
      (Some (Reference.envelope_of (Reference.sent 3 "pqc")))
      (Some (Base64.encode (fst (Reference.keypair Reference.recipient_seed))))
      Reference.state0
    = (Return (EmailController.ShowPayload (PStr "hello")
         (PList (map (@decrypted_attachment Reference.primitives)
                   Reference.report))),
       st3).
Proof.
  apply (@X27_a_level3_message_is_shown_as_it_was_sent Reference.primitives
           JsonFacts.loads_dumps loads_empty Base64Facts.decode_encode
           ReferenceFacts.ctr_law ReferenceFacts.kem_law
           Reference.hello Reference.report (Reference.arguments 3 "pqc")
           Reference.state0 (snd (Reference.sent 3 "pqc")) Reference.state0
           (Reference.envelope_of (Reference.sent 3 "pqc"))
           (Base64.encode (snd (Reference.keypair Reference.recipient_seed)))
           (Base64.encode (fst (Reference.keypair Reference.recipient_seed)))
           Reference.recipient_seed).
  - reflexivity.
  - vm_compute. reflexivity.
  - reflexivity.
  - vm_compute. reflexivity.
  - vm_compute. reflexivity.
  - vm_compute. reflexivity.
Defined.

Lemma X28_witness :
  exists env st1 (key : bytes),
    @EmailController.handle_send_email_pqc Reference.primitives "hello"
      [] 2 Reference.state0
    = (Return (Some env), st1)
    /\ len key = 32
    /\ trace (world st1) = [EvSymmetricKeyRequest 32; EvAeadEncrypt].
Proof.
  pose proof (@X28_the_pqc_sending_path_gets_a_key_that_fits
                Reference.primitives "hello" [] 2 Reference.state0) as H.
  cbv beta iota zeta in H.
  destruct H as (env & st1 & key & Hrun & Hlen & _ & Htrace).
  - right. reflexivity.
  - vm_compute. reflexivity.
  - reflexivity.
  - vm_compute. reflexivity.
  - exists env, st1, key. split; [exact Hrun|]. split; [exact Hlen|exact Htrace].
Defined.

Lemma X30_witness :
  replace_dot (km_key_id (Reference.issued_key Reference.bob))
  = km_key_id (Reference.issued_key Reference.bob)
  /\ exists pub,
       firebase_qkd_keys (world (snd (Reference.issue Reference.bob)))
         !! km_key_id (Reference.issued_key Reference.bob) = Some pub
       /\ pub_key_length_bytes pub = 8.
Proof.
  destruct (@X30_a_quantum_key_is_published_under_its_identifier
              Reference.primitives 8 Reference.bob Reference.state0
              (snd (Reference.issue Reference.bob))
              (Reference.issued_key Reference.bob))
    as [Hsafe Hpub].
  - vm_compute. reflexivity.
  - split; [exact Hsafe|].
    destruct (Hpub eq_refl eq_refl) as (pub & Hlookup & _ & Hlen & _).
    exists pub. split; [exact Hlookup|exact Hlen].
Defined.
